(** * DayFlow: the hierarchical task store

    A shallow embedding of the task store of DayFlow
    ([src/hooks/use-task-store.ts], [src/lib/store-utils.ts],
    [src/lib/types.ts]) and the properties of its mutation engine, of the
    serial-completion gate and of the Today selector.

    Conventions of the embedding.
    - A [Date] is the instant it denotes, in milliseconds since the epoch
      (what [getTime()] returns); [<] and [>] on dates compare instants.
      The records hold Dates, not Invalid Dates: a time value lies within
      [maxTime] of the epoch, and where the source computes a time value
      ([addTask]) the properties of the result are stated for a computed
      value within that range.
    - The host's time zone, which date-fns reads to count days, is an input
      of the Today selector ([TimeZone]).
    - The store is a tree and the draft handed out by [produce] is mutated in
      place.  An object reference into the draft is a position (indices into
      the nested arrays); a mutation through the reference is an [alter] at
      that position.  None of the modelled mutations that run between a
      lookup and the use of its result moves an element, so positions stay
      valid.
    - [new Date()] and [uuidv4()] are inputs of the operations ([now],
      [newId]).
    - [console.warn] and [console.error] have no effect on the store and are
      not represented. *)

From Stdlib Require Import ZArith String Ascii List Lia Permutation.
From stdpp Require Import base list strings numbers sorting gmap pretty.

Local Open Scope string_scope.
Local Open Scope Z_scope.

(** ** Data model ([src/lib/types.ts]) *)

Definition Date := Z.



Inductive Priority := high | medium | low.
Inductive Status := todo | started | inprogress | done.

Definition Priority_eqb (a b : Priority) : bool :=
  match a, b with
  | high, high | medium, medium | low, low => true
  | _, _ => false
  end.

Definition Status_eqb (a b : Status) : bool :=
  match a, b with
  | todo, todo | started, started | inprogress, inprogress | done, done => true
  | _, _ => false
  end.

Record DescriptionHistoryEntry := mkEntry {
  timestamp : Date;
  content : string
}.

Inductive AttachmentType := link | file.

Record Attachment := mkAttachment {
  att_id : string;
  att_type : AttachmentType;
  att_name : string;
  att_url : option string;
  att_dataUri : option string;
  att_fileType : option string;
  att_timestamp : Date
}.

(** A schedule and a reminder are objects with the keys below.
    [updateActivity] compares two of them by their [JSON.stringify] texts,
    which list the keys in insertion order: the records hold that order
    too. *)
Inductive ScheduleKey := KrecurrenceRule | KspecificTimes | KtimeZone.

Record Schedule := mkSchedule {
  recurrenceRule : string;
  specificTimes : list string;
  timeZone : string;
  scheduleKeys : list ScheduleKey
}.

Inductive ReminderKey := KremindAt | Kmessage.

Record Reminder := mkReminder {
  remindAt : string;
  message : string;
  reminderKeys : list ReminderKey
}.

(** The three item records carry the fields of the interfaces of
    [types.ts] and the fields the store adds when it creates an item
    ([autoRepeat], [schedule], [reminder], and on an Activity [notes],
    [numericValue], [isSkipped], [isDue], [dueCount], [lastInstanceDate]). *)

Record Activity := mkActivity {
  a_id : string;
  a_parentId : string;
  a_name : string;
  a_description : option string;
  a_creationDate : Date;
  a_expectedCompletionDate : Date;
  a_actualCompletionDate : option Date;
  a_lastEditedDate : Date;
  a_status : Status;
  a_priority : Priority;
  a_order : Z;
  a_descriptionHistory : list DescriptionHistoryEntry;
  a_attachments : list Attachment;
  a_autoRepeat : bool;
  a_schedule : Schedule;
  a_reminder : Reminder;
  a_lastInstanceDate : option Date;
  a_notes : string;
  a_numericValue : option Z;
  a_isSkipped : bool;
  a_isDue : bool;
  a_dueCount : Z
}.

Record Subtask := mkSubtask {
  st_id : string;
  st_parentId : string;
  st_name : string;
  st_description : option string;
  st_creationDate : Date;
  st_expectedCompletionDate : Date;
  st_actualCompletionDate : option Date;
  st_lastEditedDate : Date;
  st_status : Status;
  st_priority : Priority;
  st_order : Z;
  st_serialCompletionMandatory : bool;
  st_sequenceMandatory : bool;
  st_activities : list Activity;
  st_dependencies : list string;
  st_descriptionHistory : list DescriptionHistoryEntry;
  st_attachments : list Attachment;
  st_autoRepeat : bool;
  st_schedule : Schedule;
  st_reminder : Reminder
}.

Record Task := mkTask {
  t_id : string;
  t_listId : string;
  t_name : string;
  t_description : option string;
  t_creationDate : Date;
  t_expectedCompletionDate : Date;
  t_actualCompletionDate : option Date;
  t_lastEditedDate : Date;
  t_status : Status;
  t_priority : Priority;
  t_order : Z;
  t_serialCompletionMandatory : bool;
  t_sequenceMandatory : bool;
  t_subtasks : list Subtask;
  t_dependencies : list string;
  t_descriptionHistory : list DescriptionHistoryEntry;
  t_attachments : list Attachment;
  t_autoRepeat : bool;
  t_schedule : Schedule;
  t_reminder : Reminder
}.

(** A TaskList declares [id], [name] and [tasks].  [l_lastEditedDate] is the
    property an update leaves on a list object when the [parentId] of a
    Subtask resolves to a list; it is absent ([None]) otherwise. *)

Record TaskList := mkTaskList {
  l_id : string;
  l_name : string;
  l_tasks : list Task;
  l_lastEditedDate : option Date
}.

Record TaskStore := mkTaskStore {
  s_taskLists : list TaskList;
  s_isLoading : bool;
  s_error : option string
}.

(** *** Field assignment

    [set_f v x] is the object [x] after [x.f = v]. *)

Definition set_a_name (v : string) (x : Activity) : Activity :=
  {| a_id := a_id x; a_parentId := a_parentId x; a_name := v; a_description := a_description x;
     a_creationDate := a_creationDate x; a_expectedCompletionDate := a_expectedCompletionDate x;
     a_actualCompletionDate := a_actualCompletionDate x; a_lastEditedDate := a_lastEditedDate x;
     a_status := a_status x; a_priority := a_priority x; a_order := a_order x;
     a_descriptionHistory := a_descriptionHistory x; a_attachments := a_attachments x;
     a_autoRepeat := a_autoRepeat x; a_schedule := a_schedule x; a_reminder := a_reminder x;
     a_lastInstanceDate := a_lastInstanceDate x; a_notes := a_notes x; a_numericValue :=
     a_numericValue x; a_isSkipped := a_isSkipped x; a_isDue := a_isDue x; a_dueCount :=
     a_dueCount x |}.

Definition set_a_description (v : option string) (x : Activity) : Activity :=
  {| a_id := a_id x; a_parentId := a_parentId x; a_name := a_name x; a_description := v;
     a_creationDate := a_creationDate x; a_expectedCompletionDate := a_expectedCompletionDate x;
     a_actualCompletionDate := a_actualCompletionDate x; a_lastEditedDate := a_lastEditedDate x;
     a_status := a_status x; a_priority := a_priority x; a_order := a_order x;
     a_descriptionHistory := a_descriptionHistory x; a_attachments := a_attachments x;
     a_autoRepeat := a_autoRepeat x; a_schedule := a_schedule x; a_reminder := a_reminder x;
     a_lastInstanceDate := a_lastInstanceDate x; a_notes := a_notes x; a_numericValue :=
     a_numericValue x; a_isSkipped := a_isSkipped x; a_isDue := a_isDue x; a_dueCount :=
     a_dueCount x |}.

Definition set_a_creationDate (v : Date) (x : Activity) : Activity :=
  {| a_id := a_id x; a_parentId := a_parentId x; a_name := a_name x; a_description :=
     a_description x; a_creationDate := v; a_expectedCompletionDate := a_expectedCompletionDate
     x; a_actualCompletionDate := a_actualCompletionDate x; a_lastEditedDate := a_lastEditedDate
     x; a_status := a_status x; a_priority := a_priority x; a_order := a_order x;
     a_descriptionHistory := a_descriptionHistory x; a_attachments := a_attachments x;
     a_autoRepeat := a_autoRepeat x; a_schedule := a_schedule x; a_reminder := a_reminder x;
     a_lastInstanceDate := a_lastInstanceDate x; a_notes := a_notes x; a_numericValue :=
     a_numericValue x; a_isSkipped := a_isSkipped x; a_isDue := a_isDue x; a_dueCount :=
     a_dueCount x |}.

Definition set_a_expectedCompletionDate (v : Date) (x : Activity) : Activity :=
  {| a_id := a_id x; a_parentId := a_parentId x; a_name := a_name x; a_description :=
     a_description x; a_creationDate := a_creationDate x; a_expectedCompletionDate := v;
     a_actualCompletionDate := a_actualCompletionDate x; a_lastEditedDate := a_lastEditedDate x;
     a_status := a_status x; a_priority := a_priority x; a_order := a_order x;
     a_descriptionHistory := a_descriptionHistory x; a_attachments := a_attachments x;
     a_autoRepeat := a_autoRepeat x; a_schedule := a_schedule x; a_reminder := a_reminder x;
     a_lastInstanceDate := a_lastInstanceDate x; a_notes := a_notes x; a_numericValue :=
     a_numericValue x; a_isSkipped := a_isSkipped x; a_isDue := a_isDue x; a_dueCount :=
     a_dueCount x |}.

Definition set_a_actualCompletionDate (v : option Date) (x : Activity) : Activity :=
  {| a_id := a_id x; a_parentId := a_parentId x; a_name := a_name x; a_description :=
     a_description x; a_creationDate := a_creationDate x; a_expectedCompletionDate :=
     a_expectedCompletionDate x; a_actualCompletionDate := v; a_lastEditedDate :=
     a_lastEditedDate x; a_status := a_status x; a_priority := a_priority x; a_order := a_order
     x; a_descriptionHistory := a_descriptionHistory x; a_attachments := a_attachments x;
     a_autoRepeat := a_autoRepeat x; a_schedule := a_schedule x; a_reminder := a_reminder x;
     a_lastInstanceDate := a_lastInstanceDate x; a_notes := a_notes x; a_numericValue :=
     a_numericValue x; a_isSkipped := a_isSkipped x; a_isDue := a_isDue x; a_dueCount :=
     a_dueCount x |}.

Definition set_a_lastEditedDate (v : Date) (x : Activity) : Activity :=
  {| a_id := a_id x; a_parentId := a_parentId x; a_name := a_name x; a_description :=
     a_description x; a_creationDate := a_creationDate x; a_expectedCompletionDate :=
     a_expectedCompletionDate x; a_actualCompletionDate := a_actualCompletionDate x;
     a_lastEditedDate := v; a_status := a_status x; a_priority := a_priority x; a_order :=
     a_order x; a_descriptionHistory := a_descriptionHistory x; a_attachments := a_attachments
     x; a_autoRepeat := a_autoRepeat x; a_schedule := a_schedule x; a_reminder := a_reminder x;
     a_lastInstanceDate := a_lastInstanceDate x; a_notes := a_notes x; a_numericValue :=
     a_numericValue x; a_isSkipped := a_isSkipped x; a_isDue := a_isDue x; a_dueCount :=
     a_dueCount x |}.

Definition set_a_status (v : Status) (x : Activity) : Activity :=
  {| a_id := a_id x; a_parentId := a_parentId x; a_name := a_name x; a_description :=
     a_description x; a_creationDate := a_creationDate x; a_expectedCompletionDate :=
     a_expectedCompletionDate x; a_actualCompletionDate := a_actualCompletionDate x;
     a_lastEditedDate := a_lastEditedDate x; a_status := v; a_priority := a_priority x; a_order
     := a_order x; a_descriptionHistory := a_descriptionHistory x; a_attachments :=
     a_attachments x; a_autoRepeat := a_autoRepeat x; a_schedule := a_schedule x; a_reminder :=
     a_reminder x; a_lastInstanceDate := a_lastInstanceDate x; a_notes := a_notes x;
     a_numericValue := a_numericValue x; a_isSkipped := a_isSkipped x; a_isDue := a_isDue x;
     a_dueCount := a_dueCount x |}.

Definition set_a_priority (v : Priority) (x : Activity) : Activity :=
  {| a_id := a_id x; a_parentId := a_parentId x; a_name := a_name x; a_description :=
     a_description x; a_creationDate := a_creationDate x; a_expectedCompletionDate :=
     a_expectedCompletionDate x; a_actualCompletionDate := a_actualCompletionDate x;
     a_lastEditedDate := a_lastEditedDate x; a_status := a_status x; a_priority := v; a_order :=
     a_order x; a_descriptionHistory := a_descriptionHistory x; a_attachments := a_attachments
     x; a_autoRepeat := a_autoRepeat x; a_schedule := a_schedule x; a_reminder := a_reminder x;
     a_lastInstanceDate := a_lastInstanceDate x; a_notes := a_notes x; a_numericValue :=
     a_numericValue x; a_isSkipped := a_isSkipped x; a_isDue := a_isDue x; a_dueCount :=
     a_dueCount x |}.

Definition set_a_order (v : Z) (x : Activity) : Activity :=
  {| a_id := a_id x; a_parentId := a_parentId x; a_name := a_name x; a_description :=
     a_description x; a_creationDate := a_creationDate x; a_expectedCompletionDate :=
     a_expectedCompletionDate x; a_actualCompletionDate := a_actualCompletionDate x;
     a_lastEditedDate := a_lastEditedDate x; a_status := a_status x; a_priority := a_priority x;
     a_order := v; a_descriptionHistory := a_descriptionHistory x; a_attachments :=
     a_attachments x; a_autoRepeat := a_autoRepeat x; a_schedule := a_schedule x; a_reminder :=
     a_reminder x; a_lastInstanceDate := a_lastInstanceDate x; a_notes := a_notes x;
     a_numericValue := a_numericValue x; a_isSkipped := a_isSkipped x; a_isDue := a_isDue x;
     a_dueCount := a_dueCount x |}.

Definition set_a_descriptionHistory (v : list DescriptionHistoryEntry) (x : Activity) : Activity :=
  {| a_id := a_id x; a_parentId := a_parentId x; a_name := a_name x; a_description :=
     a_description x; a_creationDate := a_creationDate x; a_expectedCompletionDate :=
     a_expectedCompletionDate x; a_actualCompletionDate := a_actualCompletionDate x;
     a_lastEditedDate := a_lastEditedDate x; a_status := a_status x; a_priority := a_priority x;
     a_order := a_order x; a_descriptionHistory := v; a_attachments := a_attachments x;
     a_autoRepeat := a_autoRepeat x; a_schedule := a_schedule x; a_reminder := a_reminder x;
     a_lastInstanceDate := a_lastInstanceDate x; a_notes := a_notes x; a_numericValue :=
     a_numericValue x; a_isSkipped := a_isSkipped x; a_isDue := a_isDue x; a_dueCount :=
     a_dueCount x |}.

Definition set_a_autoRepeat (v : bool) (x : Activity) : Activity :=
  {| a_id := a_id x; a_parentId := a_parentId x; a_name := a_name x; a_description :=
     a_description x; a_creationDate := a_creationDate x; a_expectedCompletionDate :=
     a_expectedCompletionDate x; a_actualCompletionDate := a_actualCompletionDate x;
     a_lastEditedDate := a_lastEditedDate x; a_status := a_status x; a_priority := a_priority x;
     a_order := a_order x; a_descriptionHistory := a_descriptionHistory x; a_attachments :=
     a_attachments x; a_autoRepeat := v; a_schedule := a_schedule x; a_reminder := a_reminder x;
     a_lastInstanceDate := a_lastInstanceDate x; a_notes := a_notes x; a_numericValue :=
     a_numericValue x; a_isSkipped := a_isSkipped x; a_isDue := a_isDue x; a_dueCount :=
     a_dueCount x |}.

Definition set_a_schedule (v : Schedule) (x : Activity) : Activity :=
  {| a_id := a_id x; a_parentId := a_parentId x; a_name := a_name x; a_description :=
     a_description x; a_creationDate := a_creationDate x; a_expectedCompletionDate :=
     a_expectedCompletionDate x; a_actualCompletionDate := a_actualCompletionDate x;
     a_lastEditedDate := a_lastEditedDate x; a_status := a_status x; a_priority := a_priority x;
     a_order := a_order x; a_descriptionHistory := a_descriptionHistory x; a_attachments :=
     a_attachments x; a_autoRepeat := a_autoRepeat x; a_schedule := v; a_reminder := a_reminder
     x; a_lastInstanceDate := a_lastInstanceDate x; a_notes := a_notes x; a_numericValue :=
     a_numericValue x; a_isSkipped := a_isSkipped x; a_isDue := a_isDue x; a_dueCount :=
     a_dueCount x |}.

Definition set_a_reminder (v : Reminder) (x : Activity) : Activity :=
  {| a_id := a_id x; a_parentId := a_parentId x; a_name := a_name x; a_description :=
     a_description x; a_creationDate := a_creationDate x; a_expectedCompletionDate :=
     a_expectedCompletionDate x; a_actualCompletionDate := a_actualCompletionDate x;
     a_lastEditedDate := a_lastEditedDate x; a_status := a_status x; a_priority := a_priority x;
     a_order := a_order x; a_descriptionHistory := a_descriptionHistory x; a_attachments :=
     a_attachments x; a_autoRepeat := a_autoRepeat x; a_schedule := a_schedule x; a_reminder :=
     v; a_lastInstanceDate := a_lastInstanceDate x; a_notes := a_notes x; a_numericValue :=
     a_numericValue x; a_isSkipped := a_isSkipped x; a_isDue := a_isDue x; a_dueCount :=
     a_dueCount x |}.

Definition set_a_notes (v : string) (x : Activity) : Activity :=
  {| a_id := a_id x; a_parentId := a_parentId x; a_name := a_name x; a_description :=
     a_description x; a_creationDate := a_creationDate x; a_expectedCompletionDate :=
     a_expectedCompletionDate x; a_actualCompletionDate := a_actualCompletionDate x;
     a_lastEditedDate := a_lastEditedDate x; a_status := a_status x; a_priority := a_priority x;
     a_order := a_order x; a_descriptionHistory := a_descriptionHistory x; a_attachments :=
     a_attachments x; a_autoRepeat := a_autoRepeat x; a_schedule := a_schedule x; a_reminder :=
     a_reminder x; a_lastInstanceDate := a_lastInstanceDate x; a_notes := v; a_numericValue :=
     a_numericValue x; a_isSkipped := a_isSkipped x; a_isDue := a_isDue x; a_dueCount :=
     a_dueCount x |}.

Definition set_a_numericValue (v : option Z) (x : Activity) : Activity :=
  {| a_id := a_id x; a_parentId := a_parentId x; a_name := a_name x; a_description :=
     a_description x; a_creationDate := a_creationDate x; a_expectedCompletionDate :=
     a_expectedCompletionDate x; a_actualCompletionDate := a_actualCompletionDate x;
     a_lastEditedDate := a_lastEditedDate x; a_status := a_status x; a_priority := a_priority x;
     a_order := a_order x; a_descriptionHistory := a_descriptionHistory x; a_attachments :=
     a_attachments x; a_autoRepeat := a_autoRepeat x; a_schedule := a_schedule x; a_reminder :=
     a_reminder x; a_lastInstanceDate := a_lastInstanceDate x; a_notes := a_notes x;
     a_numericValue := v; a_isSkipped := a_isSkipped x; a_isDue := a_isDue x; a_dueCount :=
     a_dueCount x |}.

Definition set_a_isSkipped (v : bool) (x : Activity) : Activity :=
  {| a_id := a_id x; a_parentId := a_parentId x; a_name := a_name x; a_description :=
     a_description x; a_creationDate := a_creationDate x; a_expectedCompletionDate :=
     a_expectedCompletionDate x; a_actualCompletionDate := a_actualCompletionDate x;
     a_lastEditedDate := a_lastEditedDate x; a_status := a_status x; a_priority := a_priority x;
     a_order := a_order x; a_descriptionHistory := a_descriptionHistory x; a_attachments :=
     a_attachments x; a_autoRepeat := a_autoRepeat x; a_schedule := a_schedule x; a_reminder :=
     a_reminder x; a_lastInstanceDate := a_lastInstanceDate x; a_notes := a_notes x;
     a_numericValue := a_numericValue x; a_isSkipped := v; a_isDue := a_isDue x; a_dueCount :=
     a_dueCount x |}.

Definition set_a_isDue (v : bool) (x : Activity) : Activity :=
  {| a_id := a_id x; a_parentId := a_parentId x; a_name := a_name x; a_description :=
     a_description x; a_creationDate := a_creationDate x; a_expectedCompletionDate :=
     a_expectedCompletionDate x; a_actualCompletionDate := a_actualCompletionDate x;
     a_lastEditedDate := a_lastEditedDate x; a_status := a_status x; a_priority := a_priority x;
     a_order := a_order x; a_descriptionHistory := a_descriptionHistory x; a_attachments :=
     a_attachments x; a_autoRepeat := a_autoRepeat x; a_schedule := a_schedule x; a_reminder :=
     a_reminder x; a_lastInstanceDate := a_lastInstanceDate x; a_notes := a_notes x;
     a_numericValue := a_numericValue x; a_isSkipped := a_isSkipped x; a_isDue := v; a_dueCount
     := a_dueCount x |}.

Definition set_a_dueCount (v : Z) (x : Activity) : Activity :=
  {| a_id := a_id x; a_parentId := a_parentId x; a_name := a_name x; a_description :=
     a_description x; a_creationDate := a_creationDate x; a_expectedCompletionDate :=
     a_expectedCompletionDate x; a_actualCompletionDate := a_actualCompletionDate x;
     a_lastEditedDate := a_lastEditedDate x; a_status := a_status x; a_priority := a_priority x;
     a_order := a_order x; a_descriptionHistory := a_descriptionHistory x; a_attachments :=
     a_attachments x; a_autoRepeat := a_autoRepeat x; a_schedule := a_schedule x; a_reminder :=
     a_reminder x; a_lastInstanceDate := a_lastInstanceDate x; a_notes := a_notes x;
     a_numericValue := a_numericValue x; a_isSkipped := a_isSkipped x; a_isDue := a_isDue x;
     a_dueCount := v |}.

Definition set_st_name (v : string) (x : Subtask) : Subtask :=
  {| st_id := st_id x; st_parentId := st_parentId x; st_name := v; st_description :=
     st_description x; st_creationDate := st_creationDate x; st_expectedCompletionDate :=
     st_expectedCompletionDate x; st_actualCompletionDate := st_actualCompletionDate x;
     st_lastEditedDate := st_lastEditedDate x; st_status := st_status x; st_priority :=
     st_priority x; st_order := st_order x; st_serialCompletionMandatory :=
     st_serialCompletionMandatory x; st_sequenceMandatory := st_sequenceMandatory x;
     st_activities := st_activities x; st_dependencies := st_dependencies x;
     st_descriptionHistory := st_descriptionHistory x; st_attachments := st_attachments x;
     st_autoRepeat := st_autoRepeat x; st_schedule := st_schedule x; st_reminder := st_reminder
     x |}.

Definition set_st_description (v : option string) (x : Subtask) : Subtask :=
  {| st_id := st_id x; st_parentId := st_parentId x; st_name := st_name x; st_description := v;
     st_creationDate := st_creationDate x; st_expectedCompletionDate :=
     st_expectedCompletionDate x; st_actualCompletionDate := st_actualCompletionDate x;
     st_lastEditedDate := st_lastEditedDate x; st_status := st_status x; st_priority :=
     st_priority x; st_order := st_order x; st_serialCompletionMandatory :=
     st_serialCompletionMandatory x; st_sequenceMandatory := st_sequenceMandatory x;
     st_activities := st_activities x; st_dependencies := st_dependencies x;
     st_descriptionHistory := st_descriptionHistory x; st_attachments := st_attachments x;
     st_autoRepeat := st_autoRepeat x; st_schedule := st_schedule x; st_reminder := st_reminder
     x |}.

Definition set_st_creationDate (v : Date) (x : Subtask) : Subtask :=
  {| st_id := st_id x; st_parentId := st_parentId x; st_name := st_name x; st_description :=
     st_description x; st_creationDate := v; st_expectedCompletionDate :=
     st_expectedCompletionDate x; st_actualCompletionDate := st_actualCompletionDate x;
     st_lastEditedDate := st_lastEditedDate x; st_status := st_status x; st_priority :=
     st_priority x; st_order := st_order x; st_serialCompletionMandatory :=
     st_serialCompletionMandatory x; st_sequenceMandatory := st_sequenceMandatory x;
     st_activities := st_activities x; st_dependencies := st_dependencies x;
     st_descriptionHistory := st_descriptionHistory x; st_attachments := st_attachments x;
     st_autoRepeat := st_autoRepeat x; st_schedule := st_schedule x; st_reminder := st_reminder
     x |}.

Definition set_st_expectedCompletionDate (v : Date) (x : Subtask) : Subtask :=
  {| st_id := st_id x; st_parentId := st_parentId x; st_name := st_name x; st_description :=
     st_description x; st_creationDate := st_creationDate x; st_expectedCompletionDate := v;
     st_actualCompletionDate := st_actualCompletionDate x; st_lastEditedDate :=
     st_lastEditedDate x; st_status := st_status x; st_priority := st_priority x; st_order :=
     st_order x; st_serialCompletionMandatory := st_serialCompletionMandatory x;
     st_sequenceMandatory := st_sequenceMandatory x; st_activities := st_activities x;
     st_dependencies := st_dependencies x; st_descriptionHistory := st_descriptionHistory x;
     st_attachments := st_attachments x; st_autoRepeat := st_autoRepeat x; st_schedule :=
     st_schedule x; st_reminder := st_reminder x |}.

Definition set_st_actualCompletionDate (v : option Date) (x : Subtask) : Subtask :=
  {| st_id := st_id x; st_parentId := st_parentId x; st_name := st_name x; st_description :=
     st_description x; st_creationDate := st_creationDate x; st_expectedCompletionDate :=
     st_expectedCompletionDate x; st_actualCompletionDate := v; st_lastEditedDate :=
     st_lastEditedDate x; st_status := st_status x; st_priority := st_priority x; st_order :=
     st_order x; st_serialCompletionMandatory := st_serialCompletionMandatory x;
     st_sequenceMandatory := st_sequenceMandatory x; st_activities := st_activities x;
     st_dependencies := st_dependencies x; st_descriptionHistory := st_descriptionHistory x;
     st_attachments := st_attachments x; st_autoRepeat := st_autoRepeat x; st_schedule :=
     st_schedule x; st_reminder := st_reminder x |}.

Definition set_st_lastEditedDate (v : Date) (x : Subtask) : Subtask :=
  {| st_id := st_id x; st_parentId := st_parentId x; st_name := st_name x; st_description :=
     st_description x; st_creationDate := st_creationDate x; st_expectedCompletionDate :=
     st_expectedCompletionDate x; st_actualCompletionDate := st_actualCompletionDate x;
     st_lastEditedDate := v; st_status := st_status x; st_priority := st_priority x; st_order :=
     st_order x; st_serialCompletionMandatory := st_serialCompletionMandatory x;
     st_sequenceMandatory := st_sequenceMandatory x; st_activities := st_activities x;
     st_dependencies := st_dependencies x; st_descriptionHistory := st_descriptionHistory x;
     st_attachments := st_attachments x; st_autoRepeat := st_autoRepeat x; st_schedule :=
     st_schedule x; st_reminder := st_reminder x |}.

Definition set_st_status (v : Status) (x : Subtask) : Subtask :=
  {| st_id := st_id x; st_parentId := st_parentId x; st_name := st_name x; st_description :=
     st_description x; st_creationDate := st_creationDate x; st_expectedCompletionDate :=
     st_expectedCompletionDate x; st_actualCompletionDate := st_actualCompletionDate x;
     st_lastEditedDate := st_lastEditedDate x; st_status := v; st_priority := st_priority x;
     st_order := st_order x; st_serialCompletionMandatory := st_serialCompletionMandatory x;
     st_sequenceMandatory := st_sequenceMandatory x; st_activities := st_activities x;
     st_dependencies := st_dependencies x; st_descriptionHistory := st_descriptionHistory x;
     st_attachments := st_attachments x; st_autoRepeat := st_autoRepeat x; st_schedule :=
     st_schedule x; st_reminder := st_reminder x |}.

Definition set_st_priority (v : Priority) (x : Subtask) : Subtask :=
  {| st_id := st_id x; st_parentId := st_parentId x; st_name := st_name x; st_description :=
     st_description x; st_creationDate := st_creationDate x; st_expectedCompletionDate :=
     st_expectedCompletionDate x; st_actualCompletionDate := st_actualCompletionDate x;
     st_lastEditedDate := st_lastEditedDate x; st_status := st_status x; st_priority := v;
     st_order := st_order x; st_serialCompletionMandatory := st_serialCompletionMandatory x;
     st_sequenceMandatory := st_sequenceMandatory x; st_activities := st_activities x;
     st_dependencies := st_dependencies x; st_descriptionHistory := st_descriptionHistory x;
     st_attachments := st_attachments x; st_autoRepeat := st_autoRepeat x; st_schedule :=
     st_schedule x; st_reminder := st_reminder x |}.

Definition set_st_order (v : Z) (x : Subtask) : Subtask :=
  {| st_id := st_id x; st_parentId := st_parentId x; st_name := st_name x; st_description :=
     st_description x; st_creationDate := st_creationDate x; st_expectedCompletionDate :=
     st_expectedCompletionDate x; st_actualCompletionDate := st_actualCompletionDate x;
     st_lastEditedDate := st_lastEditedDate x; st_status := st_status x; st_priority :=
     st_priority x; st_order := v; st_serialCompletionMandatory := st_serialCompletionMandatory
     x; st_sequenceMandatory := st_sequenceMandatory x; st_activities := st_activities x;
     st_dependencies := st_dependencies x; st_descriptionHistory := st_descriptionHistory x;
     st_attachments := st_attachments x; st_autoRepeat := st_autoRepeat x; st_schedule :=
     st_schedule x; st_reminder := st_reminder x |}.

Definition set_st_serialCompletionMandatory (v : bool) (x : Subtask) : Subtask :=
  {| st_id := st_id x; st_parentId := st_parentId x; st_name := st_name x; st_description :=
     st_description x; st_creationDate := st_creationDate x; st_expectedCompletionDate :=
     st_expectedCompletionDate x; st_actualCompletionDate := st_actualCompletionDate x;
     st_lastEditedDate := st_lastEditedDate x; st_status := st_status x; st_priority :=
     st_priority x; st_order := st_order x; st_serialCompletionMandatory := v;
     st_sequenceMandatory := st_sequenceMandatory x; st_activities := st_activities x;
     st_dependencies := st_dependencies x; st_descriptionHistory := st_descriptionHistory x;
     st_attachments := st_attachments x; st_autoRepeat := st_autoRepeat x; st_schedule :=
     st_schedule x; st_reminder := st_reminder x |}.

Definition set_st_sequenceMandatory (v : bool) (x : Subtask) : Subtask :=
  {| st_id := st_id x; st_parentId := st_parentId x; st_name := st_name x; st_description :=
     st_description x; st_creationDate := st_creationDate x; st_expectedCompletionDate :=
     st_expectedCompletionDate x; st_actualCompletionDate := st_actualCompletionDate x;
     st_lastEditedDate := st_lastEditedDate x; st_status := st_status x; st_priority :=
     st_priority x; st_order := st_order x; st_serialCompletionMandatory :=
     st_serialCompletionMandatory x; st_sequenceMandatory := v; st_activities := st_activities
     x; st_dependencies := st_dependencies x; st_descriptionHistory := st_descriptionHistory x;
     st_attachments := st_attachments x; st_autoRepeat := st_autoRepeat x; st_schedule :=
     st_schedule x; st_reminder := st_reminder x |}.

Definition set_st_activities (v : list Activity) (x : Subtask) : Subtask :=
  {| st_id := st_id x; st_parentId := st_parentId x; st_name := st_name x; st_description :=
     st_description x; st_creationDate := st_creationDate x; st_expectedCompletionDate :=
     st_expectedCompletionDate x; st_actualCompletionDate := st_actualCompletionDate x;
     st_lastEditedDate := st_lastEditedDate x; st_status := st_status x; st_priority :=
     st_priority x; st_order := st_order x; st_serialCompletionMandatory :=
     st_serialCompletionMandatory x; st_sequenceMandatory := st_sequenceMandatory x;
     st_activities := v; st_dependencies := st_dependencies x; st_descriptionHistory :=
     st_descriptionHistory x; st_attachments := st_attachments x; st_autoRepeat := st_autoRepeat
     x; st_schedule := st_schedule x; st_reminder := st_reminder x |}.

Definition set_st_dependencies (v : list string) (x : Subtask) : Subtask :=
  {| st_id := st_id x; st_parentId := st_parentId x; st_name := st_name x; st_description :=
     st_description x; st_creationDate := st_creationDate x; st_expectedCompletionDate :=
     st_expectedCompletionDate x; st_actualCompletionDate := st_actualCompletionDate x;
     st_lastEditedDate := st_lastEditedDate x; st_status := st_status x; st_priority :=
     st_priority x; st_order := st_order x; st_serialCompletionMandatory :=
     st_serialCompletionMandatory x; st_sequenceMandatory := st_sequenceMandatory x;
     st_activities := st_activities x; st_dependencies := v; st_descriptionHistory :=
     st_descriptionHistory x; st_attachments := st_attachments x; st_autoRepeat := st_autoRepeat
     x; st_schedule := st_schedule x; st_reminder := st_reminder x |}.

Definition set_st_descriptionHistory (v : list DescriptionHistoryEntry) (x : Subtask) : Subtask :=
  {| st_id := st_id x; st_parentId := st_parentId x; st_name := st_name x; st_description :=
     st_description x; st_creationDate := st_creationDate x; st_expectedCompletionDate :=
     st_expectedCompletionDate x; st_actualCompletionDate := st_actualCompletionDate x;
     st_lastEditedDate := st_lastEditedDate x; st_status := st_status x; st_priority :=
     st_priority x; st_order := st_order x; st_serialCompletionMandatory :=
     st_serialCompletionMandatory x; st_sequenceMandatory := st_sequenceMandatory x;
     st_activities := st_activities x; st_dependencies := st_dependencies x;
     st_descriptionHistory := v; st_attachments := st_attachments x; st_autoRepeat :=
     st_autoRepeat x; st_schedule := st_schedule x; st_reminder := st_reminder x |}.

Definition set_st_autoRepeat (v : bool) (x : Subtask) : Subtask :=
  {| st_id := st_id x; st_parentId := st_parentId x; st_name := st_name x; st_description :=
     st_description x; st_creationDate := st_creationDate x; st_expectedCompletionDate :=
     st_expectedCompletionDate x; st_actualCompletionDate := st_actualCompletionDate x;
     st_lastEditedDate := st_lastEditedDate x; st_status := st_status x; st_priority :=
     st_priority x; st_order := st_order x; st_serialCompletionMandatory :=
     st_serialCompletionMandatory x; st_sequenceMandatory := st_sequenceMandatory x;
     st_activities := st_activities x; st_dependencies := st_dependencies x;
     st_descriptionHistory := st_descriptionHistory x; st_attachments := st_attachments x;
     st_autoRepeat := v; st_schedule := st_schedule x; st_reminder := st_reminder x |}.

Definition set_st_schedule (v : Schedule) (x : Subtask) : Subtask :=
  {| st_id := st_id x; st_parentId := st_parentId x; st_name := st_name x; st_description :=
     st_description x; st_creationDate := st_creationDate x; st_expectedCompletionDate :=
     st_expectedCompletionDate x; st_actualCompletionDate := st_actualCompletionDate x;
     st_lastEditedDate := st_lastEditedDate x; st_status := st_status x; st_priority :=
     st_priority x; st_order := st_order x; st_serialCompletionMandatory :=
     st_serialCompletionMandatory x; st_sequenceMandatory := st_sequenceMandatory x;
     st_activities := st_activities x; st_dependencies := st_dependencies x;
     st_descriptionHistory := st_descriptionHistory x; st_attachments := st_attachments x;
     st_autoRepeat := st_autoRepeat x; st_schedule := v; st_reminder := st_reminder x |}.

Definition set_st_reminder (v : Reminder) (x : Subtask) : Subtask :=
  {| st_id := st_id x; st_parentId := st_parentId x; st_name := st_name x; st_description :=
     st_description x; st_creationDate := st_creationDate x; st_expectedCompletionDate :=
     st_expectedCompletionDate x; st_actualCompletionDate := st_actualCompletionDate x;
     st_lastEditedDate := st_lastEditedDate x; st_status := st_status x; st_priority :=
     st_priority x; st_order := st_order x; st_serialCompletionMandatory :=
     st_serialCompletionMandatory x; st_sequenceMandatory := st_sequenceMandatory x;
     st_activities := st_activities x; st_dependencies := st_dependencies x;
     st_descriptionHistory := st_descriptionHistory x; st_attachments := st_attachments x;
     st_autoRepeat := st_autoRepeat x; st_schedule := st_schedule x; st_reminder := v |}.

Definition set_t_name (v : string) (x : Task) : Task :=
  {| t_id := t_id x; t_listId := t_listId x; t_name := v; t_description := t_description x;
     t_creationDate := t_creationDate x; t_expectedCompletionDate := t_expectedCompletionDate x;
     t_actualCompletionDate := t_actualCompletionDate x; t_lastEditedDate := t_lastEditedDate x;
     t_status := t_status x; t_priority := t_priority x; t_order := t_order x;
     t_serialCompletionMandatory := t_serialCompletionMandatory x; t_sequenceMandatory :=
     t_sequenceMandatory x; t_subtasks := t_subtasks x; t_dependencies := t_dependencies x;
     t_descriptionHistory := t_descriptionHistory x; t_attachments := t_attachments x;
     t_autoRepeat := t_autoRepeat x; t_schedule := t_schedule x; t_reminder := t_reminder x |}.

Definition set_t_description (v : option string) (x : Task) : Task :=
  {| t_id := t_id x; t_listId := t_listId x; t_name := t_name x; t_description := v;
     t_creationDate := t_creationDate x; t_expectedCompletionDate := t_expectedCompletionDate x;
     t_actualCompletionDate := t_actualCompletionDate x; t_lastEditedDate := t_lastEditedDate x;
     t_status := t_status x; t_priority := t_priority x; t_order := t_order x;
     t_serialCompletionMandatory := t_serialCompletionMandatory x; t_sequenceMandatory :=
     t_sequenceMandatory x; t_subtasks := t_subtasks x; t_dependencies := t_dependencies x;
     t_descriptionHistory := t_descriptionHistory x; t_attachments := t_attachments x;
     t_autoRepeat := t_autoRepeat x; t_schedule := t_schedule x; t_reminder := t_reminder x |}.

Definition set_t_creationDate (v : Date) (x : Task) : Task :=
  {| t_id := t_id x; t_listId := t_listId x; t_name := t_name x; t_description := t_description
     x; t_creationDate := v; t_expectedCompletionDate := t_expectedCompletionDate x;
     t_actualCompletionDate := t_actualCompletionDate x; t_lastEditedDate := t_lastEditedDate x;
     t_status := t_status x; t_priority := t_priority x; t_order := t_order x;
     t_serialCompletionMandatory := t_serialCompletionMandatory x; t_sequenceMandatory :=
     t_sequenceMandatory x; t_subtasks := t_subtasks x; t_dependencies := t_dependencies x;
     t_descriptionHistory := t_descriptionHistory x; t_attachments := t_attachments x;
     t_autoRepeat := t_autoRepeat x; t_schedule := t_schedule x; t_reminder := t_reminder x |}.

Definition set_t_expectedCompletionDate (v : Date) (x : Task) : Task :=
  {| t_id := t_id x; t_listId := t_listId x; t_name := t_name x; t_description := t_description
     x; t_creationDate := t_creationDate x; t_expectedCompletionDate := v;
     t_actualCompletionDate := t_actualCompletionDate x; t_lastEditedDate := t_lastEditedDate x;
     t_status := t_status x; t_priority := t_priority x; t_order := t_order x;
     t_serialCompletionMandatory := t_serialCompletionMandatory x; t_sequenceMandatory :=
     t_sequenceMandatory x; t_subtasks := t_subtasks x; t_dependencies := t_dependencies x;
     t_descriptionHistory := t_descriptionHistory x; t_attachments := t_attachments x;
     t_autoRepeat := t_autoRepeat x; t_schedule := t_schedule x; t_reminder := t_reminder x |}.

Definition set_t_actualCompletionDate (v : option Date) (x : Task) : Task :=
  {| t_id := t_id x; t_listId := t_listId x; t_name := t_name x; t_description := t_description
     x; t_creationDate := t_creationDate x; t_expectedCompletionDate := t_expectedCompletionDate
     x; t_actualCompletionDate := v; t_lastEditedDate := t_lastEditedDate x; t_status :=
     t_status x; t_priority := t_priority x; t_order := t_order x; t_serialCompletionMandatory
     := t_serialCompletionMandatory x; t_sequenceMandatory := t_sequenceMandatory x; t_subtasks
     := t_subtasks x; t_dependencies := t_dependencies x; t_descriptionHistory :=
     t_descriptionHistory x; t_attachments := t_attachments x; t_autoRepeat := t_autoRepeat x;
     t_schedule := t_schedule x; t_reminder := t_reminder x |}.

Definition set_t_lastEditedDate (v : Date) (x : Task) : Task :=
  {| t_id := t_id x; t_listId := t_listId x; t_name := t_name x; t_description := t_description
     x; t_creationDate := t_creationDate x; t_expectedCompletionDate := t_expectedCompletionDate
     x; t_actualCompletionDate := t_actualCompletionDate x; t_lastEditedDate := v; t_status :=
     t_status x; t_priority := t_priority x; t_order := t_order x; t_serialCompletionMandatory
     := t_serialCompletionMandatory x; t_sequenceMandatory := t_sequenceMandatory x; t_subtasks
     := t_subtasks x; t_dependencies := t_dependencies x; t_descriptionHistory :=
     t_descriptionHistory x; t_attachments := t_attachments x; t_autoRepeat := t_autoRepeat x;
     t_schedule := t_schedule x; t_reminder := t_reminder x |}.

Definition set_t_status (v : Status) (x : Task) : Task :=
  {| t_id := t_id x; t_listId := t_listId x; t_name := t_name x; t_description := t_description
     x; t_creationDate := t_creationDate x; t_expectedCompletionDate := t_expectedCompletionDate
     x; t_actualCompletionDate := t_actualCompletionDate x; t_lastEditedDate := t_lastEditedDate
     x; t_status := v; t_priority := t_priority x; t_order := t_order x;
     t_serialCompletionMandatory := t_serialCompletionMandatory x; t_sequenceMandatory :=
     t_sequenceMandatory x; t_subtasks := t_subtasks x; t_dependencies := t_dependencies x;
     t_descriptionHistory := t_descriptionHistory x; t_attachments := t_attachments x;
     t_autoRepeat := t_autoRepeat x; t_schedule := t_schedule x; t_reminder := t_reminder x |}.

Definition set_t_priority (v : Priority) (x : Task) : Task :=
  {| t_id := t_id x; t_listId := t_listId x; t_name := t_name x; t_description := t_description
     x; t_creationDate := t_creationDate x; t_expectedCompletionDate := t_expectedCompletionDate
     x; t_actualCompletionDate := t_actualCompletionDate x; t_lastEditedDate := t_lastEditedDate
     x; t_status := t_status x; t_priority := v; t_order := t_order x;
     t_serialCompletionMandatory := t_serialCompletionMandatory x; t_sequenceMandatory :=
     t_sequenceMandatory x; t_subtasks := t_subtasks x; t_dependencies := t_dependencies x;
     t_descriptionHistory := t_descriptionHistory x; t_attachments := t_attachments x;
     t_autoRepeat := t_autoRepeat x; t_schedule := t_schedule x; t_reminder := t_reminder x |}.

Definition set_t_order (v : Z) (x : Task) : Task :=
  {| t_id := t_id x; t_listId := t_listId x; t_name := t_name x; t_description := t_description
     x; t_creationDate := t_creationDate x; t_expectedCompletionDate := t_expectedCompletionDate
     x; t_actualCompletionDate := t_actualCompletionDate x; t_lastEditedDate := t_lastEditedDate
     x; t_status := t_status x; t_priority := t_priority x; t_order := v;
     t_serialCompletionMandatory := t_serialCompletionMandatory x; t_sequenceMandatory :=
     t_sequenceMandatory x; t_subtasks := t_subtasks x; t_dependencies := t_dependencies x;
     t_descriptionHistory := t_descriptionHistory x; t_attachments := t_attachments x;
     t_autoRepeat := t_autoRepeat x; t_schedule := t_schedule x; t_reminder := t_reminder x |}.

Definition set_t_serialCompletionMandatory (v : bool) (x : Task) : Task :=
  {| t_id := t_id x; t_listId := t_listId x; t_name := t_name x; t_description := t_description
     x; t_creationDate := t_creationDate x; t_expectedCompletionDate := t_expectedCompletionDate
     x; t_actualCompletionDate := t_actualCompletionDate x; t_lastEditedDate := t_lastEditedDate
     x; t_status := t_status x; t_priority := t_priority x; t_order := t_order x;
     t_serialCompletionMandatory := v; t_sequenceMandatory := t_sequenceMandatory x; t_subtasks
     := t_subtasks x; t_dependencies := t_dependencies x; t_descriptionHistory :=
     t_descriptionHistory x; t_attachments := t_attachments x; t_autoRepeat := t_autoRepeat x;
     t_schedule := t_schedule x; t_reminder := t_reminder x |}.

Definition set_t_sequenceMandatory (v : bool) (x : Task) : Task :=
  {| t_id := t_id x; t_listId := t_listId x; t_name := t_name x; t_description := t_description
     x; t_creationDate := t_creationDate x; t_expectedCompletionDate := t_expectedCompletionDate
     x; t_actualCompletionDate := t_actualCompletionDate x; t_lastEditedDate := t_lastEditedDate
     x; t_status := t_status x; t_priority := t_priority x; t_order := t_order x;
     t_serialCompletionMandatory := t_serialCompletionMandatory x; t_sequenceMandatory := v;
     t_subtasks := t_subtasks x; t_dependencies := t_dependencies x; t_descriptionHistory :=
     t_descriptionHistory x; t_attachments := t_attachments x; t_autoRepeat := t_autoRepeat x;
     t_schedule := t_schedule x; t_reminder := t_reminder x |}.

Definition set_t_subtasks (v : list Subtask) (x : Task) : Task :=
  {| t_id := t_id x; t_listId := t_listId x; t_name := t_name x; t_description := t_description
     x; t_creationDate := t_creationDate x; t_expectedCompletionDate := t_expectedCompletionDate
     x; t_actualCompletionDate := t_actualCompletionDate x; t_lastEditedDate := t_lastEditedDate
     x; t_status := t_status x; t_priority := t_priority x; t_order := t_order x;
     t_serialCompletionMandatory := t_serialCompletionMandatory x; t_sequenceMandatory :=
     t_sequenceMandatory x; t_subtasks := v; t_dependencies := t_dependencies x;
     t_descriptionHistory := t_descriptionHistory x; t_attachments := t_attachments x;
     t_autoRepeat := t_autoRepeat x; t_schedule := t_schedule x; t_reminder := t_reminder x |}.

Definition set_t_dependencies (v : list string) (x : Task) : Task :=
  {| t_id := t_id x; t_listId := t_listId x; t_name := t_name x; t_description := t_description
     x; t_creationDate := t_creationDate x; t_expectedCompletionDate := t_expectedCompletionDate
     x; t_actualCompletionDate := t_actualCompletionDate x; t_lastEditedDate := t_lastEditedDate
     x; t_status := t_status x; t_priority := t_priority x; t_order := t_order x;
     t_serialCompletionMandatory := t_serialCompletionMandatory x; t_sequenceMandatory :=
     t_sequenceMandatory x; t_subtasks := t_subtasks x; t_dependencies := v;
     t_descriptionHistory := t_descriptionHistory x; t_attachments := t_attachments x;
     t_autoRepeat := t_autoRepeat x; t_schedule := t_schedule x; t_reminder := t_reminder x |}.

Definition set_t_descriptionHistory (v : list DescriptionHistoryEntry) (x : Task) : Task :=
  {| t_id := t_id x; t_listId := t_listId x; t_name := t_name x; t_description := t_description
     x; t_creationDate := t_creationDate x; t_expectedCompletionDate := t_expectedCompletionDate
     x; t_actualCompletionDate := t_actualCompletionDate x; t_lastEditedDate := t_lastEditedDate
     x; t_status := t_status x; t_priority := t_priority x; t_order := t_order x;
     t_serialCompletionMandatory := t_serialCompletionMandatory x; t_sequenceMandatory :=
     t_sequenceMandatory x; t_subtasks := t_subtasks x; t_dependencies := t_dependencies x;
     t_descriptionHistory := v; t_attachments := t_attachments x; t_autoRepeat := t_autoRepeat
     x; t_schedule := t_schedule x; t_reminder := t_reminder x |}.

Definition set_t_autoRepeat (v : bool) (x : Task) : Task :=
  {| t_id := t_id x; t_listId := t_listId x; t_name := t_name x; t_description := t_description
     x; t_creationDate := t_creationDate x; t_expectedCompletionDate := t_expectedCompletionDate
     x; t_actualCompletionDate := t_actualCompletionDate x; t_lastEditedDate := t_lastEditedDate
     x; t_status := t_status x; t_priority := t_priority x; t_order := t_order x;
     t_serialCompletionMandatory := t_serialCompletionMandatory x; t_sequenceMandatory :=
     t_sequenceMandatory x; t_subtasks := t_subtasks x; t_dependencies := t_dependencies x;
     t_descriptionHistory := t_descriptionHistory x; t_attachments := t_attachments x;
     t_autoRepeat := v; t_schedule := t_schedule x; t_reminder := t_reminder x |}.

Definition set_t_schedule (v : Schedule) (x : Task) : Task :=
  {| t_id := t_id x; t_listId := t_listId x; t_name := t_name x; t_description := t_description
     x; t_creationDate := t_creationDate x; t_expectedCompletionDate := t_expectedCompletionDate
     x; t_actualCompletionDate := t_actualCompletionDate x; t_lastEditedDate := t_lastEditedDate
     x; t_status := t_status x; t_priority := t_priority x; t_order := t_order x;
     t_serialCompletionMandatory := t_serialCompletionMandatory x; t_sequenceMandatory :=
     t_sequenceMandatory x; t_subtasks := t_subtasks x; t_dependencies := t_dependencies x;
     t_descriptionHistory := t_descriptionHistory x; t_attachments := t_attachments x;
     t_autoRepeat := t_autoRepeat x; t_schedule := v; t_reminder := t_reminder x |}.

Definition set_t_reminder (v : Reminder) (x : Task) : Task :=
  {| t_id := t_id x; t_listId := t_listId x; t_name := t_name x; t_description := t_description
     x; t_creationDate := t_creationDate x; t_expectedCompletionDate := t_expectedCompletionDate
     x; t_actualCompletionDate := t_actualCompletionDate x; t_lastEditedDate := t_lastEditedDate
     x; t_status := t_status x; t_priority := t_priority x; t_order := t_order x;
     t_serialCompletionMandatory := t_serialCompletionMandatory x; t_sequenceMandatory :=
     t_sequenceMandatory x; t_subtasks := t_subtasks x; t_dependencies := t_dependencies x;
     t_descriptionHistory := t_descriptionHistory x; t_attachments := t_attachments x;
     t_autoRepeat := t_autoRepeat x; t_schedule := t_schedule x; t_reminder := v |}.

Definition set_l_tasks (v : list Task) (x : TaskList) : TaskList :=
  {| l_id := l_id x; l_name := l_name x; l_tasks := v; l_lastEditedDate := l_lastEditedDate x
     |}.

Definition set_l_lastEditedDate (v : option Date) (x : TaskList) : TaskList :=
  {| l_id := l_id x; l_name := l_name x; l_tasks := l_tasks x; l_lastEditedDate := v |}.

Definition set_s_taskLists (v : list TaskList) (x : TaskStore) : TaskStore :=
  {| s_taskLists := v; s_isLoading := s_isLoading x; s_error := s_error x |}.

(** ** JavaScript helpers *)

(** [v || ''] on an optional string. *)
Definition orEmpty (v : option string) : string :=
  match v with
  | Some s => s
  | None => EmptyString
  end.

(** [v || undefined] on an optional string: the empty string is falsy. *)
Definition orUndefined (v : option string) : option string :=
  match v with
  | Some s => if String.eqb s EmptyString then None else Some s
  | None => None
  end.

(** [v || d] on a string. *)
Definition orElse (v d : string) : string :=
  if String.eqb v EmptyString then d else v.

(** White space of [String.prototype.trim], on the ASCII range. *)
Definition isWhiteSpace (c : ascii) : bool :=
  let n := nat_of_ascii c in
  ((9 <=? n)%nat && (n <=? 13)%nat) || (n =? 32)%nat.

Fixpoint trimStart (s : string) : string :=
  match s with
  | EmptyString => EmptyString
  | String c rest => if isWhiteSpace c then trimStart rest else s
  end.

Fixpoint trimEnd (s : string) : string :=
  match s with
  | EmptyString => EmptyString
  | String c rest =>
      match trimEnd rest with
      | EmptyString => if isWhiteSpace c then EmptyString else String c EmptyString
      | rest' => String c rest'
      end
  end.

Definition trim (s : string) : string := trimEnd (trimStart s).

(** [Array.prototype.sort] with a comparator: a stable sort.  [x] goes in
    front of [y] unless the comparator is positive on [(x, y)]. *)
Section Sort.
Context {A : Type} (compare : A → A → Z).

Fixpoint sortInsert (x : A) (l : list A) : list A :=
  match l with
  | [] => [x]
  | y :: l' => if 0 <? compare x y then y :: sortInsert x l' else x :: l
  end.

Fixpoint sort (l : list A) : list A :=
  match l with
  | [] => []
  | x :: l' => sortInsert x (sort l')
  end.
End Sort.

(** ** Hierarchy locator ([src/lib/store-utils.ts]) *)

(** The result of a lookup: the kind of the item, the item, its parent, and
    where the two objects sit in the tree. *)
Inductive Found :=
| FoundTaskList (li : nat) (lst : TaskList)
| FoundTask (li ti : nat) (task : Task) (parent : TaskList)
| FoundSubtask (li ti si : nat) (subtask : Subtask) (parent : Task)
| FoundActivity (li ti si ai : nat) (activity : Activity) (parent : Subtask).

(** [findItemInDraft]: four nested loops, each returning at the first
    match. *)
Fixpoint findInActivities (id : string) (li ti si : nat) (subtask : Subtask)
    (ai : nat) (activities : list Activity) : option Found :=
  match activities with
  | [] => None
  | activity :: rest =>
      if String.eqb (a_id activity) id
      then Some (FoundActivity li ti si ai activity subtask)
      else findInActivities id li ti si subtask (S ai) rest
  end.

Fixpoint findInSubtasks (id : string) (li ti : nat) (task : Task)
    (si : nat) (subtasks : list Subtask) : option Found :=
  match subtasks with
  | [] => None
  | subtask :: rest =>
      if String.eqb (st_id subtask) id
      then Some (FoundSubtask li ti si subtask task)
      else
        match findInActivities id li ti si subtask 0 (st_activities subtask) with
        | Some r => Some r
        | None => findInSubtasks id li ti task (S si) rest
        end
  end.

Fixpoint findInTasks (id : string) (li : nat) (lst : TaskList)
    (ti : nat) (tasks : list Task) : option Found :=
  match tasks with
  | [] => None
  | task :: rest =>
      if String.eqb (t_id task) id
      then Some (FoundTask li ti task lst)
      else
        match findInSubtasks id li ti task 0 (t_subtasks task) with
        | Some r => Some r
        | None => findInTasks id li lst (S ti) rest
        end
  end.

Fixpoint findInLists (id : string) (li : nat) (lists : list TaskList) : option Found :=
  match lists with
  | [] => None
  | lst :: rest =>
      if String.eqb (l_id lst) id
      then Some (FoundTaskList li lst)
      else
        match findInTasks id li lst 0 (l_tasks lst) with
        | Some r => Some r
        | None => findInLists id (S li) rest
        end
  end.

Definition findItemInDraft (draft : TaskStore) (id : string) : option Found :=
  findInLists id 0 (s_taskLists draft).

(** [findItemRecursive]: one recursive function over a heterogeneous array
    in the source; here one function per level.  At each element: return
    it when the id matches, otherwise search its children with the element
    as parent, and go on to the next element when nothing is found. *)
Fixpoint findItemRecursive_activities (id : string) (li ti si : nat)
    (parentInfo : Subtask) (ai : nat) (items : list Activity) : option Found :=
  match items with
  | [] => None
  | item :: rest =>
      if String.eqb (a_id item) id
      then Some (FoundActivity li ti si ai item parentInfo)
      else findItemRecursive_activities id li ti si parentInfo (S ai) rest
  end.

Fixpoint findItemRecursive_subtasks (id : string) (li ti : nat)
    (parentInfo : Task) (si : nat) (items : list Subtask) : option Found :=
  match items with
  | [] => None
  | item :: rest =>
      if String.eqb (st_id item) id
      then Some (FoundSubtask li ti si item parentInfo)
      else
        match findItemRecursive_activities id li ti si item 0 (st_activities item) with
        | Some found => Some found
        | None => findItemRecursive_subtasks id li ti parentInfo (S si) rest
        end
  end.

Fixpoint findItemRecursive_tasks (id : string) (li : nat)
    (parentInfo : TaskList) (ti : nat) (items : list Task) : option Found :=
  match items with
  | [] => None
  | item :: rest =>
      if String.eqb (t_id item) id
      then Some (FoundTask li ti item parentInfo)
      else
        match findItemRecursive_subtasks id li ti item 0 (t_subtasks item) with
        | Some found => Some found
        | None => findItemRecursive_tasks id li parentInfo (S ti) rest
        end
  end.

Fixpoint findItemRecursive (id : string) (li : nat) (items : list TaskList) : option Found :=
  match items with
  | [] => None
  | item :: rest =>
      if String.eqb (l_id item) id
      then Some (FoundTaskList li item)
      else
        match findItemRecursive_tasks id li item 0 (l_tasks item) with
        | Some found => Some found
        | None => findItemRecursive id (S li) rest
        end
  end.

Definition findItem (state : TaskStore) (id : string) : option Found :=
  findItemRecursive id 0 (s_taskLists state).

(** [findParentListRecursive]. *)
Definition someActivity (itemId : string) (subtask : Subtask) : bool :=
  existsb (λ activity, String.eqb (a_id activity) itemId) (st_activities subtask).

Definition findParentList_inTask (itemId : string) (task : Task) : bool :=
  existsb (λ subtask, String.eqb (st_id subtask) itemId) (t_subtasks task)
  || existsb (someActivity itemId) (t_subtasks task).

Definition findParentList_inList (itemId : string) (lst : TaskList) : bool :=
  String.eqb (l_id lst) itemId
  || existsb (λ task, String.eqb (t_id task) itemId) (l_tasks lst)
  || existsb (findParentList_inTask itemId) (l_tasks lst).

Definition findParentListRecursive (itemId : string) (lists : list TaskList)
    : option TaskList :=
  List.find (findParentList_inList itemId) lists.

Definition findParentList (state : TaskStore) (itemId : string) : option TaskList :=
  findParentListRecursive itemId (s_taskLists state).

(** [getAllItemsRecursive]: every Task, Subtask and Activity, in pre-order. *)
Inductive Item :=
| ITask (task : Task)
| ISubtask (subtask : Subtask)
| IActivity (activity : Activity).

Definition getAllItems_subtask (subtask : Subtask) : list Item :=
  ISubtask subtask :: map IActivity (st_activities subtask).

Definition getAllItems_task (task : Task) : list Item :=
  ITask task :: flat_map getAllItems_subtask (t_subtasks task).

Definition getAllItemsRecursive (lists : list TaskList) : list Item :=
  flat_map (λ lst, flat_map getAllItems_task (l_tasks lst)) lists.

Definition getAllItems (state : TaskStore) : list Item :=
  getAllItemsRecursive (s_taskLists state).

Definition item_id (item : Item) : string :=
  match item with
  | ITask t => t_id t | ISubtask st => st_id st | IActivity a => a_id a
  end.

Definition item_name (item : Item) : string :=
  match item with
  | ITask t => t_name t | ISubtask st => st_name st | IActivity a => a_name a
  end.

Definition item_status (item : Item) : Status :=
  match item with
  | ITask t => t_status t | ISubtask st => st_status st | IActivity a => a_status a
  end.

Definition item_priority (item : Item) : Priority :=
  match item with
  | ITask t => t_priority t | ISubtask st => st_priority st | IActivity a => a_priority a
  end.

Definition item_creationDate (item : Item) : Date :=
  match item with
  | ITask t => t_creationDate t
  | ISubtask st => st_creationDate st
  | IActivity a => a_creationDate a
  end.

Definition item_expectedCompletionDate (item : Item) : Date :=
  match item with
  | ITask t => t_expectedCompletionDate t
  | ISubtask st => st_expectedCompletionDate st
  | IActivity a => a_expectedCompletionDate a
  end.

(** [addHistoryEntry]: the trimmed content is appended unless it is empty. *)
Definition addHistoryEntry (history : list DescriptionHistoryEntry)
    (timestamp : Date) (content : string) : list DescriptionHistoryEntry :=
  let trimmedContent := trim content in
  if String.eqb trimmedContent EmptyString then history
  else history ++ [mkEntry timestamp trimmedContent].

(** ** Mutation engine ([src/hooks/use-task-store.ts]) *)

(** *** Mutation through a reference into the draft *)

Definition modifyList (li : nat) (f : TaskList → TaskList) (draft : TaskStore) : TaskStore :=
  set_s_taskLists (alter f li (s_taskLists draft)) draft.

Definition modifyTask (li ti : nat) (f : Task → Task) : TaskStore → TaskStore :=
  modifyList li (λ lst, set_l_tasks (alter f ti (l_tasks lst)) lst).

Definition modifySubtask (li ti si : nat) (f : Subtask → Subtask) : TaskStore → TaskStore :=
  modifyTask li ti (λ task, set_t_subtasks (alter f si (t_subtasks task)) task).

Definition modifyActivity (li ti si ai : nat) (f : Activity → Activity)
    : TaskStore → TaskStore :=
  modifySubtask li ti si
    (λ subtask, set_st_activities (alter f ai (st_activities subtask)) subtask).

(** [(result.item as Task).lastEditedDate = now] on the item a lookup
    returned, whatever its kind. *)
Definition setLastEditedDate (result : Found) (now : Date) : TaskStore → TaskStore :=
  match result with
  | FoundTaskList li _ => modifyList li (set_l_lastEditedDate (Some now))
  | FoundTask li ti _ _ => modifyTask li ti (set_t_lastEditedDate now)
  | FoundSubtask li ti si _ _ => modifySubtask li ti si (set_st_lastEditedDate now)
  | FoundActivity li ti si ai _ _ => modifyActivity li ti si ai (set_a_lastEditedDate now)
  end.

(** [array.find(l => l.id === listId)], as the position of the first match. *)
Fixpoint findIndex {A : Type} (p : A → bool) (l : list A) : option nat :=
  match l with
  | [] => None
  | x :: l' => if p x then Some 0%nat else S <$> findIndex p l'
  end.

Definition msPerWeek : Z := 7 * 24 * 60 * 60 * 1000.

(** [{ recurrenceRule: '', specificTimes: [], timeZone: '' }] and
    [{ remindAt: '', message: '' }] *)
Definition blankSchedule : Schedule :=
  mkSchedule EmptyString [] EmptyString [KrecurrenceRule; KspecificTimes; KtimeZone].
Definition blankReminder : Reminder :=
  mkReminder EmptyString EmptyString [KremindAt; Kmessage].

(** *** add *)

(** [addTask].  An omitted argument is [None]; its default is computed as in
    the parameter list.  The two dates the source computes, [Date.now()]
    plus a week and the creation date plus a week, are Dates when they are
    within [maxTime] ([addTask_dates_valid]); beyond it the source builds an
    Invalid Date, which the records do not hold. *)
Definition addTask (listId name : string) (priority : option Priority)
    (creationDate expectedCompletionDate : option Date)
    (now : Date) (newId : string) (state : TaskStore) : TaskStore * option Task :=
  let priority := default medium priority in
  let creationDate := default now creationDate in
  let expectedCompletionDate := default (now + msPerWeek) expectedCompletionDate in
  let expectedCompletionDate :=
    if expectedCompletionDate <? creationDate
    then creationDate + msPerWeek else expectedCompletionDate in
  let newTask :=
    {| t_id := newId; t_listId := listId; t_name := name;
       t_description := Some EmptyString;
       t_creationDate := creationDate; t_expectedCompletionDate := expectedCompletionDate;
       t_actualCompletionDate := None; t_lastEditedDate := now; t_status := todo;
       t_priority := priority; t_order := 0; t_serialCompletionMandatory := false;
       t_sequenceMandatory := false; t_subtasks := []; t_dependencies := [];
       t_descriptionHistory := []; t_attachments := []; t_autoRepeat := false;
       t_schedule := blankSchedule; t_reminder := blankReminder |} in
  match findIndex (λ l, String.eqb (l_id l) listId) (s_taskLists state) with
  | Some li =>
      match s_taskLists state !! li with
      | Some lst =>
          let mutableNewTask := set_t_order (Z.of_nat (length (l_tasks lst))) newTask in
          (modifyList li (λ l, set_l_tasks (l_tasks l ++ [mutableNewTask]) l) state,
           Some mutableNewTask)
      | None => (state, None)
      end
  | None => (state, None)
  end.

(** [addSubtask]. *)
Definition addSubtask (taskId name : string) (priority : option Priority)
    (now : Date) (newId : string) (state : TaskStore) : TaskStore * option Subtask :=
  let priority := default medium priority in
  match findItemInDraft state taskId with
  | Some (FoundTask li ti parentTask _) =>
      let subtaskCreationDate := t_creationDate parentTask in
      let subtaskExpectedCompletionDate := t_expectedCompletionDate parentTask in
      let subtaskExpectedCompletionDate :=
        if subtaskExpectedCompletionDate <? subtaskCreationDate
        then subtaskCreationDate else subtaskExpectedCompletionDate in
      let subtaskToAdd :=
        {| st_id := newId; st_parentId := taskId; st_name := name;
           st_description := Some EmptyString;
           st_creationDate := subtaskCreationDate;
           st_expectedCompletionDate := subtaskExpectedCompletionDate;
           st_actualCompletionDate := None; st_lastEditedDate := now; st_status := todo;
           st_priority := priority;
           st_order := Z.of_nat (length (t_subtasks parentTask));
           st_serialCompletionMandatory := false; st_sequenceMandatory := false;
           st_activities := []; st_dependencies := []; st_descriptionHistory := [];
           st_attachments := []; st_autoRepeat := false; st_schedule := blankSchedule;
           st_reminder := blankReminder |} in
      (modifyTask li ti
         (λ t, set_t_lastEditedDate now (set_t_subtasks (t_subtasks t ++ [subtaskToAdd]) t))
         state,
       Some subtaskToAdd)
  | _ => (state, None)
  end.

(** [addActivity]. *)
Definition addActivity (subtaskId name : string) (priority : option Priority)
    (now : Date) (newId : string) (state : TaskStore) : TaskStore * option Activity :=
  let priority := default medium priority in
  match findItemInDraft state subtaskId with
  | Some (FoundSubtask li ti si parentSubtask _) =>
      let activityCreationDate := st_creationDate parentSubtask in
      let activityExpectedCompletionDate := st_expectedCompletionDate parentSubtask in
      let activityExpectedCompletionDate :=
        if activityExpectedCompletionDate <? activityCreationDate
        then activityCreationDate else activityExpectedCompletionDate in
      let activityToAdd :=
        {| a_id := newId; a_parentId := subtaskId; a_name := name;
           a_description := Some EmptyString;
           a_creationDate := activityCreationDate;
           a_expectedCompletionDate := activityExpectedCompletionDate;
           a_actualCompletionDate := None; a_lastEditedDate := now; a_status := todo;
           a_priority := priority;
           a_order := Z.of_nat (length (st_activities parentSubtask));
           a_descriptionHistory := []; a_attachments := []; a_autoRepeat := false;
           a_schedule := blankSchedule; a_reminder := blankReminder;
           a_lastInstanceDate := None; a_notes := EmptyString; a_numericValue := None;
           a_isSkipped := false; a_isDue := false; a_dueCount := 0 |} in
      let draft :=
        modifySubtask li ti si
          (λ st, set_st_lastEditedDate now
                   (set_st_activities (st_activities st ++ [activityToAdd]) st))
          state in
      (modifyTask li ti (set_t_lastEditedDate now) draft, Some activityToAdd)
  | _ => (state, None)
  end.

(** *** delete *)

(** [children.forEach((c, index) => c.order = index)]. *)
Definition renumber {A : Type} (set_order : Z → A → A) (children : list A) : list A :=
  imap (λ index c, set_order (Z.of_nat index) c) children.

(** [deleteTask]: the lists are visited in array order; each is filtered, and
    the first one that loses a Task is renumbered and ends the loop. *)
Fixpoint deleteTask_lists (taskId : string) (lists : list TaskList) : list TaskList :=
  match lists with
  | [] => []
  | lst :: rest =>
      let initialLength := length (l_tasks lst) in
      let tasks := List.filter (λ t, negb (String.eqb (t_id t) taskId)) (l_tasks lst) in
      if (length tasks <? initialLength)%nat
      then set_l_tasks (renumber set_t_order tasks) lst :: rest
      else set_l_tasks tasks lst :: deleteTask_lists taskId rest
  end.

Definition deleteTask (taskId : string) (state : TaskStore) : TaskStore :=
  set_s_taskLists (deleteTask_lists taskId (s_taskLists state)) state.

(** [deleteSubtask]. *)
Definition deleteSubtask (subtaskId : string) (now : Date) (state : TaskStore) : TaskStore :=
  match findItemInDraft state subtaskId with
  | Some (FoundSubtask li ti si _ parentTask) =>
      let initialLength := length (t_subtasks parentTask) in
      let subtasks :=
        List.filter (λ st, negb (String.eqb (st_id st) subtaskId)) (t_subtasks parentTask) in
      if (length subtasks <? initialLength)%nat
      then modifyTask li ti
             (λ t, set_t_lastEditedDate now
                     (set_t_subtasks (renumber set_st_order subtasks) t)) state
      else modifyTask li ti (set_t_subtasks subtasks) state
  | _ => state
  end.

(** [deleteActivity].  The parent Task is whatever [parentSubtask.parentId]
    resolves to; nothing happens when it resolves to nothing.  The position
    of that object is known in the state before the removal, so it is
    stamped first: the stamp is the same [now] and commutes with the removal
    and the renumbering. *)
Definition deleteActivity (activityId : string) (now : Date) (state : TaskStore) : TaskStore :=
  match findItemInDraft state activityId with
  | Some (FoundActivity li ti si ai _ parentSubtask) =>
      match findItemInDraft state (st_parentId parentSubtask) with
      | Some parentTaskResult =>
          let initialLength := length (st_activities parentSubtask) in
          let remaining (activities : list Activity) :=
            List.filter (λ a, negb (String.eqb (a_id a) activityId)) activities in
          if (length (remaining (st_activities parentSubtask)) <? initialLength)%nat
          then
            let draft := setLastEditedDate parentTaskResult now state in
            modifySubtask li ti si
              (λ st, set_st_lastEditedDate now
                       (set_st_activities
                          (renumber set_a_order (remaining (st_activities st))) st))
              draft
          else
            modifySubtask li ti si
              (λ st, set_st_activities (remaining (st_activities st)) st) state
      | None => state
      end
  | _ => state
  end.

(** *** reorder *)

(** [ids.forEach((id, index) => newOrderMap.set(id, index))]. *)
Fixpoint newOrderMap_from (index : nat) (ids : list string) (m : gmap string nat)
    : gmap string nat :=
  match ids with
  | [] => m
  | id :: rest => newOrderMap_from (S index) rest (<[id := index]> m)
  end.

Definition newOrderMap (ids : list string) : gmap string nat :=
  newOrderMap_from 0 ids ∅.

(** The body of the three reorder operations: children whose id is in the
    map take its index as their order, then the array is sorted by order. *)
Definition reorderChildren {A : Type} (id : A → string) (order : A → Z)
    (set_order : Z → A → A) (ids : list string) (children : list A) : list A :=
  let m := newOrderMap ids in
  let children :=
    map (λ c, match m !! id c with
              | Some newOrder => set_order (Z.of_nat newOrder) c
              | None => c
              end) children in
  sort (λ a b, order a - order b) children.

Definition reorderTasks (listId : string) (taskIds : list string) (state : TaskStore)
    : TaskStore :=
  match findIndex (λ l, String.eqb (l_id l) listId) (s_taskLists state) with
  | Some li =>
      modifyList li
        (λ l, set_l_tasks (reorderChildren t_id t_order set_t_order taskIds (l_tasks l)) l)
        state
  | None => state
  end.

Definition reorderSubtasks (taskId : string) (subtaskIds : list string) (now : Date)
    (state : TaskStore) : TaskStore :=
  match findItemInDraft state taskId with
  | Some (FoundTask li ti parentTask _) =>
      if negb (t_sequenceMandatory parentTask)
      then modifyTask li ti
             (λ t, set_t_lastEditedDate now
                     (set_t_subtasks
                        (reorderChildren st_id st_order set_st_order subtaskIds (t_subtasks t))
                        t))
             state
      else state
  | _ => state
  end.

Definition reorderActivities (subtaskId : string) (activityIds : list string) (now : Date)
    (state : TaskStore) : TaskStore :=
  match findItemInDraft state subtaskId with
  | Some (FoundSubtask li ti si parentSubtask _) =>
      if negb (st_sequenceMandatory parentSubtask)
      then
        let draft :=
          modifySubtask li ti si
            (λ st, set_st_lastEditedDate now
                     (set_st_activities
                        (reorderChildren a_id a_order set_a_order activityIds
                           (st_activities st))
                        st))
            state in
        modifyTask li ti (set_t_lastEditedDate now) draft
      else state
  | _ => state
  end.

(** *** update *)

(** What an update operation returns: [true], or the reason of the failure. *)
Inductive UpdateResult :=
| ReturnTrue
| ReturnString (reason : string).

(** The [updates] argument is an object; [for (const key in updates)] visits
    its own keys in insertion order, so it is the list of its entries in that
    order.  A value has the declared type of its field: the fields declared
    optional ([description], [actualCompletionDate]) may hold [undefined].
    [lastEditedDate] and [dependencies] hold objects, which [!==] compares by
    identity.  The draft hands out a proxy for an array, so the array a
    caller supplies under [dependencies] is never the one compared with and
    the key always counts as a change.  A Date is handed out as it is: under
    [lastEditedDate] a caller supplies either the very Date object the item
    holds ([UlastEditedDate_held]), which is no change, or another Date
    object, which is one whatever its time.  (An object has a key once, and
    nothing before the end of the loop assigns [lastEditedDate]: when the
    loop reaches the key the item still holds the object it held.) *)
Inductive Update :=
| Uname (newValue : string)
| Udescription (newValue : option string)
| UcreationDate (newValue : Date)
| UexpectedCompletionDate (newValue : Date)
| UactualCompletionDate (newValue : option Date)
| UlastEditedDate (newValue : Date)
| Ustatus (newValue : Status)
| Upriority (newValue : Priority)
| UserialCompletionMandatory (newValue : bool)
| UsequenceMandatory (newValue : bool)
| Udependencies (newValue : list string)
| UautoRepeat (newValue : bool)
| Uschedule (newValue : Schedule)
| Ureminder (newValue : Reminder)
| UlastEditedDate_held.

(** [updates.description]: [undefined] when the key is absent or holds
    [undefined]. *)
Definition updates_description (updates : list Update) : option string :=
  mjoin (head (omap (λ u, match u with Udescription v => Some v | _ => None end) updates)).

(** [updates.creationDate || updates.expectedCompletionDate]: a Date is
    truthy. *)
Definition updates_hasDate (updates : list Update) : bool :=
  existsb (λ u, match u with
                | UcreationDate _ | UexpectedCompletionDate _ => true
                | _ => false
                end) updates.

Definition optionDate_eqb (a b : option Date) : bool :=
  match a, b with
  | Some x, Some y => x =? y
  | None, None => true
  | _, _ => false
  end.

(** The history entry written before a description changes. *)
Definition editEntry (oldDescription : string) : string :=
  "[EDIT] " ++ orElse oldDescription "(empty)".

(** **** Cascade of the date bounds *)

(** The body of [activities.forEach] in the cascade: clamp the Activity into
    the bounds of its Subtask, then keep expected >= creation. *)
Definition cascadeActivity (subtask : Subtask) (now : Date) (activity : Activity) : Activity :=
  let activityUpdated := false in
  let '(activity, activityUpdated) :=
    if a_creationDate activity <? st_creationDate subtask
    then (set_a_creationDate (st_creationDate subtask) activity, true)
    else (activity, activityUpdated) in
  let '(activity, activityUpdated) :=
    if a_expectedCompletionDate activity >? st_expectedCompletionDate subtask
    then (set_a_expectedCompletionDate (st_expectedCompletionDate subtask) activity, true)
    else (activity, activityUpdated) in
  let '(activity, activityUpdated) :=
    if a_expectedCompletionDate activity <? a_creationDate activity
    then (set_a_expectedCompletionDate (a_creationDate activity) activity, true)
    else (activity, activityUpdated) in
  if activityUpdated then set_a_lastEditedDate now activity else activity.

(** The body of [subtasks.forEach] in [updateTask]. *)
Definition cascadeSubtask (task : Task) (now : Date) (subtask : Subtask) : Subtask :=
  let subtaskUpdated := false in
  let '(subtask, subtaskUpdated) :=
    if st_creationDate subtask <? t_creationDate task
    then (set_st_creationDate (t_creationDate task) subtask, true)
    else (subtask, subtaskUpdated) in
  let '(subtask, subtaskUpdated) :=
    if st_expectedCompletionDate subtask >? t_expectedCompletionDate task
    then (set_st_expectedCompletionDate (t_expectedCompletionDate task) subtask, true)
    else (subtask, subtaskUpdated) in
  let '(subtask, subtaskUpdated) :=
    if st_expectedCompletionDate subtask <? st_creationDate subtask
    then (set_st_expectedCompletionDate (st_creationDate subtask) subtask, true)
    else (subtask, subtaskUpdated) in
  let subtask := if subtaskUpdated then set_st_lastEditedDate now subtask else subtask in
  set_st_activities (map (cascadeActivity subtask now) (st_activities subtask)) subtask.

(** **** updateTask *)

(** One turn of the [for (const key in updates)] loop of [updateTask]. *)
Definition updateTask_key (acc : Task * bool) (u : Update) : Task * bool :=
  let '(taskToUpdate, changed) := acc in
  match u with
  | Udescription newValue =>
      if negb (String.eqb (orEmpty newValue) (orEmpty (t_description taskToUpdate)))
      then (set_t_description (orUndefined newValue) taskToUpdate, true)
      else acc
  | UcreationDate newDate =>
      if negb (newDate =? t_creationDate taskToUpdate) then
        let taskToUpdate := set_t_creationDate newDate taskToUpdate in
        let currentExpected := t_expectedCompletionDate taskToUpdate in
        if newDate >? currentExpected
        then (set_t_creationDate currentExpected taskToUpdate, true)
        else (taskToUpdate, true)
      else acc
  | UexpectedCompletionDate newDate =>
      if negb (newDate =? t_expectedCompletionDate taskToUpdate) then
        let taskToUpdate := set_t_expectedCompletionDate newDate taskToUpdate in
        let currentCreation := t_creationDate taskToUpdate in
        if newDate <? currentCreation
        then (set_t_expectedCompletionDate currentCreation taskToUpdate, true)
        else (taskToUpdate, true)
      else acc
  | UactualCompletionDate newDate =>
      if negb (optionDate_eqb newDate (t_actualCompletionDate taskToUpdate))
      then (set_t_actualCompletionDate newDate taskToUpdate, true)
      else acc
  | Uschedule newValue => (set_t_schedule newValue taskToUpdate, true)
  | Ureminder newValue => (set_t_reminder newValue taskToUpdate, true)
  | Uname newValue =>
      if negb (String.eqb (t_name taskToUpdate) newValue)
      then (set_t_name newValue taskToUpdate, true) else acc
  | Ustatus newValue =>
      if negb (Status_eqb (t_status taskToUpdate) newValue)
      then (set_t_status newValue taskToUpdate, true) else acc
  | Upriority newValue =>
      if negb (Priority_eqb (t_priority taskToUpdate) newValue)
      then (set_t_priority newValue taskToUpdate, true) else acc
  | UserialCompletionMandatory newValue =>
      if negb (Bool.eqb (t_serialCompletionMandatory taskToUpdate) newValue)
      then (set_t_serialCompletionMandatory newValue taskToUpdate, true) else acc
  | UsequenceMandatory newValue =>
      if negb (Bool.eqb (t_sequenceMandatory taskToUpdate) newValue)
      then (set_t_sequenceMandatory newValue taskToUpdate, true) else acc
  | UautoRepeat newValue =>
      if negb (Bool.eqb (t_autoRepeat taskToUpdate) newValue)
      then (set_t_autoRepeat newValue taskToUpdate, true) else acc
  | UlastEditedDate newValue => (set_t_lastEditedDate newValue taskToUpdate, true)
  | UlastEditedDate_held => acc
  | Udependencies newValue => (set_t_dependencies newValue taskToUpdate, true)
  end.

(** The body of [updateTask] once the Task is resolved: history, the loop
    over the keys, [lastEditedDate], and the cascade into the Subtasks. *)
Definition updateTask_body (updates : list Update) (now : Date) (taskToUpdate : Task)
    : Task :=
  let oldDescription := orEmpty (t_description taskToUpdate) in
  let changed := false in
  let '(taskToUpdate, changed) :=
    match updates_description updates with
    | Some description =>
        if negb (String.eqb description oldDescription)
        then (set_t_descriptionHistory
                (addHistoryEntry (t_descriptionHistory taskToUpdate)
                   (t_lastEditedDate taskToUpdate) (editEntry oldDescription))
                taskToUpdate, true)
        else (taskToUpdate, changed)
    | None => (taskToUpdate, changed)
    end in
  let '(taskToUpdate, changed) := fold_left updateTask_key updates (taskToUpdate, changed) in
  let taskToUpdate :=
    if changed then set_t_lastEditedDate now taskToUpdate else taskToUpdate in
  if updates_hasDate updates
  then set_t_subtasks (map (cascadeSubtask taskToUpdate now) (t_subtasks taskToUpdate))
         taskToUpdate
  else taskToUpdate.

(** [updateTask].  A Task the locator returns always comes with its list, so
    the second failure of the source ("Task context not found") has no
    input. *)
Definition updateTask (taskId : string) (updates : list Update) (now : Date)
    (state : TaskStore) : TaskStore * UpdateResult :=
  match findItemInDraft state taskId with
  | Some (FoundTask li ti taskToUpdate parentList) =>
      (modifyTask li ti (λ _, updateTask_body updates now taskToUpdate) state, ReturnTrue)
  | _ => (state, ReturnString ("Task with ID " ++ taskId ++ " not found."))
  end.

(** **** updateSubtask *)

(** [if (x.expectedCompletionDate < x.creationDate) x.expectedCompletionDate
    = x.creationDate], the last check of a changed date key. *)
Definition st_expectedNotBeforeCreation (subtask : Subtask) : Subtask :=
  if st_expectedCompletionDate subtask <? st_creationDate subtask
  then set_st_expectedCompletionDate (st_creationDate subtask) subtask
  else subtask.

Definition updateSubtask_key (parentTask : Task) (acc : Subtask * bool) (u : Update)
    : Subtask * bool :=
  let '(subtaskToUpdate, changed) := acc in
  let parentCreation := t_creationDate parentTask in
  let parentExpected := t_expectedCompletionDate parentTask in
  match u with
  | Udescription newValue =>
      if negb (String.eqb (orEmpty newValue) (orEmpty (st_description subtaskToUpdate)))
      then (set_st_description (orUndefined newValue) subtaskToUpdate, true)
      else acc
  | UcreationDate newDate =>
      if negb (newDate =? st_creationDate subtaskToUpdate) then
        let subtaskToUpdate := set_st_creationDate newDate subtaskToUpdate in
        let subtaskToUpdate :=
          if newDate <? parentCreation
          then set_st_creationDate parentCreation subtaskToUpdate
          else subtaskToUpdate in
        (st_expectedNotBeforeCreation subtaskToUpdate, true)
      else acc
  | UexpectedCompletionDate newDate =>
      if negb (newDate =? st_expectedCompletionDate subtaskToUpdate) then
        let subtaskToUpdate := set_st_expectedCompletionDate newDate subtaskToUpdate in
        let subtaskToUpdate :=
          if newDate >? parentExpected
          then set_st_expectedCompletionDate parentExpected subtaskToUpdate
          else subtaskToUpdate in
        (st_expectedNotBeforeCreation subtaskToUpdate, true)
      else acc
  | UactualCompletionDate newDate =>
      if negb (optionDate_eqb newDate (st_actualCompletionDate subtaskToUpdate)) then
        let subtaskToUpdate := set_st_actualCompletionDate newDate subtaskToUpdate in
        (st_expectedNotBeforeCreation subtaskToUpdate, true)
      else acc
  | Uschedule newValue => (set_st_schedule newValue subtaskToUpdate, true)
  | Ureminder newValue => (set_st_reminder newValue subtaskToUpdate, true)
  | Uname newValue =>
      if negb (String.eqb (st_name subtaskToUpdate) newValue)
      then (set_st_name newValue subtaskToUpdate, true) else acc
  | Ustatus newValue =>
      if negb (Status_eqb (st_status subtaskToUpdate) newValue)
      then (set_st_status newValue subtaskToUpdate, true) else acc
  | Upriority newValue =>
      if negb (Priority_eqb (st_priority subtaskToUpdate) newValue)
      then (set_st_priority newValue subtaskToUpdate, true) else acc
  | UserialCompletionMandatory newValue =>
      if negb (Bool.eqb (st_serialCompletionMandatory subtaskToUpdate) newValue)
      then (set_st_serialCompletionMandatory newValue subtaskToUpdate, true) else acc
  | UsequenceMandatory newValue =>
      if negb (Bool.eqb (st_sequenceMandatory subtaskToUpdate) newValue)
      then (set_st_sequenceMandatory newValue subtaskToUpdate, true) else acc
  | UautoRepeat newValue =>
      if negb (Bool.eqb (st_autoRepeat subtaskToUpdate) newValue)
      then (set_st_autoRepeat newValue subtaskToUpdate, true) else acc
  | UlastEditedDate newValue => (set_st_lastEditedDate newValue subtaskToUpdate, true)
  | UlastEditedDate_held => acc
  | Udependencies newValue => (set_st_dependencies newValue subtaskToUpdate, true)
  end.

(** The body of [updateSubtask] on the Subtask itself; the second component
    is the final value of [changed]. *)
Definition updateSubtask_body (updates : list Update) (now : Date) (parentTask : Task)
    (subtaskToUpdate : Subtask) : Subtask * bool :=
  let oldDescription := orEmpty (st_description subtaskToUpdate) in
  let changed := false in
  let '(subtaskToUpdate, changed) :=
    match updates_description updates with
    | Some description =>
        if negb (String.eqb description oldDescription)
        then (set_st_descriptionHistory
                (addHistoryEntry (st_descriptionHistory subtaskToUpdate)
                   (st_lastEditedDate subtaskToUpdate) (editEntry oldDescription))
                subtaskToUpdate, true)
        else (subtaskToUpdate, changed)
    | None => (subtaskToUpdate, changed)
    end in
  let '(subtaskToUpdate, changed) :=
    fold_left (updateSubtask_key parentTask) updates (subtaskToUpdate, changed) in
  let subtaskToUpdate :=
    if changed then set_st_lastEditedDate now subtaskToUpdate else subtaskToUpdate in
  let subtaskToUpdate :=
    if updates_hasDate updates
    then set_st_activities
           (map (cascadeActivity subtaskToUpdate now) (st_activities subtaskToUpdate))
           subtaskToUpdate
    else subtaskToUpdate in
  (subtaskToUpdate, changed).

(** [updateSubtask]. *)
Definition updateSubtask (subtaskId : string) (updates : list Update) (now : Date)
    (state : TaskStore) : TaskStore * UpdateResult :=
  match findItemInDraft state subtaskId with
  | Some (FoundSubtask li ti si subtaskToUpdate parentTask) =>
      let '(subtask, changed) := updateSubtask_body updates now parentTask subtaskToUpdate in
      let draft := modifySubtask li ti si (λ _, subtask) state in
      let draft := if changed then modifyTask li ti (set_t_lastEditedDate now) draft else draft in
      (draft, ReturnTrue)
  | _ => (state, ReturnString ("Subtask with ID " ++ subtaskId ++ " not found."))
  end.

(** **** updateActivity *)

(** The keys [updateActivity] handles: those of an item, and the
    Activity-only fields, which are assigned without comparison.  Under
    [lastEditedDate] the value is the Date object the Activity holds
    ([AUlastEditedDate_held]) or another one, as for [Update]. *)
Inductive ActivityUpdate :=
| AUname (newValue : string)
| AUdescription (newValue : option string)
| AUcreationDate (newValue : Date)
| AUexpectedCompletionDate (newValue : Date)
| AUactualCompletionDate (newValue : option Date)
| AUlastEditedDate (newValue : Date)
| AUstatus (newValue : Status)
| AUpriority (newValue : Priority)
| AUautoRepeat (newValue : bool)
| AUschedule (newValue : Schedule)
| AUreminder (newValue : Reminder)
| AUnotes (newValue : string)
| AUnumericValue (newValue : option Z)
| AUisSkipped (newValue : bool)
| AUisDue (newValue : bool)
| AUdueCount (newValue : Z)
| AUlastEditedDate_held.

Definition aupdates_description (updates : list ActivityUpdate) : option string :=
  mjoin (head (omap (λ u, match u with AUdescription v => Some v | _ => None end) updates)).

Definition aupdates_schedule (updates : list ActivityUpdate) : option Schedule :=
  head (omap (λ u, match u with AUschedule v => Some v | _ => None end) updates).

Definition aupdates_reminder (updates : list ActivityUpdate) : option Reminder :=
  head (omap (λ u, match u with AUreminder v => Some v | _ => None end) updates).

Definition aupdates_isDue (updates : list ActivityUpdate) : option bool :=
  head (omap (λ u, match u with AUisDue v => Some v | _ => None end) updates).

Definition aupdates_isSkipped (updates : list ActivityUpdate) : option bool :=
  head (omap (λ u, match u with AUisSkipped v => Some v | _ => None end) updates).

(** [updates.dueCount = newDueCount]: an existing key keeps its place, a new
    key goes last. *)
Fixpoint aupdates_setDueCount (newDueCount : Z) (updates : list ActivityUpdate)
    : list ActivityUpdate :=
  match updates with
  | [] => [AUdueCount newDueCount]
  | AUdueCount _ :: rest => AUdueCount newDueCount :: rest
  | u :: rest => u :: aupdates_setDueCount newDueCount rest
  end.

(** [JSON.stringify(a) !== JSON.stringify(b)] on two schedules, two
    reminders: the texts are the same when the two objects list their keys
    in the same order and hold the same values. *)
Fixpoint strings_eqb (a b : list string) : bool :=
  match a, b with
  | [], [] => true
  | x :: a', y :: b' => String.eqb x y && strings_eqb a' b'
  | _, _ => false
  end.

Definition ScheduleKey_eqb (a b : ScheduleKey) : bool :=
  match a, b with
  | KrecurrenceRule, KrecurrenceRule | KspecificTimes, KspecificTimes
  | KtimeZone, KtimeZone => true
  | _, _ => false
  end.

Definition ReminderKey_eqb (a b : ReminderKey) : bool :=
  match a, b with
  | KremindAt, KremindAt | Kmessage, Kmessage => true
  | _, _ => false
  end.

Fixpoint keys_eqb {K : Type} (eqb : K → K → bool) (a b : list K) : bool :=
  match a, b with
  | [], [] => true
  | x :: a', y :: b' => eqb x y && keys_eqb eqb a' b'
  | _, _ => false
  end.

Definition Schedule_eqb (a b : Schedule) : bool :=
  keys_eqb ScheduleKey_eqb (scheduleKeys a) (scheduleKeys b)
  && String.eqb (recurrenceRule a) (recurrenceRule b)
  && strings_eqb (specificTimes a) (specificTimes b)
  && String.eqb (timeZone a) (timeZone b).

Definition Reminder_eqb (a b : Reminder) : bool :=
  keys_eqb ReminderKey_eqb (reminderKeys a) (reminderKeys b)
  && String.eqb (remindAt a) (remindAt b) && String.eqb (message a) (message b).

Definition a_expectedNotBeforeCreation (activity : Activity) : Activity :=
  if a_expectedCompletionDate activity <? a_creationDate activity
  then set_a_expectedCompletionDate (a_creationDate activity) activity
  else activity.

Definition a_addHistoryEntry (timestamp : Date) (content : string) (activity : Activity)
    : Activity :=
  set_a_descriptionHistory
    (addHistoryEntry (a_descriptionHistory activity) timestamp content) activity.

(** The history entries [updateActivity] writes before the loop.  Returns the
    Activity, [changed], and [updates] (to which marking due adds
    [dueCount]). *)
Definition updateActivity_history (updates : list ActivityUpdate) (now : Date)
    (activityToUpdate : Activity) : Activity * bool * list ActivityUpdate :=
  let oldDescription := orEmpty (a_description activityToUpdate) in
  let changed := false in
  let '(activityToUpdate, changed) :=
    match aupdates_description updates with
    | Some description =>
        if negb (String.eqb description oldDescription)
        then (a_addHistoryEntry (a_lastEditedDate activityToUpdate)
                (editEntry oldDescription) activityToUpdate, true)
        else (activityToUpdate, changed)
    | None => (activityToUpdate, changed)
    end in
  let '(activityToUpdate, changed) :=
    match aupdates_schedule updates with
    | Some schedule =>
        if negb (Schedule_eqb schedule (a_schedule activityToUpdate))
        then (a_addHistoryEntry now
                ("[SCHEDULE] Schedule updated to: " ++ orElse (recurrenceRule schedule) "none")
                activityToUpdate, true)
        else (activityToUpdate, changed)
    | None => (activityToUpdate, changed)
    end in
  let '(activityToUpdate, changed) :=
    match aupdates_reminder updates with
    | Some reminder =>
        if negb (Reminder_eqb reminder (a_reminder activityToUpdate))
        then (a_addHistoryEntry now "[REMINDER] Reminder updated." activityToUpdate, true)
        else (activityToUpdate, changed)
    | None => (activityToUpdate, changed)
    end in
  let '(activityToUpdate, changed, updates) :=
    match aupdates_isDue updates with
    | Some isDue =>
        if negb (Bool.eqb isDue (a_isDue activityToUpdate)) then
          if isDue then
            let newDueCount := a_dueCount activityToUpdate + 1 in
            (a_addHistoryEntry now
               ("[DUE] Marked due (Count: " ++ pretty newDueCount ++ ").") activityToUpdate,
             true, aupdates_setDueCount newDueCount updates)
          else (activityToUpdate, true, updates)
        else (activityToUpdate, changed, updates)
    | None => (activityToUpdate, changed, updates)
    end in
  let '(activityToUpdate, changed) :=
    match aupdates_isSkipped updates with
    | Some isSkipped =>
        if negb (Bool.eqb isSkipped (a_isSkipped activityToUpdate)) then
          if isSkipped
          then (a_addHistoryEntry now "[SKIP] Marked skipped." activityToUpdate, true)
          else (activityToUpdate, true)
        else (activityToUpdate, changed)
    | None => (activityToUpdate, changed)
    end in
  (activityToUpdate, changed, updates).

Definition updateActivity_key (parentSubtask : Subtask) (acc : Activity * bool)
    (u : ActivityUpdate) : Activity * bool :=
  let '(activityToUpdate, changed) := acc in
  let parentCreation := st_creationDate parentSubtask in
  let parentExpected := st_expectedCompletionDate parentSubtask in
  match u with
  | AUdescription newValue =>
      if negb (String.eqb (orEmpty newValue) (orEmpty (a_description activityToUpdate)))
      then (set_a_description (orUndefined newValue) activityToUpdate, true)
      else acc
  | AUcreationDate newDate =>
      if negb (newDate =? a_creationDate activityToUpdate) then
        let activityToUpdate := set_a_creationDate newDate activityToUpdate in
        let activityToUpdate :=
          if newDate <? parentCreation
          then set_a_creationDate parentCreation activityToUpdate
          else activityToUpdate in
        (a_expectedNotBeforeCreation activityToUpdate, true)
      else acc
  | AUexpectedCompletionDate newDate =>
      if negb (newDate =? a_expectedCompletionDate activityToUpdate) then
        let activityToUpdate := set_a_expectedCompletionDate newDate activityToUpdate in
        let activityToUpdate :=
          if newDate >? parentExpected
          then set_a_expectedCompletionDate parentExpected activityToUpdate
          else activityToUpdate in
        (a_expectedNotBeforeCreation activityToUpdate, true)
      else acc
  | AUactualCompletionDate newDate =>
      if negb (optionDate_eqb newDate (a_actualCompletionDate activityToUpdate)) then
        let activityToUpdate := set_a_actualCompletionDate newDate activityToUpdate in
        (a_expectedNotBeforeCreation activityToUpdate, true)
      else acc
  | AUschedule newValue => (set_a_schedule newValue activityToUpdate, true)
  | AUreminder newValue => (set_a_reminder newValue activityToUpdate, true)
  | AUautoRepeat newValue => (set_a_autoRepeat newValue activityToUpdate, true)
  | AUnotes newValue => (set_a_notes newValue activityToUpdate, true)
  | AUnumericValue newValue => (set_a_numericValue newValue activityToUpdate, true)
  | AUisSkipped newValue => (set_a_isSkipped newValue activityToUpdate, true)
  | AUisDue newValue => (set_a_isDue newValue activityToUpdate, true)
  | AUdueCount newValue => (set_a_dueCount newValue activityToUpdate, true)
  | AUname newValue =>
      if negb (String.eqb (a_name activityToUpdate) newValue)
      then (set_a_name newValue activityToUpdate, true) else acc
  | AUstatus newValue =>
      if negb (Status_eqb (a_status activityToUpdate) newValue)
      then (set_a_status newValue activityToUpdate, true) else acc
  | AUpriority newValue =>
      if negb (Priority_eqb (a_priority activityToUpdate) newValue)
      then (set_a_priority newValue activityToUpdate, true) else acc
  | AUlastEditedDate newValue => (set_a_lastEditedDate newValue activityToUpdate, true)
  | AUlastEditedDate_held => acc
  end.

Definition updateActivity_body (updates : list ActivityUpdate) (now : Date)
    (parentSubtask : Subtask) (activityToUpdate : Activity) : Activity * bool :=
  let '(activityToUpdate, changed, updates) :=
    updateActivity_history updates now activityToUpdate in
  let '(activityToUpdate, changed) :=
    fold_left (updateActivity_key parentSubtask) updates (activityToUpdate, changed) in
  let activityToUpdate :=
    if changed then set_a_lastEditedDate now activityToUpdate else activityToUpdate in
  (activityToUpdate, changed).

(** [updateActivity].  The parent Task is whatever [parentSubtask.parentId]
    resolves to; when it resolves to nothing the update fails. *)
Definition updateActivity (activityId : string) (updates : list ActivityUpdate)
    (now : Date) (state : TaskStore) : TaskStore * UpdateResult :=
  match findItemInDraft state activityId with
  | Some (FoundActivity li ti si ai activityToUpdate parentSubtask) =>
      match findItemInDraft state (st_parentId parentSubtask) with
      | Some parentTaskResult =>
          let '(activity, changed) :=
            updateActivity_body updates now parentSubtask activityToUpdate in
          let draft := modifyActivity li ti si ai (λ _, activity) state in
          let draft :=
            if changed
            then setLastEditedDate parentTaskResult now
                   (modifySubtask li ti si (set_st_lastEditedDate now) draft)
            else draft in
          (draft, ReturnTrue)
      | None =>
          (state, ReturnString ("Activity context not found for ID " ++ activityId ++ "."))
      end
  | _ => (state, ReturnString ("Activity with ID " ++ activityId ++ " not found."))
  end.

(** ** Serial-completion gate: [canStartItem] *)

Definition item_order (item : Item) : Z :=
  match item with
  | ITask t => t_order t | ISubtask st => st_order st | IActivity a => a_order a
  end.

(** The loop over the siblings: the item itself is skipped; a sibling of
    lower order that is not done ends the loop with [false]. *)
Fixpoint precedingSiblingsDone (itemId : string) (currentOrder : Z) (siblings : list Item)
    : bool :=
  match siblings with
  | [] => true
  | sibling :: rest =>
      if String.eqb (item_id sibling) itemId
      then precedingSiblingsDone itemId currentOrder rest
      else if (item_order sibling <? currentOrder)
              && negb (Status_eqb (item_status sibling) done)
      then false
      else precedingSiblingsDone itemId currentOrder rest
  end.

Definition canStartItem (state : TaskStore) (itemId : string) : bool :=
  match findItem state itemId with
  | None => false
  | Some (FoundTask _ _ _ _) => true
  | Some (FoundTaskList _ _) => true
  | Some (FoundSubtask _ _ _ item parentTask) =>
      let siblings := map ISubtask (t_subtasks parentTask) in
      let serialMandatory := t_serialCompletionMandatory parentTask in
      if negb serialMandatory then true
      else precedingSiblingsDone (st_id item) (st_order item) siblings
  | Some (FoundActivity _ _ _ _ item parentSubtask) =>
      let siblings := map IActivity (st_activities parentSubtask) in
      let serialMandatory := st_serialCompletionMandatory parentSubtask in
      if negb serialMandatory then true
      else precedingSiblingsDone (a_id item) (a_order item) siblings
  end.

(** ** Today selector: [getTodayItems] *)

Inductive ItemType := TypeTask | TypeSubtask | TypeActivity.

Record TodayItem := mkTodayItem {
  ti_id : string;
  ti_parentId : option string;
  ti_grandparentId : option string;
  ti_type : ItemType;
  ti_name : string;
  ti_priority : Priority;
  ti_status : Status;
  ti_creationDate : Date;
  ti_expectedCompletionDate : Date;
  ti_isOverdue : bool;
  ti_daysUntilDue : Z;
  ti_urgencyScore : Z;
  ti_listName : option string;
  ti_taskName : option string;
  ti_subtaskName : option string;
  ti_originalItem : Item
}.

Definition msPerDay : Z := 24 * 60 * 60 * 1000.

(** [isPast] of date-fns: the date is before the current instant. *)
Definition isPast (date now : Date) : bool := date <? now.

(** *** Local time

    date-fns counts days on the calendar of the host's time zone.  A time
    zone gives the wall-clock reading of an instant, that is what
    [getFullYear], [getMonth], [getDate], [getHours], [getMinutes],
    [getSeconds] and [getMilliseconds] return, here as one number: the
    milliseconds from 1970-01-01 00:00 on the wall clock.  It also gives the
    instant the engine makes of a wall-clock reading ([setHours], [setDate]);
    for a reading that the clock skips or shows twice the engine takes the
    offset in force before the change. *)
Record TimeZone := mkTimeZone {
  localTime : Date → Z;
  fromLocalTime : Z → Date
}.

(** [Math.round(n / d)] for [d > 0]: the nearest integer, a half upward. *)
Definition round_div (n d : Z) : Z := (2 * n + d) `div` (2 * d).

(** [startOfDay]: [setHours(0, 0, 0, 0)]. *)
Definition startOfDay (tz : TimeZone) (date : Date) : Date :=
  fromLocalTime tz (localTime tz date `div` msPerDay * msPerDay).

(** [differenceInCalendarDays]: each start of day is read as a wall-clock
    time ([+startOfDay - getTimezoneOffsetInMilliseconds(startOfDay)]); the
    difference of the readings is rounded to days. *)
Definition differenceInCalendarDays (tz : TimeZone) (dateLeft dateRight : Date) : Z :=
  let timestampLeft := localTime tz (startOfDay tz dateLeft) in
  let timestampRight := localTime tz (startOfDay tz dateRight) in
  round_div (timestampLeft - timestampRight) msPerDay.

(** [compareLocalAsc]: the sign of the first difference among year, month,
    day, hours, minutes, seconds and milliseconds of the two readings. *)
Definition compareLocalAsc (tz : TimeZone) (dateLeft dateRight : Date) : Z :=
  Z.sgn (localTime tz dateLeft - localTime tz dateRight).

(** [differenceInDays] of date-fns: the calendar days between the two
    dates, less one when the last of them is not full on the wall clock. *)
Definition differenceInDays (tz : TimeZone) (dateLeft dateRight : Date) : Z :=
  let sign := compareLocalAsc tz dateLeft dateRight in
  let difference := Z.abs (differenceInCalendarDays tz dateLeft dateRight) in
  (* _dateLeft.setDate(_dateLeft.getDate() - sign * difference) *)
  let dateLeft := fromLocalTime tz (localTime tz dateLeft - sign * difference * msPerDay) in
  let isLastDayNotFull := if compareLocalAsc tz dateLeft dateRight =? - sign then 1 else 0 in
  sign * (difference - isLastDayNotFull).

(** A wall-clock reading that the clock shows: the engine's instant for it
    reads back as it. *)
Definition readingExists (tz : TimeZone) (reading : Z) : Prop :=
  localTime tz (fromLocalTime tz reading) = reading.

(** The readings [differenceInDays] goes through: the two local midnights,
    and the time of day of the left date on the calendar day of the right
    one. *)
Definition readingsExist (tz : TimeZone) (dateLeft dateRight : Date) : Prop :=
  let l := localTime tz dateLeft in
  let r := localTime tz dateRight in
  readingExists tz (l `div` msPerDay * msPerDay)
  ∧ readingExists tz (r `div` msPerDay * msPerDay)
  ∧ readingExists tz (l - (l `div` msPerDay - r `div` msPerDay) * msPerDay).

(** Universal time, and the clock of New York with the changes of 2026:
    daylight-saving time from 8 March 07:00 UTC to 1 November 06:00 UTC. *)
Definition utc : TimeZone := {| localTime := λ date, date; fromLocalTime := λ reading, reading |}.

Definition msPerHour : Z := 60 * 60 * 1000.

Definition newYork : TimeZone :=
  let dstStart := 1772953200000 in
  let dstEnd := 1793512800000 in
  {| localTime := λ date,
       if (dstStart <=? date) && (date <? dstEnd)
       then date - 4 * msPerHour else date - 5 * msPerHour;
     fromLocalTime := λ reading,
       if reading <? dstStart - 4 * msPerHour then reading + 5 * msPerHour
       else if reading <? dstEnd - 4 * msPerHour then reading + 4 * msPerHour
       else reading + 5 * msPerHour |}.

Definition priorityScore (p : Priority) : Z :=
  match p with high => 3 | medium => 2 | low => 1 end.

Definition statusScore (s : Status) : Z :=
  match s with inprogress => 4 | started => 3 | todo => 2 | done => 0 end.

Definition item_type (item : Item) : ItemType :=
  match item with
  | ITask _ => TypeTask | ISubtask _ => TypeSubtask | IActivity _ => TypeActivity
  end.

(** The ancestors of an item that has a [parentId] (a Subtask or an
    Activity): [(parentId, grandparentId, taskName, subtaskName)]. *)
Definition todayItem_parents (state : TaskStore) (itemParentId : string)
    : option string * option string * option string * option string :=
  let parentId := Some itemParentId in
  match findItem state itemParentId with
  | Some (FoundTask _ _ parent _) =>
      (parentId, Some (t_listId parent), Some (t_name parent), None)
  | Some (FoundSubtask _ _ _ parent _) =>
      let grandparentId := st_parentId parent in
      let taskName :=
        match findItem state grandparentId with
        | Some (FoundTask _ _ grandparent _) => Some (t_name grandparent)
        | _ => None
        end in
      (parentId, Some grandparentId, taskName, Some (st_name parent))
  | _ => (parentId, None, None, None)
  end.

Definition todayItem_ancestors (state : TaskStore) (item : Item)
    : option string * option string * option string * option string :=
  match item with
  | ISubtask subtask => todayItem_parents state (st_parentId subtask)
  | IActivity activity => todayItem_parents state (a_parentId activity)
  | ITask task => (Some (t_listId task), None, None, None)
  end.

(** The body of [allItems.forEach]: the entry pushed for [item], if any. *)
Definition todayItem (tz : TimeZone) (state : TaskStore) (today : Date) (item : Item)
    : option TodayItem :=
  if Status_eqb (item_status item) done then None
  else
    let isHighOrMedium :=
      Priority_eqb (item_priority item) high || Priority_eqb (item_priority item) medium in
    if negb isHighOrMedium then None
    else
      let expectedDate := item_expectedCompletionDate item in
      let isOverdue := isPast expectedDate today && negb (Status_eqb (item_status item) done) in
      let daysUntilDue := differenceInDays tz expectedDate today in
      let isDueSoon := daysUntilDue <=? 7 in
      if isOverdue || isDueSoon then
        let urgencyScore := priorityScore (item_priority item) * 10 in
        let urgencyScore := urgencyScore + statusScore (item_status item) * 5 in
        let urgencyScore := urgencyScore - daysUntilDue in
        let urgencyScore := if isOverdue then urgencyScore + 10 else urgencyScore in
        let listName := l_name <$> findParentList state (item_id item) in
        let '(parentId, grandparentId, taskName, subtaskName) :=
          todayItem_ancestors state item in
        Some {| ti_id := item_id item; ti_parentId := parentId;
                ti_grandparentId := grandparentId; ti_type := item_type item;
                ti_name := item_name item; ti_priority := item_priority item;
                ti_status := item_status item; ti_creationDate := item_creationDate item;
                ti_expectedCompletionDate := item_expectedCompletionDate item;
                ti_isOverdue := isOverdue; ti_daysUntilDue := daysUntilDue;
                ti_urgencyScore := urgencyScore; ti_listName := listName;
                ti_taskName := taskName; ti_subtaskName := subtaskName;
                ti_originalItem := item |}
      else None.

(** [getTodayItems]: the entries in scan order, then sorted by urgency,
    highest first.  The selector runs without interruption; [today] stands
    for every reading of the clock it makes, and [tz] is the time zone of
    the host. *)
Definition getTodayItems (tz : TimeZone) (state : TaskStore) (today : Date)
    : list TodayItem :=
  let todayItems := omap (todayItem tz state today) (getAllItems state) in
  sort (λ a b, ti_urgencyScore b - ti_urgencyScore a) todayItems.

(** ** Reading the tree at a position *)

Definition taskAt (state : TaskStore) (li ti : nat) : option Task :=
  lst ← s_taskLists state !! li; l_tasks lst !! ti.

Definition subtaskAt (state : TaskStore) (li ti si : nat) : option Subtask :=
  task ← taskAt state li ti; t_subtasks task !! si.

Definition activityAt (state : TaskStore) (li ti si ai : nat) : option Activity :=
  subtask ← subtaskAt state li ti si; st_activities subtask !! ai.

(** A lookup result describes the tree it was computed from: the item has
    the id, sits at the position, and the parent is the object one level
    up. *)
Definition found_valid (state : TaskStore) (id : string) (r : Found) : Prop :=
  match r with
  | FoundTaskList li lst => s_taskLists state !! li = Some lst ∧ l_id lst = id
  | FoundTask li ti task parent =>
      s_taskLists state !! li = Some parent ∧ l_tasks parent !! ti = Some task
      ∧ t_id task = id
  | FoundSubtask li ti si subtask parent =>
      taskAt state li ti = Some parent ∧ t_subtasks parent !! si = Some subtask
      ∧ st_id subtask = id
  | FoundActivity li ti si ai activity parent =>
      subtaskAt state li ti si = Some parent ∧ st_activities parent !! ai = Some activity
      ∧ a_id activity = id
  end.

(** ** Properties of a store *)






(** What the cascade leaves between a child and its parent: the child does
    not start before the parent, it does not end before it starts, and it
    does not end after the parent unless it starts after the parent ends
    (its end is then its own start). *)
Definition a_clamped (st : Subtask) (a : Activity) : Prop :=
  st_creationDate st <= a_creationDate a
  ∧ a_creationDate a <= a_expectedCompletionDate a
  ∧ (a_creationDate a <= st_expectedCompletionDate st →
     a_expectedCompletionDate a <= st_expectedCompletionDate st)
  ∧ (st_expectedCompletionDate st < a_creationDate a →
     a_expectedCompletionDate a = a_creationDate a).

Definition st_clamped (t : Task) (st : Subtask) : Prop :=
  t_creationDate t <= st_creationDate st
  ∧ st_creationDate st <= st_expectedCompletionDate st
  ∧ (st_creationDate st <= t_expectedCompletionDate t →
     st_expectedCompletionDate st <= t_expectedCompletionDate t)
  ∧ (t_expectedCompletionDate t < st_creationDate st →
     st_expectedCompletionDate st = st_creationDate st).

(** The bounds as the specification words them. *)
Definition a_within (st : Subtask) (a : Activity) : Prop :=
  st_creationDate st <= a_creationDate a
  ∧ a_expectedCompletionDate a <= st_expectedCompletionDate st.

Definition st_within (t : Task) (st : Subtask) : Prop :=
  t_creationDate t <= st_creationDate st
  ∧ st_expectedCompletionDate st <= t_expectedCompletionDate t.

(** Order values of a sibling set: a permutation of [0 .. n-1]. *)
Definition dense {A : Type} (order : A → Z) (siblings : list A) : Prop :=
  map order siblings ≡ₚ map Z.of_nat (seq 0 (length siblings)).

Definition st_dense (st : Subtask) : Prop := dense a_order (st_activities st).

Definition t_dense (t : Task) : Prop :=
  dense st_order (t_subtasks t) ∧ Forall st_dense (t_subtasks t).

Definition l_dense (lst : TaskList) : Prop :=
  dense t_order (l_tasks lst) ∧ Forall t_dense (l_tasks lst).

Definition dense_store (state : TaskStore) : Prop := Forall l_dense (s_taskLists state).

(** Ids are distinct within every sibling set of Subtasks and of
    Activities. *)
Definition st_siblingIds_unique (st : Subtask) : Prop :=
  NoDup (map a_id (st_activities st)).

Definition t_siblingIds_unique (t : Task) : Prop :=
  NoDup (map st_id (t_subtasks t)) ∧ Forall st_siblingIds_unique (t_subtasks t).

Definition siblingIds_unique (state : TaskStore) : Prop :=
  Forall (λ lst, Forall t_siblingIds_unique (l_tasks lst)) (s_taskLists state).

(** The [parentId] of every Subtask is the id of the Task that holds it. *)
Definition parentLinks_ok (state : TaskStore) : Prop :=
  Forall (λ lst,
    Forall (λ t, Forall (λ st, st_parentId st = t_id t) (t_subtasks t)) (l_tasks lst))
    (s_taskLists state).

(** ** The operations of a claim, as data *)

Inductive Kind := KindTaskList | KindTask | KindSubtask | KindActivity.

Definition found_kind (r : Found) : Kind :=
  match r with
  | FoundTaskList _ _ => KindTaskList
  | FoundTask _ _ _ _ => KindTask
  | FoundSubtask _ _ _ _ _ => KindSubtask
  | FoundActivity _ _ _ _ _ _ => KindActivity
  end.

(** The id resolves to an item of the kind. *)
Definition resolves (state : TaskStore) (id : string) (k : Kind) : Prop :=
  ∃ r, findItemInDraft state id = Some r ∧ found_kind r = k.

(** The three update operations. *)
Inductive UpdateOp :=
| OpUpdateTask (taskId : string) (updates : list Update)
| OpUpdateSubtask (subtaskId : string) (updates : list Update)
| OpUpdateActivity (activityId : string) (updates : list ActivityUpdate).

Definition runUpdate (op : UpdateOp) (now : Date) (state : TaskStore)
    : TaskStore * UpdateResult :=
  match op with
  | OpUpdateTask taskId updates => updateTask taskId updates now state
  | OpUpdateSubtask subtaskId updates => updateSubtask subtaskId updates now state
  | OpUpdateActivity activityId updates => updateActivity activityId updates now state
  end.

Definition update_id (op : UpdateOp) : string :=
  match op with
  | OpUpdateTask id _ | OpUpdateSubtask id _ | OpUpdateActivity id _ => id
  end.

Definition update_kind (op : UpdateOp) : Kind :=
  match op with
  | OpUpdateTask _ _ => KindTask
  | OpUpdateSubtask _ _ => KindSubtask
  | OpUpdateActivity _ _ => KindActivity
  end.

Definition kind_name (k : Kind) : string :=
  match k with
  | KindTaskList => "TaskList"
  | KindTask => "Task"
  | KindSubtask => "Subtask"
  | KindActivity => "Activity"
  end.

(** The add, delete and reorder operations. *)
Inductive OrderOp :=
| OpAddTask (listId name : string) (priority : option Priority)
    (creationDate expectedCompletionDate : option Date) (newId : string)
| OpAddSubtask (taskId name : string) (priority : option Priority) (newId : string)
| OpAddActivity (subtaskId name : string) (priority : option Priority) (newId : string)
| OpDeleteTask (taskId : string)
| OpDeleteSubtask (subtaskId : string)
| OpDeleteActivity (activityId : string)
| OpReorderTasks (listId : string) (taskIds : list string)
| OpReorderSubtasks (taskId : string) (subtaskIds : list string)
| OpReorderActivities (subtaskId : string) (activityIds : list string).

Definition runOrderOp (op : OrderOp) (now : Date) (state : TaskStore) : TaskStore :=
  match op with
  | OpAddTask listId name priority creationDate expectedCompletionDate newId =>
      (addTask listId name priority creationDate expectedCompletionDate now newId state).1
  | OpAddSubtask taskId name priority newId =>
      (addSubtask taskId name priority now newId state).1
  | OpAddActivity subtaskId name priority newId =>
      (addActivity subtaskId name priority now newId state).1
  | OpDeleteTask taskId => deleteTask taskId state
  | OpDeleteSubtask subtaskId => deleteSubtask subtaskId now state
  | OpDeleteActivity activityId => deleteActivity activityId now state
  | OpReorderTasks listId taskIds => reorderTasks listId taskIds state
  | OpReorderSubtasks taskId subtaskIds => reorderSubtasks taskId subtaskIds now state
  | OpReorderActivities subtaskId activityIds =>
      reorderActivities subtaskId activityIds now state
  end.



(** A reorder names every child of its container exactly once. *)
Definition completeOrder {A : Type} (id : A → string) (ids : list string)
    (children : list A) : Prop :=
  NoDup ids ∧ ids ≡ₚ map id children.

Definition reorder_complete (op : OrderOp) (state : TaskStore) : Prop :=
  match op with
  | OpReorderTasks listId taskIds =>
      ∀ li lst,
        findIndex (λ l, String.eqb (l_id l) listId) (s_taskLists state) = Some li →
        s_taskLists state !! li = Some lst →
        completeOrder t_id taskIds (l_tasks lst)
  | OpReorderSubtasks taskId subtaskIds =>
      ∀ li ti task parent,
        findItemInDraft state taskId = Some (FoundTask li ti task parent) →
        completeOrder st_id subtaskIds (t_subtasks task)
  | OpReorderActivities subtaskId activityIds =>
      ∀ li ti si subtask parent,
        findItemInDraft state subtaskId = Some (FoundSubtask li ti si subtask parent) →
        completeOrder a_id activityIds (st_activities subtask)
  | _ => True
  end.

(** ** An update that changes nothing *)


(** ** Example stores *)

(** The initial state of the store. *)
Definition initialState : TaskStore :=
  {| s_taskLists :=
       [{| l_id := "default-list"; l_name := "Project"; l_tasks := [];
           l_lastEditedDate := None |}];
     s_isLoading := false;
     s_error := None |}.

(** A Task from day 0 to day 7. *)
Definition store_task : TaskStore :=
  (addTask "default-list" "Write report" None (Some 0) (Some (7 * msPerDay)) 0 "task-1"
     initialState).1.

(** ... with a Subtask, which inherits day 0 to day 7. *)
Definition store_subtask : TaskStore :=
  (addSubtask "task-1" "Outline" None 0 "subtask-1" store_task).1.

(** ... whose creation date is then moved to day 5. *)
Definition store_late_subtask : TaskStore :=
  (updateSubtask "subtask-1" [UcreationDate (5 * msPerDay)] 0 store_subtask).1.

(** The Subtask with two Activities, completion in series. *)
Definition store_gate : TaskStore :=
  let s := (addActivity "subtask-1" "Collect notes" None 0 "activity-1" store_subtask).1 in
  let s := (updateSubtask "subtask-1" [UserialCompletionMandatory true] 0 s).1 in
  (addActivity "subtask-1" "Draft headings" None 0 "activity-2" s).1.

(** The Task with its order of Subtasks locked. *)
Definition store_locked : TaskStore :=
  (updateTask "task-1" [UsequenceMandatory true] 0 store_subtask).1.

(** The Task with a second Subtask. *)
Definition store_two_subtasks : TaskStore :=
  (addSubtask "task-1" "Review" None 0 "subtask-2" store_subtask).1.

(** A Task created on 20 October 2026 at 12:00 UTC and expected on
    2 November 2026 at 04:30 UTC, which is 1 November, 23:30 in New York. *)
Definition store_november : TaskStore :=
  (addTask "default-list" "File the return" None (Some 1792497600000)
     (Some 1793593800000) 1792497600000 "task-1" initialState).1.

(** 25 October 2026 at 03:45 UTC: 24 October, 23:45 in New York. *)
Definition late_october : Date := 1792899900000.

(** Two Tasks in the list. *)
Definition store_two_tasks : TaskStore :=
  (addTask "default-list" "Review" None (Some 0) (Some (7 * msPerDay)) 0 "task-2"
     store_task).1.

(** ** More properties of a store *)

(** Every id of the tree, in the order the locator visits the objects. *)
Definition st_allIds (st : Subtask) : list string :=
  st_id st :: map a_id (st_activities st).

Definition t_allIds (t : Task) : list string :=
  t_id t :: flat_map st_allIds (t_subtasks t).

Definition l_allIds (lst : TaskList) : list string :=
  l_id lst :: flat_map t_allIds (l_tasks lst).

Definition allIds (state : TaskStore) : list string :=
  flat_map l_allIds (s_taskLists state).

(** The position of the list a lookup result lies in. *)
Definition found_listIndex (r : Found) : nat :=
  match r with
  | FoundTaskList li _ => li
  | FoundTask li _ _ _ => li
  | FoundSubtask li _ _ _ _ => li
  | FoundActivity li _ _ _ _ _ => li
  end.

(** The item of a lookup result, when it is not a list. *)
Definition found_item (r : Found) : option Item :=
  match r with
  | FoundTaskList _ _ => None
  | FoundTask _ _ t _ => Some (ITask t)
  | FoundSubtask _ _ _ st _ => Some (ISubtask st)
  | FoundActivity _ _ _ _ a _ => Some (IActivity a)
  end.

(** No child starts before its parent. *)
Definition st_starts_ok (st : Subtask) : Prop :=
  Forall (λ a, st_creationDate st <= a_creationDate a) (st_activities st).

Definition t_starts_ok (t : Task) : Prop :=
  Forall (λ st, t_creationDate t <= st_creationDate st ∧ st_starts_ok st) (t_subtasks t).

Definition starts_ok (state : TaskStore) : Prop :=
  Forall (λ lst, Forall t_starts_ok (l_tasks lst)) (s_taskLists state).

(** The Subtasks of a Task name it as their parent. *)
Definition t_links_ok (t : Task) : Prop :=
  Forall (λ st, st_parentId st = t_id t) (t_subtasks t).

(** The ids of the tree with its nesting: what the locator depends on. *)
Definition st_shape (st : Subtask) : string * list string :=
  (st_id st, map a_id (st_activities st)).

Definition t_shape (t : Task) : string * list (string * list string) :=
  (t_id t, map st_shape (t_subtasks t)).

Definition l_shape (lst : TaskList)
    : string * list (string * list (string * list string)) :=
  (l_id lst, map t_shape (l_tasks lst)).

Definition idShape (state : TaskStore)
    : list (string * list (string * list (string * list string))) :=
  map l_shape (s_taskLists state).

(** The kind and the position of a lookup result, without the objects. *)
Definition found_position (r : Found) : Kind * list nat :=
  match r with
  | FoundTaskList li _ => (KindTaskList, [li])
  | FoundTask li ti _ _ => (KindTask, [li; ti])
  | FoundSubtask li ti si _ _ => (KindSubtask, [li; ti; si])
  | FoundActivity li ti si ai _ _ => (KindActivity, [li; ti; si; ai])
  end.

(** ** Attachments *)

Definition set_a_attachments (v : list Attachment) (x : Activity) : Activity :=
  {| a_id := a_id x; a_parentId := a_parentId x; a_name := a_name x; a_description :=
     a_description x; a_creationDate := a_creationDate x; a_expectedCompletionDate :=
     a_expectedCompletionDate x; a_actualCompletionDate := a_actualCompletionDate x;
     a_lastEditedDate := a_lastEditedDate x; a_status := a_status x; a_priority := a_priority x;
     a_order := a_order x; a_descriptionHistory := a_descriptionHistory x; a_attachments := v;
     a_autoRepeat := a_autoRepeat x; a_schedule := a_schedule x; a_reminder := a_reminder x;
     a_lastInstanceDate := a_lastInstanceDate x; a_notes := a_notes x; a_numericValue :=
     a_numericValue x; a_isSkipped := a_isSkipped x; a_isDue := a_isDue x; a_dueCount :=
     a_dueCount x |}.

Definition set_st_attachments (v : list Attachment) (x : Subtask) : Subtask :=
  {| st_id := st_id x; st_parentId := st_parentId x; st_name := st_name x; st_description :=
     st_description x; st_creationDate := st_creationDate x; st_expectedCompletionDate :=
     st_expectedCompletionDate x; st_actualCompletionDate := st_actualCompletionDate x;
     st_lastEditedDate := st_lastEditedDate x; st_status := st_status x; st_priority :=
     st_priority x; st_order := st_order x; st_serialCompletionMandatory :=
     st_serialCompletionMandatory x; st_sequenceMandatory := st_sequenceMandatory x;
     st_activities := st_activities x; st_dependencies := st_dependencies x;
     st_descriptionHistory := st_descriptionHistory x; st_attachments := v; st_autoRepeat :=
     st_autoRepeat x; st_schedule := st_schedule x; st_reminder := st_reminder x |}.

Definition set_t_attachments (v : list Attachment) (x : Task) : Task :=
  {| t_id := t_id x; t_listId := t_listId x; t_name := t_name x; t_description := t_description
     x; t_creationDate := t_creationDate x; t_expectedCompletionDate := t_expectedCompletionDate
     x; t_actualCompletionDate := t_actualCompletionDate x; t_lastEditedDate := t_lastEditedDate
     x; t_status := t_status x; t_priority := t_priority x; t_order := t_order x;
     t_serialCompletionMandatory := t_serialCompletionMandatory x; t_sequenceMandatory :=
     t_sequenceMandatory x; t_subtasks := t_subtasks x; t_dependencies := t_dependencies x;
     t_descriptionHistory := t_descriptionHistory x; t_attachments := v; t_autoRepeat :=
     t_autoRepeat x; t_schedule := t_schedule x; t_reminder := t_reminder x |}.

(** [Omit<Attachment, 'id' | 'timestamp'>], the argument of [addAttachment]. *)
Record AttachmentData := mkAttachmentData {
  ad_type : AttachmentType;
  ad_name : string;
  ad_url : option string;
  ad_dataUri : option string;
  ad_fileType : option string
}.

(** [{ ...attachmentData, id: uuidv4(), timestamp: now }] *)
Definition newAttachment (attachmentData : AttachmentData) (newId : string) (now : Date)
    : Attachment :=
  {| att_id := newId; att_type := ad_type attachmentData;
     att_name := ad_name attachmentData; att_url := ad_url attachmentData;
     att_dataUri := ad_dataUri attachmentData; att_fileType := ad_fileType attachmentData;
     att_timestamp := now |}.

(** [result.item.attachments]; an item without the field has none. *)
Definition found_attachments (result : Found) : list Attachment :=
  match result with
  | FoundTaskList _ _ => []
  | FoundTask _ _ task _ => t_attachments task
  | FoundSubtask _ _ _ subtask _ => st_attachments subtask
  | FoundActivity _ _ _ _ activity _ => a_attachments activity
  end.

(** [item.attachments = attachments] on the item a lookup returned. *)
Definition setItemAttachments (result : Found) (attachments : list Attachment)
    : TaskStore → TaskStore :=
  match result with
  | FoundTaskList _ _ => λ draft, draft
  | FoundTask li ti _ _ => modifyTask li ti (set_t_attachments attachments)
  | FoundSubtask li ti si _ _ => modifySubtask li ti si (set_st_attachments attachments)
  | FoundActivity li ti si ai _ _ =>
      modifyActivity li ti si ai (set_a_attachments attachments)
  end.

(** The stamps above the item: [parentItem.lastEditedDate = now], and for a
    parent that is not a list the lookup of [parentItem.parentId], stamped
    when it is a Task.  A Task has no [parentId], so for a Subtask that
    lookup is of [undefined] and finds nothing. *)
Definition stampParents (result : Found) (now : Date) (draft : TaskStore) : TaskStore :=
  match result with
  | FoundTaskList _ _ => draft
  | FoundTask li _ _ _ => modifyList li (set_l_lastEditedDate (Some now)) draft
  | FoundSubtask li ti _ _ _ => modifyTask li ti (set_t_lastEditedDate now) draft
  | FoundActivity li ti si _ _ parent =>
      let draft := modifySubtask li ti si (set_st_lastEditedDate now) draft in
      match findItemInDraft draft (st_parentId parent) with
      | Some (FoundTask gli gti _ _) => modifyTask gli gti (set_t_lastEditedDate now) draft
      | _ => draft
      end
  end.

(** [addAttachment(itemId, attachmentData)]: the new store and the id of the
    new attachment, or [null]. *)
Definition addAttachment (itemId : string) (attachmentData : AttachmentData) (now : Date)
    (newId : string) (state : TaskStore) : TaskStore * option string :=
  match findItemInDraft state itemId with
  | None | Some (FoundTaskList _ _) => (state, None)
  | Some result =>
      let draft :=
        setItemAttachments result
          (found_attachments result ++ [newAttachment attachmentData newId now]) state in
      let draft := setLastEditedDate result now draft in
      (stampParents result now draft, Some newId)
  end.

(** [deleteAttachment(itemId, attachmentId)]: the new store and [deleted]. *)
Definition deleteAttachment (itemId attachmentId : string) (now : Date)
    (state : TaskStore) : TaskStore * bool :=
  match findItemInDraft state itemId with
  | None | Some (FoundTaskList _ _) => (state, false)
  | Some result =>
      let initialLength := length (found_attachments result) in
      let kept :=
        List.filter (λ att, negb (String.eqb (att_id att) attachmentId))
          (found_attachments result) in
      let draft := setItemAttachments result kept state in
      if (length kept <? initialLength)%nat
      then (stampParents result now (setLastEditedDate result now draft), true)
      else (draft, false)
  end.

(** The attachments of the item an id resolves to. *)
Definition attachmentsOf (state : TaskStore) (itemId : string)
    : option (list Attachment) :=
  match findItemInDraft state itemId with
  | None | Some (FoundTaskList _ _) => None
  | Some result => Some (found_attachments result)
  end.

(** The attachments of the item at the position of a lookup result. *)
Definition attachmentsAt (state : TaskStore) (result : Found)
    : option (list Attachment) :=
  match result with
  | FoundTaskList _ _ => None
  | FoundTask li ti _ _ => t_attachments <$> taskAt state li ti
  | FoundSubtask li ti si _ _ => st_attachments <$> subtaskAt state li ti si
  | FoundActivity li ti si ai _ _ => a_attachments <$> activityAt state li ti si ai
  end.

(** The task lists: [addTaskList], [updateTaskListName], [deleteTaskList]. *)
Definition addTaskList (name newId : string) (state : TaskStore) : TaskStore :=
  set_s_taskLists
    (s_taskLists state
       ++ [{| l_id := newId; l_name := name; l_tasks := []; l_lastEditedDate := None |}])
    state.

Definition set_l_name (v : string) (x : TaskList) : TaskList :=
  {| l_id := l_id x; l_name := v; l_tasks := l_tasks x;
     l_lastEditedDate := l_lastEditedDate x |}.

Definition updateTaskListName (listId newName : string) (state : TaskStore) : TaskStore :=
  match findIndex (λ l, String.eqb (l_id l) listId) (s_taskLists state) with
  | Some li => modifyList li (set_l_name newName) state
  | None => state
  end.

Definition deleteTaskList (listId : string) (state : TaskStore) : TaskStore :=
  set_s_taskLists
    (List.filter (λ l, negb (String.eqb (l_id l) listId)) (s_taskLists state)) state.

(** A link, and the store where the second Activity carries it. *)
Definition example_link : AttachmentData :=
  {| ad_type := link; ad_name := "Style guide"; ad_url := Some "https://example.org/style";
     ad_dataUri := None; ad_fileType := None |}.

Definition store_attached : TaskStore :=
  (addAttachment "activity-2" example_link 1 "attachment-1" store_gate).1.

(** ** The locator *)

Lemma findInActivities_Some id li ti si st k acts r :
  findInActivities id li ti si st k acts = Some r →
  ∃ j a, r = FoundActivity li ti si (k + j) a st ∧ acts !! j = Some a ∧ a_id a = id.
Proof.
  revert k. induction acts as [|a acts IH]; intros k H; simpl in H; [done|].
  destruct (String.eqb_spec (a_id a) id) as [Heq|Hne].
  - inversion H; subst. exists 0%nat, a. by rewrite Nat.add_0_r.
  - apply IH in H as (j & a' & -> & Hj & Hid).
    exists (S j), a'. split_and!; [f_equal; lia|done|done].
Qed.

Lemma findInSubtasks_Some id li ti t k sts r :
  findInSubtasks id li ti t k sts = Some r →
  (∃ j st, r = FoundSubtask li ti (k + j) st t ∧ sts !! j = Some st ∧ st_id st = id)
  ∨ (∃ j st ai a, r = FoundActivity li ti (k + j) ai a st ∧ sts !! j = Some st
       ∧ st_activities st !! ai = Some a ∧ a_id a = id).
Proof.
  revert k. induction sts as [|st sts IH]; intros k H; simpl in H; [done|].
  destruct (String.eqb_spec (st_id st) id) as [Heq|Hne].
  - inversion H; subst. left. exists 0%nat, st. by rewrite Nat.add_0_r.
  - destruct (findInActivities id li ti k st 0 (st_activities st)) as [r'|] eqn:Hact.
    + inversion H; subst.
      apply findInActivities_Some in Hact as (j & a & -> & Hj & Hid).
      right. exists 0%nat, st, j, a. by rewrite Nat.add_0_r.
    + apply IH in H as [(j & st' & -> & Hj & Hid)|(j & st' & ai & a & -> & Hj & Ha & Hid)].
      * left. exists (S j), st'. split_and!; [f_equal; lia|done|done].
      * right. exists (S j), st', ai, a. split_and!; [f_equal; lia|done..].
Qed.

Lemma findInTasks_Some id li lst k ts r :
  findInTasks id li lst k ts = Some r →
  (∃ j t, r = FoundTask li (k + j) t lst ∧ ts !! j = Some t ∧ t_id t = id)
  ∨ (∃ j t si st, r = FoundSubtask li (k + j) si st t ∧ ts !! j = Some t
       ∧ t_subtasks t !! si = Some st ∧ st_id st = id)
  ∨ (∃ j t si st ai a, r = FoundActivity li (k + j) si ai a st ∧ ts !! j = Some t
       ∧ t_subtasks t !! si = Some st ∧ st_activities st !! ai = Some a ∧ a_id a = id).
Proof.
  revert k. induction ts as [|t ts IH]; intros k H; simpl in H; [done|].
  destruct (String.eqb_spec (t_id t) id) as [Heq|Hne].
  - inversion H; subst. left. exists 0%nat, t. by rewrite Nat.add_0_r.
  - destruct (findInSubtasks id li k t 0 (t_subtasks t)) as [r'|] eqn:Hsub.
    + inversion H; subst.
      apply findInSubtasks_Some in Hsub
        as [(j & st & -> & Hj & Hid)|(j & st & ai & a & -> & Hj & Ha & Hid)].
      * right; left. exists 0%nat, t, j, st. by rewrite Nat.add_0_r.
      * right; right. exists 0%nat, t, j, st, ai, a. by rewrite Nat.add_0_r.
    + apply IH in H as [(j & t' & -> & Hj & Hid)
        |[(j & t' & si & st & -> & Hj & Hst & Hid)
         |(j & t' & si & st & ai & a & -> & Hj & Hst & Ha & Hid)]].
      * left. exists (S j), t'. split_and!; [f_equal; lia|done|done].
      * right; left. exists (S j), t', si, st. split_and!; [f_equal; lia|done..].
      * right; right. exists (S j), t', si, st, ai, a. split_and!; [f_equal; lia|done..].
Qed.

Lemma findInLists_valid id k lists r (pre : list TaskList) :
  length pre = k →
  findInLists id k lists = Some r →
  ∀ state, s_taskLists state = (pre ++ lists)%list → found_valid state id r.
Proof.
  revert k pre. induction lists as [|lst lists IH]; intros k pre Hk H state Hs;
    simpl in H; [done|].
  assert (Hlst : s_taskLists state !! k = Some lst).
  { rewrite Hs, lookup_app_r by lia. by replace (k - length pre)%nat with 0%nat by lia. }
  destruct (String.eqb_spec (l_id lst) id) as [Heq|Hne].
  - inversion H; subst. by split.
  - destruct (findInTasks id k lst 0 (l_tasks lst)) as [r'|] eqn:Htasks.
    + inversion H; subst.
      apply findInTasks_Some in Htasks as [(j & t' & -> & Hj & Hid)
        |[(j & t' & si & st & -> & Hj & Hst & Hid)
         |(j & t' & si & st & ai & a & -> & Hj & Hst & Ha & Hid)]]; simpl.
      * done.
      * unfold taskAt. rewrite Hlst. simpl. done.
      * unfold subtaskAt, taskAt. rewrite Hlst. simpl. rewrite Hj. simpl. done.
    + eapply (IH (S k) (pre ++ [lst])%list); [rewrite length_app; simpl; lia|done|].
      by rewrite <- app_assoc.
Qed.

Lemma findItemInDraft_valid state id r :
  findItemInDraft state id = Some r → found_valid state id r.
Proof. intros H. by eapply (findInLists_valid id 0 _ r []). Qed.

(** [findItemRecursive] and [findItemInDraft] find the same thing. *)
Lemma findItemRecursive_activities_eq id li ti si st k acts :
  findItemRecursive_activities id li ti si st k acts
  = findInActivities id li ti si st k acts.
Proof. revert k. induction acts as [|a acts IH]; intros k; simpl; [done|]. by rewrite IH. Qed.

Lemma findItemRecursive_subtasks_eq id li ti t k sts :
  findItemRecursive_subtasks id li ti t k sts = findInSubtasks id li ti t k sts.
Proof.
  revert k. induction sts as [|st sts IH]; intros k; simpl; [done|].
  by rewrite IH, findItemRecursive_activities_eq.
Qed.

Lemma findItemRecursive_tasks_eq id li lst k ts :
  findItemRecursive_tasks id li lst k ts = findInTasks id li lst k ts.
Proof.
  revert k. induction ts as [|t ts IH]; intros k; simpl; [done|].
  by rewrite IH, findItemRecursive_subtasks_eq.
Qed.

Lemma findItem_findItemInDraft state id : findItem state id = findItemInDraft state id.
Proof.
  unfold findItem, findItemInDraft. generalize 0%nat.
  induction (s_taskLists state) as [|lst lists IH]; intros k; simpl; [done|].
  by rewrite IH, findItemRecursive_tasks_eq.
Qed.

(** The id of a Task of the tree resolves to something. *)
Lemma findInTasks_complete id li lst k ts :
  (∃ t, t ∈ ts ∧ t_id t = id) → is_Some (findInTasks id li lst k ts).
Proof.
  revert k. induction ts as [|t ts IH]; intros k (t' & Hin & Hid); simpl.
  - by apply elem_of_nil in Hin.
  - destruct (String.eqb_spec (t_id t) id) as [Heq|Hne]; [by eexists|].
    destruct (findInSubtasks id li k t 0 (t_subtasks t)); [by eexists|].
    apply IH. exists t'. apply elem_of_cons in Hin as [->|Hin]; [done|by split].
Qed.

Lemma findInLists_complete id k lists :
  (∃ lst t, lst ∈ lists ∧ t ∈ l_tasks lst ∧ t_id t = id) →
  is_Some (findInLists id k lists).
Proof.
  revert k. induction lists as [|lst lists IH]; intros k (lst' & t & Hl & Ht & Hid); simpl.
  - by apply elem_of_nil in Hl.
  - destruct (String.eqb (l_id lst) id); [by eexists|].
    destruct (findInTasks id k lst 0 (l_tasks lst)) as [r|] eqn:Htasks; [by eexists|].
    apply elem_of_cons in Hl as [->|Hl].
    + assert (is_Some (findInTasks id k lst 0 (l_tasks lst))) as [r Hr]
        by (apply findInTasks_complete; eauto).
      congruence.
    + apply IH. eauto.
Qed.

Lemma findIndex_Some {A} (p : A → bool) (l : list A) i :
  findIndex p l = Some i → ∃ x, l !! i = Some x ∧ p x = true.
Proof.
  revert i. induction l as [|x l IH]; intros i H; simpl in H; [done|].
  destruct (p x) eqn:Hp.
  - inversion H; subst. eauto.
  - destruct (findIndex p l) as [j|]; simpl in H; [|done].
    inversion H; subst. destruct (IH j eq_refl) as (y & Hy & Hpy). eauto.
Qed.

(** ** Mutation at a position *)

Lemma alter_same {A} (f : A → A) (l : list A) i :
  (∀ x, l !! i = Some x → f x = x) → alter f i l = l.
Proof.
  intros Hf. apply list_eq. intros j. destruct (decide (i = j)) as [->|Hne].
  - rewrite list_lookup_alter_eq. destruct (l !! j) eqn:E; simpl; [|done].
    by rewrite Hf.
  - by rewrite list_lookup_alter_ne.
Qed.

Lemma set_s_taskLists_same state : set_s_taskLists (s_taskLists state) state = state.
Proof. by destruct state. Qed.

Lemma set_l_tasks_same lst : set_l_tasks (l_tasks lst) lst = lst.
Proof. by destruct lst. Qed.

Lemma set_t_subtasks_same t : set_t_subtasks (t_subtasks t) t = t.
Proof. by destruct t. Qed.

Lemma set_st_activities_same st : set_st_activities (st_activities st) st = st.
Proof. by destruct st. Qed.

Lemma modifyList_same li f state :
  (∀ x, s_taskLists state !! li = Some x → f x = x) → modifyList li f state = state.
Proof.
  intros Hf. unfold modifyList. rewrite alter_same by done. apply set_s_taskLists_same.
Qed.

Lemma modifyTask_same li ti f state :
  (∀ t, taskAt state li ti = Some t → f t = t) → modifyTask li ti f state = state.
Proof.
  intros Hf. apply modifyList_same. intros lst Hlst.
  rewrite alter_same; [apply set_l_tasks_same|].
  intros t Ht. apply Hf. unfold taskAt. by rewrite Hlst.
Qed.

Lemma modifySubtask_same li ti si f state :
  (∀ st, subtaskAt state li ti si = Some st → f st = st) →
  modifySubtask li ti si f state = state.
Proof.
  intros Hf. apply modifyTask_same. intros t Ht.
  rewrite alter_same; [apply set_t_subtasks_same|].
  intros st Hst. apply Hf. unfold subtaskAt. by rewrite Ht.
Qed.

Lemma taskAt_modifyTask li ti f state :
  taskAt (modifyTask li ti f state) li ti = f <$> taskAt state li ti.
Proof.
  unfold taskAt, modifyTask, modifyList. simpl. rewrite list_lookup_alter_eq.
  destruct (s_taskLists state !! li) as [lst|]; simpl; [|done].
  by rewrite list_lookup_alter_eq.
Qed.

Lemma subtaskAt_modifyTask li ti si f state :
  subtaskAt (modifyTask li ti f state) li ti si
  = t ← taskAt state li ti; t_subtasks (f t) !! si.
Proof.
  unfold subtaskAt. rewrite taskAt_modifyTask. by destruct (taskAt state li ti).
Qed.

Lemma subtaskAt_modifySubtask li ti si f state :
  subtaskAt (modifySubtask li ti si f state) li ti si = f <$> subtaskAt state li ti si.
Proof.
  unfold modifySubtask. rewrite subtaskAt_modifyTask. unfold subtaskAt.
  destruct (taskAt state li ti) as [t|]; simpl; [|done].
  by rewrite list_lookup_alter_eq.
Qed.

(** *** Mutation and the date invariant *)






(** ** Dates *)

Local Ltac split_ifs :=
  repeat match goal with
         | |- context [if ?b then _ else _] => destruct b eqn:?; simpl
         end.

Lemma fold_left_invariant {A B} (P : A → Prop) (f : A → B → A) (l : list B) (a : A) :
  P a → (∀ x u, P x → P (f x u)) → P (fold_left f l a).
Proof. revert a. induction l as [|u l IH]; intros a Ha Hf; simpl; [done|]. auto. Qed.

(** *** The cascade *)

Lemma cascadeActivity_clamped st now a : a_clamped st (cascadeActivity st now a).
Proof.
  unfold cascadeActivity, a_clamped.
  destruct (a_creationDate a <? st_creationDate st) eqn:H1; simpl;
    destruct (_ >? st_expectedCompletionDate st) eqn:H2; simpl;
    destruct (_ <? _) eqn:H3 in |- *; simpl; simpl in H3; lia.
Qed.



Lemma a_clamped_ext st st' a :
  st_creationDate st' = st_creationDate st →
  st_expectedCompletionDate st' = st_expectedCompletionDate st →
  a_clamped st a → a_clamped st' a.
Proof. unfold a_clamped. intros -> ->. done. Qed.

Lemma cascadeSubtask_clamped t now st : st_clamped t (cascadeSubtask t now st).
Proof.
  unfold cascadeSubtask, st_clamped.
  destruct (st_creationDate st <? t_creationDate t) eqn:H1; simpl;
    destruct (_ >? t_expectedCompletionDate t) eqn:H2; simpl;
    destruct (_ <? _) eqn:H3 in |- *; simpl; simpl in H3; lia.
Qed.

Lemma st_clamped_ext t t' st :
  t_creationDate t' = t_creationDate t →
  t_expectedCompletionDate t' = t_expectedCompletionDate t →
  st_clamped t st → st_clamped t' st.
Proof. unfold st_clamped. intros -> ->. done. Qed.

Lemma cascadeSubtask_activities_clamped t now st :
  Forall (a_clamped (cascadeSubtask t now st)) (st_activities (cascadeSubtask t now st)).
Proof.
  unfold cascadeSubtask.
  destruct (st_creationDate st <? t_creationDate t) eqn:H1; simpl;
    destruct (_ >? t_expectedCompletionDate t) eqn:H2; simpl;
    destruct (_ <? _) eqn:H3 in |- *; simpl;
    apply Forall_map, Forall_forall; intros a _;
    (eapply a_clamped_ext; [| |apply cascadeActivity_clamped]); reflexivity.
Qed.



(** *** The loop over the keys keeps expected >= creation *)










(** ** The update operations *)

Lemma found_task_at state id li ti t p :
  findItemInDraft state id = Some (FoundTask li ti t p) → taskAt state li ti = Some t.
Proof.
  intros H. apply findItemInDraft_valid in H as (Hl & Ht & _).
  unfold taskAt. by rewrite Hl.
Qed.

Lemma found_subtask_at state id li ti si st p :
  findItemInDraft state id = Some (FoundSubtask li ti si st p) →
  taskAt state li ti = Some p ∧ subtaskAt state li ti si = Some st.
Proof.
  intros H. apply findItemInDraft_valid in H as (Hp & Hst & _).
  split; [done|]. unfold subtaskAt. by rewrite Hp.
Qed.

Lemma found_activity_at state id li ti si ai a p :
  findItemInDraft state id = Some (FoundActivity li ti si ai a p) →
  subtaskAt state li ti si = Some p ∧ activityAt state li ti si ai = Some a.
Proof.
  intros H. apply findItemInDraft_valid in H as (Hp & Ha & _).
  split; [done|]. unfold activityAt. by rewrite Hp.
Qed.





(** C8.  An update whose id does not resolve to an item of the expected kind
    returns the not-found message and the store it was given; on a store
    whose Subtasks name their Task as parent, an update whose id resolves
    returns [true]. *)
Theorem update_not_found_or_true (op : UpdateOp) (now : Date) (state : TaskStore) :
  (¬ resolves state (update_id op) (update_kind op) →
   runUpdate op now state
   = (state,
      ReturnString
        (kind_name (update_kind op) ++ " with ID " ++ update_id op ++ " not found.")))
  ∧ (parentLinks_ok state →
     resolves state (update_id op) (update_kind op) →
     (runUpdate op now state).2 = ReturnTrue).
Proof.
  split.
  - intros Hno. destruct op; simpl in *.
    + unfold updateTask.
      destruct (findItemInDraft state taskId) as [[]|] eqn:Hfind; try done.
      exfalso. apply Hno. by eexists.
    + unfold updateSubtask.
      destruct (findItemInDraft state subtaskId) as [[]|] eqn:Hfind; try done.
      exfalso. apply Hno. by eexists.
    + unfold updateActivity.
      destruct (findItemInDraft state activityId) as [[]|] eqn:Hfind; try done.
      exfalso. apply Hno. by eexists.
  - intros Hlinks (r & Hfind & Hkind). destruct op; simpl in *.
    + unfold updateTask. rewrite Hfind. by destruct r.
    + unfold updateSubtask. rewrite Hfind. destruct r; try done.
      destruct (updateSubtask_body _ _ _ _). done.
    + unfold updateActivity. rewrite Hfind. destruct r as [| | |li ti si ai a p]; try done.
      apply findItemInDraft_valid in Hfind as (Hp & _).
      unfold subtaskAt, taskAt in Hp.
      destruct (s_taskLists state !! li) as [lst|] eqn:Hl; simpl in Hp; [|done].
      destruct (l_tasks lst !! ti) as [t|] eqn:Ht; simpl in Hp; [|done].
      assert (Hid : st_parentId p = t_id t).
      { unfold parentLinks_ok in Hlinks.
        rewrite Forall_lookup in Hlinks. specialize (Hlinks _ _ Hl). simpl in Hlinks.
        rewrite Forall_lookup in Hlinks. specialize (Hlinks _ _ Ht). simpl in Hlinks.
        rewrite Forall_lookup in Hlinks. by apply (Hlinks _ _ Hp). }
      assert (is_Some (findItemInDraft state (st_parentId p))) as [r Hr].
      { apply findInLists_complete. exists lst, t.
        split_and!; [by eapply list_elem_of_lookup_2..|done]. }
      rewrite Hr. destruct (updateActivity_body _ _ _ _). done.
Qed.

(** C9.  [updateTask] with only a creation date later than the expected
    completion date of the Task: the creation date becomes the expected
    completion date, which is unchanged. *)
Theorem updateTask_creation_pulled_back (state : TaskStore) (taskId : string)
    (newCreation now : Date) (li ti : nat) (t : Task) (p : TaskList) :
  findItemInDraft state taskId = Some (FoundTask li ti t p) →
  t_creationDate t <= t_expectedCompletionDate t →
  t_expectedCompletionDate t < newCreation →
  ∃ t', taskAt (updateTask taskId [UcreationDate newCreation] now state).1 li ti = Some t'
        ∧ t_creationDate t' = t_expectedCompletionDate t
        ∧ t_expectedCompletionDate t' = t_expectedCompletionDate t.
Proof.
  intros Hfind Hok Hlate. unfold updateTask. rewrite Hfind. simpl.
  rewrite taskAt_modifyTask. rewrite (found_task_at _ _ _ _ _ _ Hfind). simpl.
  eexists. split; [done|].
  unfold updateTask_body. simpl.
  destruct (newCreation =? t_creationDate t) eqn:E1; [lia|]. simpl.
  destruct (newCreation >? t_expectedCompletionDate t) eqn:E2; [|lia].
  simpl. done.
Qed.

(** *** An update that changes nothing *)







(** ** Reordering a locked container *)

(** C4.  [reorderSubtasks] on a Task whose [sequenceMandatory] is set, and
    [reorderActivities] on such a Subtask, return the store they were given,
    whatever the id list. *)
Theorem reorder_locked_no_change (state : TaskStore) (containerId : string)
    (ids : list string) (now : Date) :
  (∀ li ti t p,
     findItemInDraft state containerId = Some (FoundTask li ti t p) →
     t_sequenceMandatory t = true →
     reorderSubtasks containerId ids now state = state)
  ∧ (∀ li ti si st p,
       findItemInDraft state containerId = Some (FoundSubtask li ti si st p) →
       st_sequenceMandatory st = true →
       reorderActivities containerId ids now state = state).
Proof.
  split.
  - intros li ti t p Hfind Hlock. unfold reorderSubtasks. by rewrite Hfind, Hlock.
  - intros li ti si st p Hfind Hlock. unfold reorderActivities. by rewrite Hfind, Hlock.
Qed.

(** ** The cascade of the date bounds *)

(** A call changes the creation or the expected completion date of a Task
    only if it supplies one of the two keys. *)
Lemma updateTask_key_nodate acc u :
  match u with UcreationDate _ | UexpectedCompletionDate _ => False | _ => True end →
  t_creationDate (updateTask_key acc u).1 = t_creationDate acc.1
  ∧ t_expectedCompletionDate (updateTask_key acc u).1 = t_expectedCompletionDate acc.1.
Proof. destruct acc as [t c]. destruct u; simpl; try done; intros _; split_ifs; done. Qed.

Lemma updateTask_fold_nodate updates acc :
  updates_hasDate updates = false →
  t_creationDate (fold_left updateTask_key updates acc).1 = t_creationDate acc.1
  ∧ t_expectedCompletionDate (fold_left updateTask_key updates acc).1
    = t_expectedCompletionDate acc.1.
Proof.
  revert acc. induction updates as [|u updates IH]; intros acc H; cbn [fold_left]; [done|].
  unfold updates_hasDate in H. simpl in H. apply orb_false_iff in H as [Hu Hrest].
  destruct (IH (updateTask_key acc u) Hrest) as [-> ->].
  apply updateTask_key_nodate. by destruct u.
Qed.

Lemma updateTask_body_nodate updates now t :
  updates_hasDate updates = false →
  t_creationDate (updateTask_body updates now t) = t_creationDate t
  ∧ t_expectedCompletionDate (updateTask_body updates now t) = t_expectedCompletionDate t.
Proof.
  intros H. unfold updateTask_body. rewrite H.
  set (start := match updates_description updates with
                | Some _ => _ | None => _ end).
  assert (Hstart : t_creationDate start.1 = t_creationDate t
                   ∧ t_expectedCompletionDate start.1 = t_expectedCompletionDate t).
  { subst start. destruct (updates_description updates); [|done]. by destruct (negb _). }
  destruct start as [t0 c0].
  pose proof (updateTask_fold_nodate updates (t0, c0) H) as Hfold.
  destruct (fold_left updateTask_key updates (t0, c0)) as [t1 c1]. simpl in *.
  destruct c1; simpl; intuition congruence.
Qed.

Lemma updateTask_body_cascade updates now t :
  updates_hasDate updates = true →
  Forall (λ st, st_clamped (updateTask_body updates now t) st
               ∧ Forall (a_clamped st) (st_activities st))
    (t_subtasks (updateTask_body updates now t)).
Proof.
  intros H. unfold updateTask_body. rewrite H.
  destruct (match updates_description updates with
            | Some _ => _ | None => _ end) as [t0 c0].
  destruct (fold_left updateTask_key updates (t0, c0)) as [t1 c1].
  simpl. apply Forall_map, Forall_forall. intros st _. split.
  - eapply st_clamped_ext; [| |apply cascadeSubtask_clamped]; reflexivity.
  - apply cascadeSubtask_activities_clamped.
Qed.

(** The same for a Subtask whose own dates are in order. *)
Lemma updateSubtask_key_nodate parent acc u c e :
  match u with UcreationDate _ | UexpectedCompletionDate _ => False | _ => True end →
  c <= e →
  st_creationDate acc.1 = c ∧ st_expectedCompletionDate acc.1 = e →
  st_creationDate (updateSubtask_key parent acc u).1 = c
  ∧ st_expectedCompletionDate (updateSubtask_key parent acc u).1 = e.
Proof.
  destruct acc as [st ch]. simpl. intros Hu Hce [Hc He].
  destruct u; simpl; try done; split_ifs; try done.
  unfold st_expectedNotBeforeCreation. simpl. split_ifs; [lia|done].
Qed.

Lemma updateSubtask_fold_nodate parent updates acc c e :
  updates_hasDate updates = false →
  c <= e →
  st_creationDate acc.1 = c ∧ st_expectedCompletionDate acc.1 = e →
  st_creationDate (fold_left (updateSubtask_key parent) updates acc).1 = c
  ∧ st_expectedCompletionDate (fold_left (updateSubtask_key parent) updates acc).1 = e.
Proof.
  revert acc. induction updates as [|u updates IH]; intros acc H Hce Hacc;
    cbn [fold_left]; [done|].
  unfold updates_hasDate in H. simpl in H. apply orb_false_iff in H as [Hu Hrest].
  apply IH; [done..|]. apply updateSubtask_key_nodate; [by destruct u|done..].
Qed.

Lemma updateSubtask_body_nodate updates now parent st :
  updates_hasDate updates = false →
  st_creationDate st <= st_expectedCompletionDate st →
  st_creationDate (updateSubtask_body updates now parent st).1 = st_creationDate st
  ∧ st_expectedCompletionDate (updateSubtask_body updates now parent st).1
    = st_expectedCompletionDate st.
Proof.
  intros H Hok. unfold updateSubtask_body. rewrite H.
  set (start := match updates_description updates with
                | Some _ => _ | None => _ end).
  assert (Hstart : st_creationDate start.1 = st_creationDate st
                   ∧ st_expectedCompletionDate start.1 = st_expectedCompletionDate st).
  { subst start. destruct (updates_description updates); [|done]. by destruct (negb _). }
  destruct start as [st0 c0].
  pose proof (updateSubtask_fold_nodate parent updates (st0, c0) _ _ H Hok Hstart) as Hfold.
  destruct (fold_left (updateSubtask_key parent) updates (st0, c0)) as [st1 c1].
  simpl in *. destruct c1; simpl; done.
Qed.

Lemma updateSubtask_body_cascade updates now parent st :
  updates_hasDate updates = true →
  Forall (a_clamped (updateSubtask_body updates now parent st).1)
    (st_activities (updateSubtask_body updates now parent st).1).
Proof.
  intros H. unfold updateSubtask_body. rewrite H.
  destruct (match updates_description updates with
            | Some _ => _ | None => _ end) as [st0 c0].
  destruct (fold_left (updateSubtask_key parent) updates (st0, c0)) as [st1 c1].
  simpl. apply Forall_map, Forall_forall. intros a _.
  eapply a_clamped_ext; [| |apply cascadeActivity_clamped]; reflexivity.
Qed.

Lemma taskAt_updateTask state taskId updates now li ti t p :
  findItemInDraft state taskId = Some (FoundTask li ti t p) →
  taskAt (updateTask taskId updates now state).1 li ti
  = Some (updateTask_body updates now t).
Proof.
  intros Hfind. unfold updateTask. rewrite Hfind. simpl.
  by rewrite taskAt_modifyTask, (found_task_at _ _ _ _ _ _ Hfind).
Qed.

Lemma subtaskAt_updateSubtask state subtaskId updates now li ti si st p :
  findItemInDraft state subtaskId = Some (FoundSubtask li ti si st p) →
  subtaskAt (updateSubtask subtaskId updates now state).1 li ti si
  = Some (updateSubtask_body updates now p st).1.
Proof.
  intros Hfind. unfold updateSubtask. rewrite Hfind.
  destruct (updateSubtask_body updates now p st) as [st' changed]. simpl.
  apply found_subtask_at in Hfind as [Hp Hst].
  assert (Hmid : subtaskAt (modifySubtask li ti si (λ _, st') state) li ti si = Some st')
    by (by rewrite subtaskAt_modifySubtask, Hst).
  destruct changed; [|done].
  rewrite subtaskAt_modifyTask. simpl. exact Hmid.
Qed.

(** C2, as the code has it.  After an [updateTask] that changes the creation
    or the expected completion date of the Task, every Subtask starts no
    earlier than the Task and ends no earlier than it starts; it ends no
    later than the Task unless it starts after the Task ends, and then it
    ends when it starts.  Every Activity stands in the same relation to its
    Subtask.  After an [updateSubtask] that changes one of the two dates of
    a Subtask whose dates were in order, its Activities stand in that
    relation to it. *)
Theorem update_cascade_clamps_children :
  (∀ state taskId updates now li ti t p t',
     findItemInDraft state taskId = Some (FoundTask li ti t p) →
     taskAt (updateTask taskId updates now state).1 li ti = Some t' →
     t_creationDate t' ≠ t_creationDate t
     ∨ t_expectedCompletionDate t' ≠ t_expectedCompletionDate t →
     Forall (λ st, st_clamped t' st ∧ Forall (a_clamped st) (st_activities st))
       (t_subtasks t'))
  ∧ (∀ state subtaskId updates now li ti si st p st',
       findItemInDraft state subtaskId = Some (FoundSubtask li ti si st p) →
       st_creationDate st <= st_expectedCompletionDate st →
       subtaskAt (updateSubtask subtaskId updates now state).1 li ti si = Some st' →
       st_creationDate st' ≠ st_creationDate st
       ∨ st_expectedCompletionDate st' ≠ st_expectedCompletionDate st →
       Forall (a_clamped st') (st_activities st')).
Proof.
  split.
  - intros state taskId updates now li ti t p t' Hfind Hat Hchange.
    rewrite (taskAt_updateTask _ _ _ _ _ _ _ _ Hfind) in Hat. inversion Hat; subst.
    destruct (updates_hasDate updates) eqn:Hdate.
    + by apply updateTask_body_cascade.
    + destruct (updateTask_body_nodate updates now t Hdate) as [Hc He]. tauto.
  - intros state subtaskId updates now li ti si st p st' Hfind Hok Hat Hchange.
    rewrite (subtaskAt_updateSubtask _ _ _ _ _ _ _ _ _ Hfind) in Hat.
    inversion Hat; subst.
    destruct (updates_hasDate updates) eqn:Hdate.
    + by apply updateSubtask_body_cascade.
    + destruct (updateSubtask_body_nodate updates now p st Hdate Hok) as [Hc He]. tauto.
Qed.

(** ** The serial-completion gate *)

Lemma Status_eqb_eq a b : Status_eqb a b = true ↔ a = b.
Proof. destruct a, b; simpl; split; congruence. Qed.

Lemma Priority_eqb_eq a b : Priority_eqb a b = true ↔ a = b.
Proof. destruct a, b; simpl; split; congruence. Qed.

Lemma precedingSiblingsDone_true itemId currentOrder siblings :
  precedingSiblingsDone itemId currentOrder siblings = true
  ↔ ∀ sibling, sibling ∈ siblings → item_id sibling ≠ itemId →
       item_order sibling < currentOrder → item_status sibling = done.
Proof.
  induction siblings as [|s siblings IH]; simpl.
  - split; [|done]. intros _ sibling Hin. by apply elem_of_nil in Hin.
  - destruct (String.eqb_spec (item_id s) itemId) as [Heq|Hne].
    + rewrite IH. split.
      * intros H sibling Hin. apply elem_of_cons in Hin as [->|Hin]; [done|by apply H].
      * intros H sibling Hin. apply H. by apply list_elem_of_further.
    + destruct ((item_order s <? currentOrder) && negb (Status_eqb (item_status s) done))
        eqn:Hblock.
      * split; [done|]. intros H.
        apply andb_true_iff in Hblock as [Hlt Hnd].
        assert (item_status s = done) as Hd
          by (apply H; [apply list_elem_of_here|done|lia]).
        apply Status_eqb_eq in Hd. rewrite Hd in Hnd. done.
      * rewrite IH. split.
        -- intros H sibling Hin. apply elem_of_cons in Hin as [->|Hin]; [|by apply H].
           intros _ Hlt. apply andb_false_iff in Hblock as [Hge|Hdone]; [lia|].
           apply negb_false_iff in Hdone. by apply Status_eqb_eq.
        -- intros H sibling Hin. apply H. by apply list_elem_of_further.
Qed.

Lemma NoDup_map_eq {A B} (f : A → B) (l : list A) x y :
  NoDup (map f l) → x ∈ l → y ∈ l → f x = f y → x = y.
Proof.
  induction l as [|a l IH]; simpl; intros Hnd Hx Hy Hf.
  - by apply elem_of_nil in Hx.
  - apply NoDup_cons in Hnd as [Hnotin Hnd].
    apply elem_of_cons in Hx as [->|Hx]; apply elem_of_cons in Hy as [->|Hy].
    + done.
    + exfalso. apply Hnotin. rewrite Hf. apply list_elem_of_In, in_map.
      by apply list_elem_of_In.
    + exfalso. apply Hnotin. rewrite <- Hf. apply list_elem_of_In, in_map.
      by apply list_elem_of_In.
    + by apply IH.
Qed.

Lemma siblingIds_unique_task state li ti t :
  siblingIds_unique state → taskAt state li ti = Some t → t_siblingIds_unique t.
Proof.
  unfold siblingIds_unique, taskAt. intros Hu Ht.
  destruct (s_taskLists state !! li) as [lst|] eqn:Hl; simpl in Ht; [|done].
  rewrite Forall_lookup in Hu. specialize (Hu _ _ Hl). simpl in Hu.
  rewrite Forall_lookup in Hu. by apply (Hu _ _ Ht).
Qed.

Lemma siblingIds_unique_subtask state li ti si st :
  siblingIds_unique state → subtaskAt state li ti si = Some st → st_siblingIds_unique st.
Proof.
  unfold subtaskAt. intros Hu Hst.
  destruct (taskAt state li ti) as [t|] eqn:Ht; simpl in Hst; [|done].
  destruct (siblingIds_unique_task _ _ _ _ Hu Ht) as [_ Hall].
  rewrite Forall_lookup in Hall. by apply (Hall _ _ Hst).
Qed.

(** C3.  On a store whose sibling ids are distinct: for a Subtask of a Task
    (an Activity of a Subtask) whose [serialCompletionMandatory] is set,
    [canStartItem] is [true] exactly when every sibling of strictly lower
    order is done; it is [true] when the flag is not set, for a Task and for
    a TaskList.  (For an id that resolves to nothing it is [false].) *)
Theorem canStartItem_serial_gate (state : TaskStore) (itemId : string) :
  siblingIds_unique state →
  match findItem state itemId with
  | Some (FoundSubtask _ _ _ item parent) =>
      if t_serialCompletionMandatory parent
      then canStartItem state itemId = true
           ↔ ∀ sibling, sibling ∈ t_subtasks parent →
               st_order sibling < st_order item → st_status sibling = done
      else canStartItem state itemId = true
  | Some (FoundActivity _ _ _ _ item parent) =>
      if st_serialCompletionMandatory parent
      then canStartItem state itemId = true
           ↔ ∀ sibling, sibling ∈ st_activities parent →
               a_order sibling < a_order item → a_status sibling = done
      else canStartItem state itemId = true
  | Some (FoundTask _ _ _ _) | Some (FoundTaskList _ _) =>
      canStartItem state itemId = true
  | None => canStartItem state itemId = false
  end.
Proof.
  intros Hu. unfold canStartItem.
  destruct (findItem state itemId) as [[| |li ti si item parent|li ti si ai item parent]|]
    eqn:Hfind; try done.
  - rewrite findItem_findItemInDraft in Hfind.
    apply findItemInDraft_valid in Hfind as (Hp & Hitem & Hid).
    destruct (t_serialCompletionMandatory parent); simpl; [|done].
    rewrite precedingSiblingsDone_true.
    destruct (siblingIds_unique_task _ _ _ _ Hu Hp) as [Hnd _].
    apply list_elem_of_lookup_2 in Hitem.
    split.
    + intros H sibling Hin Hlt.
      apply (H (ISubtask sibling)); simpl; [|  |done].
      * apply list_elem_of_In, in_map. by apply list_elem_of_In.
      * intros Heq. assert (sibling = item) by (eapply NoDup_map_eq; eauto).
        subst. lia.
    + intros H s Hin Hne Hlt.
      apply list_elem_of_In, in_map_iff in Hin as (sibling & <- & Hin).
      simpl in *. apply H; [by apply list_elem_of_In|done].
  - rewrite findItem_findItemInDraft in Hfind.
    apply findItemInDraft_valid in Hfind as (Hp & Hitem & Hid).
    destruct (st_serialCompletionMandatory parent); simpl; [|done].
    rewrite precedingSiblingsDone_true.
    pose proof (siblingIds_unique_subtask _ _ _ _ _ Hu Hp) as Hnd.
    apply list_elem_of_lookup_2 in Hitem.
    split.
    + intros H sibling Hin Hlt.
      apply (H (IActivity sibling)); simpl; [|  |done].
      * apply list_elem_of_In, in_map. by apply list_elem_of_In.
      * intros Heq. assert (sibling = item) by (eapply NoDup_map_eq; eauto).
        subst. lia.
    + intros H s Hin Hne Hlt.
      apply list_elem_of_In, in_map_iff in Hin as (sibling & <- & Hin).
      simpl in *. apply H; [by apply list_elem_of_In|done].
Qed.

(** ** The Today selector *)

Lemma sortInsert_Permutation {A} (compare : A → A → Z) x l :
  sortInsert compare x l ≡ₚ x :: l.
Proof.
  induction l as [|y l IH]; simpl; [done|].
  destruct (0 <? compare x y); [|done].
  rewrite IH. apply Permutation_swap.
Qed.

Lemma sort_Permutation {A} (compare : A → A → Z) l : sort compare l ≡ₚ l.
Proof.
  induction l as [|x l IH]; simpl; [done|].
  by rewrite sortInsert_Permutation, IH.
Qed.

Lemma elem_of_getTodayItems tz state today e :
  e ∈ getTodayItems tz state today
  ↔ ∃ item, item ∈ getAllItems state ∧ todayItem tz state today item = Some e.
Proof.
  unfold getTodayItems. rewrite sort_Permutation. apply list_elem_of_omap.
Qed.

(** *** Days on the wall clock *)

Lemma msPerDay_pos : 0 < msPerDay.
Proof. reflexivity. Qed.

Lemma round_div_days k d : 0 < d → round_div (k * d) d = k.
Proof.
  intros Hd. unfold round_div.
  replace (2 * (k * d) + d) with (k * (2 * d) + d) by lia.
  rewrite Z.div_add_l by lia. rewrite Z.div_small by lia. lia.
Qed.

(** The quotient toward zero of a difference, from the days and the times of
    day of its two terms. *)
Lemma quot_difference a b l0 r0 d :
  0 < d → 0 <= l0 < d → 0 <= r0 < d →
  Z.quot (a * d + l0 - (b * d + r0)) d
  = Z.sgn (a * d + l0 - (b * d + r0))
    * (Z.abs (a - b)
       - (if Z.sgn (l0 - r0) =? - Z.sgn (a * d + l0 - (b * d + r0)) then 1 else 0)).
Proof.
  intros Hd Hl Hr.
  destruct (Z.lt_trichotomy (a * d + l0) (b * d + r0)) as [Hlt|[Heq|Hgt]].
  - assert (Hab : a <= b) by nia.
    rewrite (Z.sgn_neg (a * d + l0 - (b * d + r0))) by lia.
    replace (a * d + l0 - (b * d + r0)) with (- (b * d + r0 - (a * d + l0))) by lia.
    rewrite Z.quot_opp_l by lia.
    rewrite Z.abs_neq by lia.
    destruct (Z.lt_trichotomy l0 r0) as [H0|[H0|H0]].
    + rewrite (Z.sgn_neg (l0 - r0)) by lia. simpl.
      rewrite <- (Z.quot_unique (b * d + r0 - (a * d + l0)) d (b - a) (r0 - l0)); lia.
    + rewrite H0, Z.sub_diag. simpl.
      rewrite <- (Z.quot_unique (b * d + r0 - (a * d + r0)) d (b - a) 0); lia.
    + rewrite (Z.sgn_pos (l0 - r0)) by lia. simpl.
      rewrite <- (Z.quot_unique (b * d + r0 - (a * d + l0)) d (b - a - 1) (d + r0 - l0));
        lia.
  - replace (a * d + l0 - (b * d + r0)) with 0 by lia. simpl. done.
  - assert (Hab : b <= a) by nia.
    rewrite (Z.sgn_pos (a * d + l0 - (b * d + r0))) by lia.
    rewrite Z.abs_eq by lia.
    destruct (Z.lt_trichotomy l0 r0) as [H0|[H0|H0]].
    + rewrite (Z.sgn_neg (l0 - r0)) by lia. simpl.
      rewrite <- (Z.quot_unique (a * d + l0 - (b * d + r0)) d (a - b - 1) (d + l0 - r0));
        lia.
    + rewrite H0, Z.sub_diag. simpl.
      rewrite <- (Z.quot_unique (a * d + r0 - (b * d + r0)) d (a - b) 0); lia.
    + rewrite (Z.sgn_pos (l0 - r0)) by lia. simpl.
      rewrite <- (Z.quot_unique (a * d + l0 - (b * d + r0)) d (a - b) (l0 - r0)); lia.
Qed.

(** When the readings [differenceInDays] goes through exist, it counts the
    whole days between the two wall-clock readings, toward zero. *)
Lemma differenceInDays_readings tz dateLeft dateRight :
  readingsExist tz dateLeft dateRight →
  differenceInDays tz dateLeft dateRight
  = Z.quot (localTime tz dateLeft - localTime tz dateRight) msPerDay.
Proof.
  unfold readingsExist, readingExists. cbv zeta.
  set (l := localTime tz dateLeft). set (r := localTime tz dateRight).
  intros (Hl & Hr & Hshift).
  pose proof msPerDay_pos as Hd.
  pose proof (Z.div_mod l msPerDay ltac:(lia)) as Hldiv.
  pose proof (Z.mod_pos_bound l msPerDay Hd) as Hlmod.
  pose proof (Z.div_mod r msPerDay ltac:(lia)) as Hrdiv.
  pose proof (Z.mod_pos_bound r msPerDay Hd) as Hrmod.
  set (a := l `div` msPerDay) in *. set (b := r `div` msPerDay) in *.
  set (l0 := l `mod` msPerDay) in *. set (r0 := r `mod` msPerDay) in *.
  assert (Hcal : differenceInCalendarDays tz dateLeft dateRight = a - b).
  { unfold differenceInCalendarDays, startOfDay. cbv zeta. fold l r. fold a b.
    rewrite Hl, Hr.
    replace (a * msPerDay - b * msPerDay) with ((a - b) * msPerDay) by lia.
    by apply round_div_days. }
  assert (Hsign : Z.sgn (l - r) * Z.abs (a - b) = a - b).
  { destruct (Z.lt_trichotomy l r) as [Hlt|[Heq|Hgt]].
    - assert (a <= b) by nia. rewrite Z.sgn_neg, Z.abs_neq by lia. lia.
    - assert (a = b) by nia. rewrite (Z.sgn_null (l - r)) by lia. lia.
    - assert (b <= a) by nia. rewrite Z.sgn_pos, Z.abs_eq by lia. lia. }
  unfold differenceInDays, compareLocalAsc. cbv zeta. fold l r. rewrite Hcal.
  rewrite Hsign, Hshift.
  replace (l - (a - b) * msPerDay - r) with (l0 - r0) by lia.
  replace (l - r) with (a * msPerDay + l0 - (b * msPerDay + r0)) by lia.
  symmetry. by apply quot_difference.
Qed.

(** The entry pushed for an item, field by field. *)
Lemma todayItem_Some tz state today item e :
  todayItem tz state today item = Some e →
  ti_originalItem e = item
  ∧ item_status item ≠ done
  ∧ (item_priority item = high ∨ item_priority item = medium)
  ∧ (item_expectedCompletionDate item < today
     ∨ differenceInDays tz (item_expectedCompletionDate item) today <= 7)
  ∧ ti_daysUntilDue e = differenceInDays tz (item_expectedCompletionDate item) today
  ∧ ti_isOverdue e = (item_expectedCompletionDate item <? today)
  ∧ ti_urgencyScore e
    = priorityScore (item_priority item) * 10 + statusScore (item_status item) * 5
      - ti_daysUntilDue e + (if ti_isOverdue e then 10 else 0).
Proof.
  unfold todayItem, isPast.
  destruct (Status_eqb (item_status item) done) eqn:Hst; [done|]. simpl.
  destruct (Priority_eqb (item_priority item) high
            || Priority_eqb (item_priority item) medium) eqn:Hpr; [|done]. simpl.
  rewrite andb_true_r.
  destruct ((item_expectedCompletionDate item <? today)
            || (differenceInDays tz (item_expectedCompletionDate item) today <=? 7))
    eqn:Hdue; [|done].
  destruct (todayItem_ancestors state item) as [[[parentId grandparentId] taskName] sub].
  intros H. inversion H; subst; clear H. simpl.
  split_and!; try done.
  - intros Hd. apply Status_eqb_eq in Hd. congruence.
  - apply orb_true_iff in Hpr as [Hp|Hp]; apply Priority_eqb_eq in Hp; auto.
  - apply orb_true_iff in Hdue as [Hd|Hd]; [left|right]; lia.
  - destruct (item_expectedCompletionDate item <? today); lia.
Qed.

Lemma todayItem_included tz state today item :
  item_status item ≠ done →
  item_priority item = high ∨ item_priority item = medium →
  item_expectedCompletionDate item < today
  ∨ differenceInDays tz (item_expectedCompletionDate item) today <= 7 →
  is_Some (todayItem tz state today item).
Proof.
  intros Hst Hpr Hdue. unfold todayItem, isPast.
  destruct (Status_eqb (item_status item) done) eqn:E1;
    [by apply Status_eqb_eq in E1|]. simpl.
  assert (Priority_eqb (item_priority item) high
          || Priority_eqb (item_priority item) medium = true) as ->.
  { apply orb_true_iff. destruct Hpr as [Hp|Hp]; [left|right]; by apply Priority_eqb_eq. }
  simpl. rewrite andb_true_r.
  assert ((item_expectedCompletionDate item <? today)
          || (differenceInDays tz (item_expectedCompletionDate item) today <=? 7) = true)
    as ->.
  { apply orb_true_iff. destruct Hdue; [left|right]; lia. }
  destruct (todayItem_ancestors state item) as [[[parentId grandparentId] taskName] sub].
  by eexists.
Qed.

(** C6.  An item of the tree is in the Today list exactly when it is not
    done, its priority is high or medium, and it is overdue or due within
    seven days, the days counted as [differenceInDays] counts them in the
    time zone of the host. *)
Theorem getTodayItems_includes_iff (tz : TimeZone) (state : TaskStore) (today : Date)
    (item : Item) :
  item ∈ getAllItems state →
  (∃ e, e ∈ getTodayItems tz state today ∧ ti_originalItem e = item)
  ↔ item_status item ≠ done
    ∧ (item_priority item = high ∨ item_priority item = medium)
    ∧ (item_expectedCompletionDate item < today
       ∨ differenceInDays tz (item_expectedCompletionDate item) today <= 7).
Proof.
  intros Hin. split.
  - intros (e & He & Horig). apply elem_of_getTodayItems in He as (item' & _ & Hsome).
    apply todayItem_Some in Hsome as (Ho & Hst & Hpr & Hdue & _).
    assert (item' = item) as <- by congruence. split_and!; assumption.
  - intros (Hst & Hpr & Hdue).
    destruct (todayItem_included tz state today item Hst Hpr Hdue) as [e He].
    exists e. split.
    + apply elem_of_getTodayItems. eauto.
    + by apply todayItem_Some in He as (Ho & _).
Qed.

(** C7, as the code has it.  The urgency score of an entry of the Today
    list is priority weight * 10 + status weight * 5 - daysUntilDue, plus 10
    when overdue, with the weights high 3, medium 2, low 1 and inprogress 4,
    started 3, todo 2, done 0.  An entry is overdue when its expected
    completion date is before now.  [daysUntilDue] is what [differenceInDays]
    counts from now to the expected completion date in the time zone of the
    host: when the wall-clock readings it goes through exist, the whole days
    between the wall-clock readings of the two dates, a fraction of a day
    dropped toward zero. *)
Theorem getTodayItems_urgencyScore (tz : TimeZone) (state : TaskStore) (today : Date)
    (e : TodayItem) :
  e ∈ getTodayItems tz state today →
  let item := ti_originalItem e in
  let expected := item_expectedCompletionDate item in
  let priorityWeight := match item_priority item with high => 3 | medium => 2 | low => 1 end in
  let statusWeight :=
    match item_status item with inprogress => 4 | started => 3 | todo => 2 | done => 0 end in
  item ∈ getAllItems state
  ∧ ti_urgencyScore e
    = priorityWeight * 10 + statusWeight * 5 - ti_daysUntilDue e
      + (if ti_isOverdue e then 10 else 0)
  ∧ ti_daysUntilDue e = differenceInDays tz expected today
  ∧ (readingsExist tz expected today →
     ti_daysUntilDue e = Z.quot (localTime tz expected - localTime tz today) msPerDay)
  ∧ (ti_isOverdue e = true ↔ expected < today).
Proof.
  intros He. apply elem_of_getTodayItems in He as (item & Hin & Hsome).
  apply todayItem_Some in Hsome as (Ho & _ & _ & _ & Hdays & Hover & Hscore).
  rewrite Ho. cbv zeta. split_and!; try done.
  - intros Hreadings. rewrite Hdays. by apply differenceInDays_readings.
  - rewrite Hover. lia.
Qed.
(** ** Order values *)

(** *** Sibling sets *)

Lemma dense_nil {A} (order : A → Z) : dense order [].
Proof. unfold dense. simpl. done. Qed.

Lemma dense_snoc {A} (order : A → Z) (l : list A) x :
  dense order l → order x = Z.of_nat (length l) → dense order (l ++ [x]).
Proof.
  unfold dense. intros Hl Hx.
  rewrite map_app, last_length, seq_S, map_app. simpl. rewrite Hx.
  by apply Permutation_app.
Qed.

Lemma dense_Permutation {A} (order : A → Z) (l l' : list A) :
  l ≡ₚ l' → dense order l → dense order l'.
Proof.
  unfold dense. intros Hp Hl.
  rewrite <- (Permutation_length Hp). rewrite <- Hl. by apply Permutation_map.
Qed.

Lemma dense_alter {A} (order : A → Z) (f : A → A) (l : list A) i :
  (∀ x, l !! i = Some x → order (f x) = order x) →
  dense order l → dense order (alter f i l).
Proof.
  unfold dense. intros Hf Hl. rewrite length_alter.
  replace (map order (alter f i l)) with (map order l); [done|].
  clear Hl. revert i Hf. induction l as [|x l IH]; intros [|i] Hf; simpl; try done.
  - by rewrite (Hf x).
  - f_equal. apply IH. intros y Hy. by apply Hf.
Qed.

Section Renumber.
Context {A : Type} (order : A → Z) (set_order : Z → A → A).
Hypothesis order_set : ∀ v c, order (set_order v c) = v.

Lemma renumber_from k (l : list A) :
  map order (imap (λ index c, set_order (Z.of_nat (k + index)) c) l)
  = map Z.of_nat (seq k (length l)).
Proof.
  revert k. induction l as [|x l IH]; intros k; simpl; [done|].
  rewrite order_set, Nat.add_0_r. f_equal.
  rewrite <- IH. f_equal. apply imap_ext. intros i y _. simpl.
  by replace (k + S i)%nat with (S k + i)%nat by lia.
Qed.

Lemma renumber_length (l : list A) : length (renumber set_order l) = length l.
Proof. apply length_imap. Qed.

Lemma renumber_orders (l : list A) :
  map order (renumber set_order l) = map Z.of_nat (seq 0 (length l)).
Proof. apply (renumber_from 0). Qed.

Lemma dense_renumber (l : list A) : dense order (renumber set_order l).
Proof. unfold dense. by rewrite renumber_length, renumber_orders. Qed.

Lemma Forall_renumber (P : A → Prop) (l : list A) :
  (∀ v c, P c → P (set_order v c)) → Forall P l → Forall P (renumber set_order l).
Proof.
  intros HP Hl. apply Forall_lookup. intros i x Hx.
  unfold renumber in Hx. rewrite list_lookup_imap in Hx.
  destruct (l !! i) as [y|] eqn:Hy; simpl in Hx; [|done].
  inversion Hx; subst. apply HP. by eapply (proj1 (Forall_lookup _ _) Hl).
Qed.
End Renumber.

Lemma filter_same_length {A} (p : A → bool) (l : list A) :
  (length (List.filter p l) <? length l)%nat = false → List.filter p l = l.
Proof.
  induction l as [|x l IH]; simpl; [done|].
  pose proof (filter_length_le p l) as Hle.
  destruct (p x); simpl; intros H.
  - f_equal. apply IH. apply Nat.ltb_ge. apply Nat.ltb_ge in H. lia.
  - apply Nat.ltb_ge in H. lia.
Qed.

Lemma Forall_List_filter {A} (P : A → Prop) (p : A → bool) (l : list A) :
  Forall P l → Forall P (List.filter p l).
Proof.
  intros H. apply Forall_forall. intros x Hx.
  apply list_elem_of_In, filter_In in Hx as [Hx _].
  rewrite Forall_forall in H. by apply H, list_elem_of_In.
Qed.

(** *** The order map of a reorder *)

Lemma newOrderMap_from_notin k ids m id :
  id ∉ ids → newOrderMap_from k ids m !! id = m !! id.
Proof.
  revert k m. induction ids as [|x ids IH]; intros k m Hnotin; simpl; [done|].
  apply not_elem_of_cons in Hnotin as [Hne Hnotin].
  rewrite IH by done. by apply lookup_insert_ne.
Qed.

Lemma newOrderMap_from_NoDup k ids m :
  NoDup ids →
  map (λ id, default 0%nat (newOrderMap_from k ids m !! id)) ids = seq k (length ids).
Proof.
  revert k m. induction ids as [|x ids IH]; intros k m Hnd; simpl; [done|].
  apply NoDup_cons in Hnd as [Hnotin Hnd].
  rewrite newOrderMap_from_notin by done. rewrite lookup_insert_eq. simpl.
  f_equal. by apply IH.
Qed.

Lemma newOrderMap_from_elem k ids m id :
  id ∈ ids → is_Some (newOrderMap_from k ids m !! id).
Proof.
  revert k m. induction ids as [|x ids IH]; intros k m Hin; simpl.
  - by apply elem_of_nil in Hin.
  - destruct (decide (id ∈ ids)) as [Hin'|Hnotin]; [by apply IH|].
    apply elem_of_cons in Hin as [->|Hin]; [|done].
    rewrite newOrderMap_from_notin by done. rewrite lookup_insert_eq. by eexists.
Qed.

Section Reorder.
Context {A : Type} (id : A → string) (order : A → Z) (set_order : Z → A → A).
Hypothesis order_set : ∀ v c, order (set_order v c) = v.

Lemma reorderChildren_Permutation ids (children : list A) :
  reorderChildren id order set_order ids children
  ≡ₚ map (λ c, match newOrderMap ids !! id c with
               | Some newOrder => set_order (Z.of_nat newOrder) c
               | None => c
               end) children.
Proof. unfold reorderChildren. apply sort_Permutation. Qed.

Lemma dense_reorderChildren ids (children : list A) :
  completeOrder id ids children →
  dense order (reorderChildren id order set_order ids children).
Proof.
  intros [Hnd Hperm].
  eapply dense_Permutation; [symmetry; apply reorderChildren_Permutation|].
  unfold dense. rewrite length_map, map_map.
  assert (Hmap : map (λ c, order match newOrderMap ids !! id c with
                                 | Some newOrder => set_order (Z.of_nat newOrder) c
                                 | None => c
                                 end) children
                 = map Z.of_nat
                     (map (λ s, default 0%nat (newOrderMap ids !! s)) (map id children))).
  { rewrite !map_map. apply map_ext_in. intros c Hc.
    assert (id c ∈ ids) as Hin.
    { rewrite Hperm. apply list_elem_of_In, in_map, Hc. }
    destruct (newOrderMap_from_elem 0 ids ∅ (id c) Hin) as [j Hj].
    unfold newOrderMap. rewrite Hj. simpl. apply order_set. }
  rewrite Hmap.
  apply Permutation_map.
  rewrite <- (length_map id children), <- (Permutation_length Hperm).
  rewrite <- (newOrderMap_from_NoDup 0 ids ∅ Hnd).
  apply Permutation_map. by symmetry.
Qed.

Lemma Forall_reorderChildren (P : A → Prop) ids (children : list A) :
  (∀ v c, P c → P (set_order v c)) →
  Forall P children → Forall P (reorderChildren id order set_order ids children).
Proof.
  intros HP Hall. rewrite reorderChildren_Permutation.
  apply Forall_map. eapply Forall_impl; [done|].
  intros c Hc. simpl. destruct (newOrderMap ids !! id c); [by apply HP|done].
Qed.
End Reorder.

(** *** Mutation and dense orders *)

Lemma dense_store_modifyList li f state :
  dense_store state →
  (∀ x, s_taskLists state !! li = Some x → l_dense x → l_dense (f x)) →
  dense_store (modifyList li f state).
Proof. intros H Hf. unfold dense_store, modifyList. simpl. by apply Forall_alter. Qed.

Lemma dense_store_modifyTask li ti f state :
  dense_store state →
  (∀ t, taskAt state li ti = Some t → t_dense t →
        t_dense (f t) ∧ t_order (f t) = t_order t) →
  dense_store (modifyTask li ti f state).
Proof.
  intros H Hf. apply dense_store_modifyList; [done|]. intros lst Hlst [Hd Hall].
  assert (Hat : ∀ t, l_tasks lst !! ti = Some t → taskAt state li ti = Some t)
    by (intros t Ht; unfold taskAt; by rewrite Hlst).
  split; simpl.
  - apply dense_alter; [|done]. intros t Ht.
    apply Hf; [by apply Hat|]. by eapply (proj1 (Forall_lookup _ _) Hall).
  - apply Forall_alter; [done|]. intros t Ht Htd. by apply Hf; [apply Hat|].
Qed.

Lemma dense_store_modifySubtask li ti si f state :
  dense_store state →
  (∀ st, subtaskAt state li ti si = Some st → st_dense st →
         st_dense (f st) ∧ st_order (f st) = st_order st) →
  dense_store (modifySubtask li ti si f state).
Proof.
  intros H Hf. apply dense_store_modifyTask; [done|]. intros t Ht [Hd Hall].
  assert (Hat : ∀ st, t_subtasks t !! si = Some st → subtaskAt state li ti si = Some st)
    by (intros st Hst; unfold subtaskAt; by rewrite Ht).
  split; [|done]. split; simpl.
  - apply dense_alter; [|done]. intros st Hst.
    apply Hf; [by apply Hat|]. by eapply (proj1 (Forall_lookup _ _) Hall).
  - apply Forall_alter; [done|]. intros st Hst Hsd. by apply Hf; [apply Hat|].
Qed.

Lemma dense_store_modifyActivity li ti si ai f state :
  dense_store state →
  (∀ a, a_order (f a) = a_order a) →
  dense_store (modifyActivity li ti si ai f state).
Proof.
  intros H Hf. apply dense_store_modifySubtask; [done|]. intros st Hst Hd.
  split; [|done]. unfold st_dense. simpl. by apply dense_alter.
Qed.

Lemma dense_store_setLastEditedDate r now state :
  dense_store state → dense_store (setLastEditedDate r now state).
Proof.
  intros H. destruct r; simpl.
  - by apply dense_store_modifyList.
  - by apply dense_store_modifyTask.
  - by apply dense_store_modifySubtask.
  - by apply dense_store_modifyActivity.
Qed.

(** *** add *)

Lemma addTask_dense listId name priority creationDate expectedCompletionDate now newId
    state :
  dense_store state →
  dense_store
    (addTask listId name priority creationDate expectedCompletionDate now newId state).1.
Proof.
  intros H. unfold addTask.
  destruct (findIndex _ (s_taskLists state)) as [li|]; [|done].
  destruct (s_taskLists state !! li) as [lst|] eqn:Hlst; [|done]. simpl.
  apply dense_store_modifyList; [done|]. intros x Hx [Hd Hall].
  assert (x = lst) by congruence. subst x. split; simpl.
  - by apply dense_snoc.
  - apply Forall_app. split; [done|]. apply Forall_singleton.
    split; simpl; [apply dense_nil|done].
Qed.

Lemma addSubtask_dense taskId name priority now newId state :
  dense_store state → dense_store (addSubtask taskId name priority now newId state).1.
Proof.
  intros H. unfold addSubtask.
  destruct (findItemInDraft state taskId) as [[|li ti parentTask p| |]|] eqn:Hfind;
    try done. simpl.
  apply found_task_at in Hfind.
  apply dense_store_modifyTask; [done|]. intros t Ht [Hd Hall].
  assert (t = parentTask) by congruence. subst t.
  split; [|done]. split; simpl.
  - by apply dense_snoc.
  - apply Forall_app. split; [done|]. apply Forall_singleton. apply dense_nil.
Qed.

Lemma addActivity_dense subtaskId name priority now newId state :
  dense_store state → dense_store (addActivity subtaskId name priority now newId state).1.
Proof.
  intros H. unfold addActivity.
  destruct (findItemInDraft state subtaskId) as [[| |li ti si parentSubtask p|]|] eqn:Hfind;
    try done. simpl.
  apply found_subtask_at in Hfind as [_ Hfind].
  apply dense_store_modifyTask; [|done].
  apply dense_store_modifySubtask; [done|]. intros st Hst Hd.
  assert (st = parentSubtask) by congruence. subst st.
  split; [|done]. unfold st_dense. simpl. by apply dense_snoc.
Qed.

(** *** delete *)

Lemma deleteTask_dense taskId state :
  dense_store state → dense_store (deleteTask taskId state).
Proof.
  unfold dense_store, deleteTask. simpl.
  induction (s_taskLists state) as [|lst lists IH]; intros H; simpl; [done|].
  apply Forall_cons in H as [[Hd Hall] Hrest].
  destruct (_ <? _)%nat eqn:Hremoved.
  - apply Forall_cons. split; [|done]. split; simpl.
    + by apply dense_renumber.
    + apply Forall_renumber; [done|]. by apply Forall_List_filter.
  - apply Forall_cons. split; [|by apply IH].
    rewrite filter_same_length by done. by split.
Qed.

Lemma deleteSubtask_dense subtaskId now state :
  dense_store state → dense_store (deleteSubtask subtaskId now state).
Proof.
  intros H. unfold deleteSubtask.
  destruct (findItemInDraft state subtaskId) as [[| |li ti si st parentTask|]|] eqn:Hfind;
    try done.
  apply found_subtask_at in Hfind as [Hp _].
  destruct (_ <? _)%nat eqn:Hremoved.
  - apply dense_store_modifyTask; [done|]. intros t Ht [Hd Hall].
    assert (t = parentTask) by congruence. subst t.
    split; [|done]. split; simpl.
    + by apply dense_renumber.
    + apply Forall_renumber; [done|]. by apply Forall_List_filter.
  - rewrite filter_same_length by done.
    apply dense_store_modifyTask; [done|]. intros t Ht Htd.
    assert (t = parentTask) by congruence. subst t.
    rewrite set_t_subtasks_same. done.
Qed.

Lemma deleteActivity_dense activityId now state :
  dense_store state → dense_store (deleteActivity activityId now state).
Proof.
  intros H. unfold deleteActivity.
  destruct (findItemInDraft state activityId) as [[| | |li ti si ai a parentSubtask]|]
    eqn:Hfind; try done.
  destruct (findItemInDraft state (st_parentId parentSubtask)) as [r|]; [|done].
  destruct (_ <? _)%nat eqn:Hremoved.
  - apply dense_store_modifySubtask; [by apply dense_store_setLastEditedDate|].
    intros st Hst Hd. split; [|done]. unfold st_dense. simpl. by apply dense_renumber.
  - apply found_activity_at in Hfind as [Hp _].
    apply dense_store_modifySubtask; [done|]. intros st Hst Hd.
    assert (st = parentSubtask) by congruence. subst st.
    rewrite filter_same_length by done. by rewrite set_st_activities_same.
Qed.

(** *** reorder *)

Lemma reorderTasks_dense listId taskIds state :
  reorder_complete (OpReorderTasks listId taskIds) state →
  dense_store state → dense_store (reorderTasks listId taskIds state).
Proof.
  intros Hcomplete H. unfold reorderTasks.
  destruct (findIndex _ (s_taskLists state)) as [li|] eqn:Hfind; [|done].
  apply dense_store_modifyList; [done|]. intros lst Hlst [Hd Hall].
  specialize (Hcomplete li lst Hfind Hlst).
  split; simpl.
  - by apply dense_reorderChildren.
  - by apply Forall_reorderChildren.
Qed.

Lemma reorderSubtasks_dense taskId subtaskIds now state :
  reorder_complete (OpReorderSubtasks taskId subtaskIds) state →
  dense_store state → dense_store (reorderSubtasks taskId subtaskIds now state).
Proof.
  intros Hcomplete H. unfold reorderSubtasks.
  destruct (findItemInDraft state taskId) as [[|li ti parentTask p| |]|] eqn:Hfind;
    try done.
  destruct (negb _); [|done].
  specialize (Hcomplete li ti parentTask p Hfind).
  apply found_task_at in Hfind.
  apply dense_store_modifyTask; [done|]. intros t Ht [Hd Hall].
  assert (t = parentTask) by congruence. subst t.
  split; [|done]. split; simpl.
  - by apply dense_reorderChildren.
  - by apply Forall_reorderChildren.
Qed.

Lemma reorderActivities_dense subtaskId activityIds now state :
  reorder_complete (OpReorderActivities subtaskId activityIds) state →
  dense_store state → dense_store (reorderActivities subtaskId activityIds now state).
Proof.
  intros Hcomplete H. unfold reorderActivities.
  destruct (findItemInDraft state subtaskId) as [[| |li ti si parentSubtask p|]|] eqn:Hfind;
    try done.
  destruct (negb _); [|done].
  specialize (Hcomplete li ti si parentSubtask p Hfind).
  apply found_subtask_at in Hfind as [_ Hfind].
  apply dense_store_modifyTask; [|done].
  apply dense_store_modifySubtask; [done|]. intros st Hst Hd.
  assert (st = parentSubtask) by congruence. subst st.
  split; [|done]. unfold st_dense. simpl. by apply dense_reorderChildren.
Qed.

(** C5, as the code has it.  In a store whose sibling sets all have order
    values that are a permutation of [0 .. n-1], every add, every delete, and
    every reorder whose id list names each child of the container exactly
    once, lead to such a store. *)
Theorem orders_stay_dense (op : OrderOp) (now : Date) (state : TaskStore) :
  dense_store state →
  reorder_complete op state →
  dense_store (runOrderOp op now state).
Proof.
  intros H Hcomplete. destruct op; simpl.
  - by apply addTask_dense.
  - by apply addSubtask_dense.
  - by apply addActivity_dense.
  - by apply deleteTask_dense.
  - by apply deleteSubtask_dense.
  - by apply deleteActivity_dense.
  - by apply reorderTasks_dense.
  - by apply reorderSubtasks_dense.
  - by apply reorderActivities_dense.
Qed.

(** ** The claims on the example stores *)

(** Evaluates a lookup on a concrete store and names what it found. *)
Local Ltac found_value H :=
  let Hc := fresh "Hc" in
  pose proof H as Hc; vm_compute in Hc;
  first [discriminate Hc | inversion Hc; subst; clear Hc].

Local Ltac not_in_list :=
  let Hin := fresh "Hin" in
  intros Hin;
  repeat (apply elem_of_cons in Hin as [Hin|Hin]; [discriminate Hin|]);
  by apply elem_of_nil in Hin.


(** C2 as the specification words it fails: the Task of [store_late_subtask]
    runs from day 0 to day 7 and its Subtask from day 5 to day 7; moving the
    Task's expected completion to day 3 leaves the Subtask from day 5 to
    day 5, which ends after the Task. *)
Lemma update_cascade_subtask_ends_after_task :
  ∃ t' st',
    taskAt
      (updateTask "task-1" [UexpectedCompletionDate (3 * msPerDay)] 1 store_late_subtask).1
      0 0 = Some t'
    ∧ t_expectedCompletionDate t' ≠ 7 * msPerDay
    ∧ st' ∈ t_subtasks t'
    ∧ ¬ st_expectedCompletionDate st' <= t_expectedCompletionDate t'.
Proof.
  eexists. eexists. split; [vm_compute; reflexivity|].
  split; [vm_compute; discriminate|].
  split; [apply list_elem_of_here|].
  vm_compute. intros H. apply H. reflexivity.
Qed.

Lemma update_cascade_clamps_children_witness :
  ∃ t',
    taskAt
      (updateTask "task-1" [UexpectedCompletionDate (3 * msPerDay)] 1 store_late_subtask).1
      0 0 = Some t'
    ∧ Forall (λ st, st_clamped t' st ∧ Forall (a_clamped st) (st_activities st))
        (t_subtasks t').
Proof.
  destruct (findItemInDraft store_late_subtask "task-1") as [[|li ti t p| |]|] eqn:Hfind;
    found_value Hfind.
  eexists. split; [vm_compute; reflexivity|].
  eapply (proj1 update_cascade_clamps_children store_late_subtask "task-1"
            [UexpectedCompletionDate (3 * msPerDay)] 1 _ _ _ _ _ Hfind).
  - vm_compute. reflexivity.
  - right. vm_compute. discriminate.
Defined.

Lemma canStartItem_serial_gate_witness :
  siblingIds_unique store_gate ∧ canStartItem store_gate "activity-2" = false.
Proof.
  assert (H : siblingIds_unique store_gate).
  { unfold siblingIds_unique, t_siblingIds_unique, st_siblingIds_unique.
    vm_compute. repeat constructor; not_in_list. }
  split; [exact H|].
  pose proof (canStartItem_serial_gate store_gate "activity-2" H) as Hgate.
  destruct (findItem store_gate "activity-2") as [[| | |li ti si ai item parent]|] eqn:Hfind;
    found_value Hfind.
  cbn [st_serialCompletionMandatory st_activities a_order a_status] in Hgate.
  destruct (canStartItem store_gate "activity-2"); [|reflexivity].
  pose proof (proj1 Hgate eq_refl _ (list_elem_of_here _ _)) as Hdone.
  cbn [a_order a_status] in Hdone. discriminate (Hdone eq_refl).
Defined.

Lemma reorder_locked_no_change_witness :
  reorderSubtasks "task-1" ["subtask-2"; "subtask-1"] 5 store_locked = store_locked.
Proof.
  destruct (findItemInDraft store_locked "task-1") as [[|li ti t p| |]|] eqn:Hfind;
    found_value Hfind.
  apply (proj1 (reorder_locked_no_change store_locked "task-1" _ 5) _ _ _ _ Hfind).
  reflexivity.
Defined.

(** C5 as the specification words it fails: the two Tasks of
    [store_two_tasks] have orders 0 and 1; a reorder that names only the
    second gives both order 0. *)
Lemma reorder_partial_list_duplicates_order :
  dense_store store_two_tasks
  ∧ ¬ dense_store (runOrderOp (OpReorderTasks "default-list" ["task-2"]) 0 store_two_tasks).
Proof.
  split.
  - vm_compute. repeat constructor.
  - intros H. apply Forall_cons in H as [[Hd _] _].
    unfold dense in Hd. vm_compute in Hd.
    apply Permutation_sym in Hd. apply (Permutation_in 1) in Hd.
    + simpl in Hd. intuition discriminate.
    + simpl. auto.
Qed.

Lemma orders_stay_dense_witness :
  dense_store
    (runOrderOp (OpReorderTasks "default-list" ["task-2"; "task-1"]) 0 store_two_tasks).
Proof.
  apply orders_stay_dense.
  - vm_compute. repeat constructor.
  - intros li lst Hfind Hlst. vm_compute in Hfind. inversion Hfind; subst.
    vm_compute in Hlst. inversion Hlst; subst. split.
    + repeat constructor; not_in_list.
    + simpl. apply perm_swap.
Defined.

Lemma getTodayItems_includes_iff_witness :
  ∃ item,
    item ∈ getAllItems store_november
    ∧ ∃ e, e ∈ getTodayItems newYork store_november late_october
           ∧ ti_originalItem e = item.
Proof.
  eexists. split; [apply list_elem_of_here|].
  eapply (proj2 (getTodayItems_includes_iff newYork store_november late_october _ _)).
  vm_compute. split_and!; [discriminate|by right|right; discriminate].
  Unshelve. apply list_elem_of_here.
Defined.

(** The days are those of the local calendar.  From 24 October 2026, 23:45
    in New York to 1 November, 23:30 there are 7 whole days on the clock of
    New York, which is set back an hour in between, and 8 whole days on a
    clock that is not: the Task is in the Today list of the first and not of
    the second. *)
Lemma getTodayItems_counts_local_days :
  differenceInDays newYork 1793593800000 late_october = 7
  ∧ differenceInDays utc 1793593800000 late_october = 8
  ∧ length (getTodayItems newYork store_november late_october) = 1%nat
  ∧ getTodayItems utc store_november late_october = [].
Proof. vm_compute. repeat split. Qed.

(** C7 as the specification words it fails: half a day after the expected
    completion date of the Task of [store_task], [daysUntilDue] is 0 and the
    score 40; rounding down gives -1 and 41. *)
Lemma urgencyScore_half_day_overdue :
  let today := 7 * msPerDay + msPerDay `div` 2 in
  ∃ e, e ∈ getTodayItems utc store_task today
       ∧ ti_daysUntilDue e = 0
       ∧ (item_expectedCompletionDate (ti_originalItem e) - today) `div` msPerDay = -1
       ∧ ti_urgencyScore e = 40
       ∧ ti_urgencyScore e
         ≠ priorityScore (ti_priority e) * 10 + statusScore (ti_status e) * 5
           - (item_expectedCompletionDate (ti_originalItem e) - today) `div` msPerDay
           + (if ti_isOverdue e then 10 else 0).
Proof.
  eexists. split; [vm_compute; apply list_elem_of_here|].
  vm_compute. split_and!; try reflexivity. discriminate.
Qed.

Lemma getTodayItems_urgencyScore_witness :
  ∃ e, e ∈ getTodayItems newYork store_november late_october
       ∧ readingsExist newYork (item_expectedCompletionDate (ti_originalItem e))
           late_october
       ∧ ti_daysUntilDue e = 7
       ∧ ti_urgencyScore e = 23.
Proof.
  assert (H : ∃ e, e ∈ getTodayItems newYork store_november late_october)
    by (eexists; vm_compute; apply list_elem_of_here).
  destruct H as [e He]. exists e. split; [exact He|].
  destruct (getTodayItems_urgencyScore newYork store_november late_october e He)
    as (_ & Hscore & _ & Hquot & _).
  vm_compute in He. apply list_elem_of_singleton in He. subst e.
  assert (Hreadings : readingsExist newYork 1793593800000 late_october)
    by (vm_compute; repeat split).
  split; [exact Hreadings|]. split.
  - rewrite (Hquot Hreadings). reflexivity.
  - rewrite Hscore. reflexivity.
Defined.

Lemma update_not_found_or_true_witness :
  runUpdate (OpUpdateSubtask "task-1" [Uname "Outline"]) 1 store_subtask
  = (store_subtask, ReturnString "Subtask with ID task-1 not found.").
Proof.
  apply (proj1 (update_not_found_or_true (OpUpdateSubtask "task-1" [Uname "Outline"]) 1
                  store_subtask)).
  intros (r & Hfind & Hkind). vm_compute in Hfind. inversion Hfind; subst. discriminate.
Defined.

Lemma updateTask_creation_pulled_back_witness :
  ∃ t', taskAt (updateTask "task-1" [UcreationDate (9 * msPerDay)] 1 store_task).1 0 0
        = Some t'
        ∧ t_creationDate t' = 7 * msPerDay
        ∧ t_expectedCompletionDate t' = 7 * msPerDay.
Proof.
  destruct (findItemInDraft store_task "task-1") as [[|li ti t p| |]|] eqn:Hfind;
    found_value Hfind.
  apply (updateTask_creation_pulled_back store_task "task-1" (9 * msPerDay) 1 _ _ _ _ Hfind).
  - vm_compute. discriminate.
  - vm_compute. reflexivity.
Defined.



(** ** More on the locator *)

Lemma findInActivities_None id li ti si st k acts :
  findInActivities id li ti si st k acts = None ↔ ¬ In id (map a_id acts).
Proof.
  revert k. induction acts as [|a acts IH]; intros k; simpl; [tauto|].
  destruct (String.eqb_spec (a_id a) id) as [Heq|Hne].
  - split; [done|]. intros H. exfalso. apply H. by left.
  - rewrite IH. tauto.
Qed.

Lemma findInSubtasks_None id li ti t k sts :
  findInSubtasks id li ti t k sts = None ↔ ¬ In id (flat_map st_allIds sts).
Proof.
  revert k. induction sts as [|st sts IH]; intros k; simpl; [tauto|].
  rewrite in_app_iff.
  destruct (String.eqb_spec (st_id st) id) as [Heq|Hne].
  - split; [done|]. intros H. exfalso. apply H. by left.
  - destruct (findInActivities id li ti k st 0 (st_activities st)) as [r|] eqn:Hact.
    + split; [done|]. intros H. exfalso.
      assert (findInActivities id li ti k st 0 (st_activities st) = None) as Hn
        by (apply findInActivities_None; tauto).
      congruence.
    + apply findInActivities_None in Hact. rewrite IH. tauto.
Qed.

Lemma findInTasks_None id li lst k ts :
  findInTasks id li lst k ts = None ↔ ¬ In id (flat_map t_allIds ts).
Proof.
  revert k. induction ts as [|t ts IH]; intros k; simpl; [tauto|].
  rewrite in_app_iff.
  destruct (String.eqb_spec (t_id t) id) as [Heq|Hne].
  - split; [done|]. intros H. exfalso. apply H. by left.
  - destruct (findInSubtasks id li k t 0 (t_subtasks t)) as [r|] eqn:Hsub.
    + split; [done|]. intros H. exfalso.
      assert (findInSubtasks id li k t 0 (t_subtasks t) = None) as Hn
        by (apply findInSubtasks_None; tauto).
      congruence.
    + apply findInSubtasks_None in Hsub. rewrite IH. tauto.
Qed.

Lemma findInLists_None id k lists :
  findInLists id k lists = None ↔ ¬ In id (flat_map l_allIds lists).
Proof.
  revert k. induction lists as [|lst lists IH]; intros k; simpl; [tauto|].
  rewrite in_app_iff.
  destruct (String.eqb_spec (l_id lst) id) as [Heq|Hne].
  - split; [done|]. intros H. exfalso. apply H. by left.
  - destruct (findInTasks id k lst 0 (l_tasks lst)) as [r|] eqn:Htasks.
    + split; [done|]. intros H. exfalso.
      assert (findInTasks id k lst 0 (l_tasks lst) = None) as Hn
        by (apply findInTasks_None; tauto).
      congruence.
    + apply findInTasks_None in Htasks. rewrite IH. tauto.
Qed.

(** X1.  What [findItemInDraft] returns is in the tree: the item has the id
    asked for and sits at the position returned, and the parent returned is
    the object that holds it. *)
Theorem findItemInDraft_result_in_tree (state : TaskStore) (id : string) (r : Found) :
  findItemInDraft state id = Some r → found_valid state id r.
Proof. apply findItemInDraft_valid. Qed.

(** X2.  [findItemInDraft] returns nothing exactly when no list, Task,
    Subtask or Activity of the store has the id. *)
Theorem findItemInDraft_None_iff (state : TaskStore) (id : string) :
  findItemInDraft state id = None ↔ id ∉ allIds state.
Proof.
  unfold findItemInDraft, allIds. rewrite findInLists_None.
  by rewrite list_elem_of_In.
Qed.

(** X3.  The read-only locator [findItem] ([findItemRecursive]) and the
    locator of the mutations [findItemInDraft] return the same result on
    every store and id. *)
Theorem findItem_agrees_with_findItemInDraft (state : TaskStore) (id : string) :
  findItem state id = findItemInDraft state id.
Proof. apply findItem_findItemInDraft. Qed.

(** [findParentListRecursive] looks for the first list that holds the id at
    any depth. *)
Lemma someActivity_In id st :
  someActivity id st = true ↔ In id (map a_id (st_activities st)).
Proof.
  unfold someActivity. rewrite existsb_exists, in_map_iff. split.
  - intros (a & Hin & Heq). apply String.eqb_eq in Heq. eauto.
  - intros (a & Heq & Hin). exists a. split; [done|]. by apply String.eqb_eq.
Qed.

Lemma findParentList_inTask_In id t :
  findParentList_inTask id t = true ↔ In id (flat_map st_allIds (t_subtasks t)).
Proof.
  unfold findParentList_inTask. rewrite orb_true_iff, !existsb_exists, in_flat_map.
  split.
  - intros [(st & Hin & Heq)|(st & Hin & Hact)].
    + exists st. split; [done|]. left. by apply String.eqb_eq.
    + exists st. split; [done|]. right. by apply someActivity_In.
  - intros (st & Hin & [Heq|Hact]).
    + left. exists st. split; [done|]. by apply String.eqb_eq.
    + right. exists st. split; [done|]. by apply someActivity_In.
Qed.

Lemma findParentList_inList_In id lst :
  findParentList_inList id lst = true ↔ In id (l_allIds lst).
Proof.
  unfold findParentList_inList, l_allIds. simpl.
  rewrite !orb_true_iff, !existsb_exists, in_flat_map, String.eqb_eq. split.
  - intros [[Heq|(t & Hin & Heq)]|(t & Hin & Hsub)].
    + by left.
    + right. exists t. split; [done|]. left. by apply String.eqb_eq.
    + right. exists t. split; [done|]. right. by apply findParentList_inTask_In.
  - intros [Heq|(t & Hin & [Heq|Hsub])].
    + left. by left.
    + left. right. exists t. split; [done|]. by apply String.eqb_eq.
    + right. exists t. split; [done|]. by apply findParentList_inTask_In.
Qed.

Lemma findInTasks_listIndex id li lst k ts r :
  findInTasks id li lst k ts = Some r → found_listIndex r = li.
Proof.
  intros H. apply findInTasks_Some in H as [(j & t' & -> & _)
    |[(j & t' & si & st & -> & _)|(j & t' & si & st & ai & a & -> & _)]]; done.
Qed.

Lemma findParentList_findInLists id k lists (pre : list TaskList) :
  length pre = k →
  findParentListRecursive id lists
  = r ← findInLists id k lists; (pre ++ lists)%list !! found_listIndex r.
Proof.
  revert k pre. induction lists as [|lst lists IH]; intros k pre Hk; simpl; [done|].
  assert (Hhere : (pre ++ lst :: lists)%list !! k = Some lst).
  { rewrite lookup_app_r by lia. by replace (k - length pre)%nat with 0%nat by lia. }
  destruct (String.eqb_spec (l_id lst) id) as [Heq|Hne].
  - assert (findParentList_inList id lst = true) as ->.
    { apply findParentList_inList_In. by left. }
    simpl. by rewrite Hhere.
  - destruct (findInTasks id k lst 0 (l_tasks lst)) as [r|] eqn:Htasks.
    + assert (findParentList_inList id lst = true) as ->.
      { apply findParentList_inList_In. right.
        destruct (in_dec string_dec id (flat_map t_allIds (l_tasks lst))) as [|Hn];
          [done|].
        apply (findInTasks_None id k lst 0) in Hn. congruence. }
      simpl. by rewrite (findInTasks_listIndex _ _ _ _ _ _ Htasks), Hhere.
    + assert (findParentList_inList id lst = false) as ->.
      { apply not_true_is_false. intros Hin.
        apply findParentList_inList_In in Hin as [Heq|Hin]; [done|].
        by apply (findInTasks_None id k lst 0) in Htasks. }
      rewrite (IH (S k) (pre ++ [lst])%list).
      * by rewrite <- app_assoc.
      * rewrite length_app. simpl. lia.
Qed.

(** X4.  [findParentList] returns the list that holds what the locator
    finds: the list at the list position of the result of [findItem], and
    nothing when [findItem] finds nothing. *)
Theorem findParentList_is_list_of_found (state : TaskStore) (id : string) :
  findParentList state id
  = r ← findItem state id; s_taskLists state !! found_listIndex r.
Proof.
  rewrite findItem_findItemInDraft. unfold findParentList, findItemInDraft.
  by rewrite (findParentList_findInLists id 0 (s_taskLists state) []).
Qed.

Lemma getAllItems_holds_task state li ti t :
  taskAt state li ti = Some t → ∀ item, In item (getAllItems_task t) → item ∈ getAllItems state.
Proof.
  unfold taskAt. intros Ht item Hin.
  destruct (s_taskLists state !! li) as [lst|] eqn:Hl; simpl in Ht; [|done].
  apply list_elem_of_In. unfold getAllItems, getAllItemsRecursive.
  apply in_flat_map. exists lst. split; [by eapply list_elem_of_In, list_elem_of_lookup_2|].
  apply in_flat_map. exists t. split; [by eapply list_elem_of_In, list_elem_of_lookup_2|done].
Qed.

(** X5.  A Task, Subtask or Activity the locator finds is one of the items
    [getAllItems] lists. *)
Theorem found_item_in_getAllItems (state : TaskStore) (id : string) (r : Found)
    (item : Item) :
  findItem state id = Some r → found_item r = Some item → item ∈ getAllItems state.
Proof.
  rewrite findItem_findItemInDraft. intros Hfind Hitem.
  apply findItemInDraft_valid in Hfind.
  destruct r as [li lst|li ti t p|li ti si st p|li ti si ai a p]; simpl in *;
    inversion Hitem; subst; clear Hitem.
  - destruct Hfind as (Hl & Ht & _).
    apply (getAllItems_holds_task state li ti t); [unfold taskAt; by rewrite Hl|]. by left.
  - destruct Hfind as (Hp & Hst & _).
    apply (getAllItems_holds_task state li ti p Hp). right.
    apply in_flat_map. exists st.
    split; [by eapply list_elem_of_In, list_elem_of_lookup_2|by left].
  - destruct Hfind as (Hp & Ha & _). unfold subtaskAt in Hp.
    destruct (taskAt state li ti) as [t|] eqn:Ht; simpl in Hp; [|done].
    apply (getAllItems_holds_task state li ti t Ht). right.
    apply in_flat_map. exists p.
    split; [by eapply list_elem_of_In, list_elem_of_lookup_2|]. right.
    apply in_map. by eapply list_elem_of_In, list_elem_of_lookup_2.
Qed.

(** ** More on sorting and reordering *)

Section SortSorted.
Context {A : Type} (compare : A → A → Z) (key : A → Z).
Hypothesis compare_key : ∀ a b, 0 < compare a b ↔ key b < key a.

Lemma sortInsert_HdRel a x l :
  key a <= key x →
  HdRel (λ a b, key a <= key b) a l →
  HdRel (λ a b, key a <= key b) a (sortInsert compare x l).
Proof.
  intros Hax Hal. destruct l as [|y l]; simpl; [by constructor|].
  destruct (0 <? compare x y); constructor; [|done].
  by inversion Hal.
Qed.

Lemma sortInsert_Sorted x l :
  Sorted (λ a b, key a <= key b) l →
  Sorted (λ a b, key a <= key b) (sortInsert compare x l).
Proof.
  induction 1 as [|y l Hl IH Hhd]; simpl; [by repeat constructor|].
  destruct (0 <? compare x y) eqn:Hcmp.
  - constructor; [done|]. apply sortInsert_HdRel; [|done].
    apply Z.ltb_lt, compare_key in Hcmp. lia.
  - constructor; [by constructor|]. constructor.
    apply Z.ltb_ge in Hcmp.
    destruct (Z_lt_le_dec (key y) (key x)) as [Hlt|Hle]; [|done].
    apply compare_key in Hlt. lia.
Qed.

Lemma sort_Sorted l : Sorted (λ a b, key a <= key b) (sort compare l).
Proof.
  induction l as [|x l IH]; simpl; [constructor|]. by apply sortInsert_Sorted.
Qed.
End SortSorted.

Lemma Sorted_map_key {A} (key : A → Z) (l : list A) :
  Sorted (λ a b, key a <= key b) l → Sorted Z.le (map key l).
Proof.
  induction 1 as [|x l Hl IH Hhd]; simpl; constructor; [done|].
  destruct Hhd; simpl; by constructor.
Qed.

Lemma Sorted_seq k n : Sorted Z.le (map Z.of_nat (seq k n)).
Proof.
  revert k. induction n as [|n IH]; intros k; simpl; constructor; [apply IH|].
  destruct n; simpl; constructor. lia.
Qed.

Lemma lookup_seq_all {A} (l : list A) :
  map (λ i, l !! i) (seq 0 (length l)) = map Some l.
Proof.
  induction l as [|x l IH]; simpl; [done|]. f_equal.
  rewrite <- seq_shift, map_map. simpl. exact IH.
Qed.

Lemma map_Some_inj {A} (l1 l2 : list A) : map Some l1 = map Some l2 → l1 = l2.
Proof.
  revert l2. induction l1 as [|x l1 IH]; intros [|y l2] H; simpl in H; try done.
  inversion H; subst. f_equal. by apply IH.
Qed.

Lemma newOrderMap_from_Some k ids m s j :
  newOrderMap_from k ids m !! s = Some j →
  (∃ i, j = (k + i)%nat ∧ ids !! i = Some s) ∨ m !! s = Some j.
Proof.
  revert k m. induction ids as [|x ids IH]; intros k m H; simpl in H; [by right|].
  apply IH in H as [(i & -> & Hi)|H].
  - left. exists (S i). split; [lia|done].
  - destruct (decide (x = s)) as [->|Hne].
    + rewrite lookup_insert_eq in H. inversion H; subst.
      left. exists 0%nat. split; [lia|done].
    + rewrite lookup_insert_ne in H by done. by right.
Qed.

Lemma newOrderMap_Some ids s j : newOrderMap ids !! s = Some j → ids !! j = Some s.
Proof.
  intros H. apply newOrderMap_from_Some in H as [(i & -> & Hi)|H]; [done|].
  by rewrite lookup_empty in H.
Qed.

Section ReorderExact.
Context {A : Type} (id : A → string) (order : A → Z) (set_order : Z → A → A).
Hypothesis order_set : ∀ v c, order (set_order v c) = v.
Hypothesis id_set : ∀ v c, id (set_order v c) = id c.

(** With an id list that names every child once, the children end up in
    the order of the list, numbered from 0. *)
Lemma reorderChildren_listed_order ids (children : list A) :
  completeOrder id ids children →
  map id (reorderChildren id order set_order ids children) = ids
  ∧ map order (reorderChildren id order set_order ids children)
    = map Z.of_nat (seq 0 (length ids)).
Proof.
  intros Hcomplete.
  pose proof (dense_reorderChildren id order set_order order_set ids children Hcomplete)
    as Hdense.
  destruct Hcomplete as [Hnd Hperm].
  set (result := reorderChildren id order set_order ids children) in *.
  assert (Hlen : length result = length ids).
  { subst result. rewrite (Permutation_length (reorderChildren_Permutation _ _ _ _ _)).
    rewrite length_map. rewrite (Permutation_length Hperm). by rewrite length_map. }
  assert (Horders : map order result = map Z.of_nat (seq 0 (length ids))).
  { rewrite <- Hlen. apply (Sorted_unique Z.le); [| |exact Hdense].
    - apply Sorted_map_key. subst result. unfold reorderChildren.
      apply sort_Sorted. intros a b. lia.
    - apply Sorted_seq. }
  split; [|exact Horders].
  assert (Hall : Forall (λ c, ids !! Z.to_nat (order c) = Some (id c)) result).
  { subst result. rewrite reorderChildren_Permutation.
    apply Forall_map, Forall_forall. intros c Hc. simpl.
    assert (id c ∈ ids) as Hin.
    { rewrite Hperm. apply list_elem_of_In, in_map. by apply list_elem_of_In. }
    destruct (newOrderMap_from_elem 0 ids ∅ (id c) Hin) as [j Hj].
    fold (newOrderMap ids) in Hj. rewrite Hj.
    rewrite order_set, id_set, Nat2Z.id. by apply newOrderMap_Some. }
  apply map_Some_inj. rewrite <- (lookup_seq_all ids).
  assert (Hmap : map Some (map id result)
                 = map (λ z, ids !! Z.to_nat z) (map order result)).
  { rewrite !map_map. apply map_ext_in. intros c Hc.
    rewrite Forall_forall in Hall. symmetry. by apply Hall, list_elem_of_In. }
  rewrite Hmap, Horders, map_map. apply map_ext. intros i. by rewrite Nat2Z.id.
Qed.

Hypothesis set_set : ∀ v w c, set_order v (set_order w c) = set_order v c.

(** Whatever the id list, the children are the same objects up to their
    order value. *)
Lemma reorderChildren_same_children ids (children : list A) :
  map (set_order 0) (reorderChildren id order set_order ids children)
  ≡ₚ map (set_order 0) children.
Proof.
  rewrite reorderChildren_Permutation, map_map.
  apply Permutation_refl'. apply map_ext. intros c.
  destruct (newOrderMap ids !! id c); [apply set_set|done].
Qed.
End ReorderExact.

Lemma set_t_order_twice v w t : set_t_order v (set_t_order w t) = set_t_order v t.
Proof. done. Qed.

Lemma set_st_order_twice v w st : set_st_order v (set_st_order w st) = set_st_order v st.
Proof. done. Qed.

Lemma set_a_order_twice v w a : set_a_order v (set_a_order w a) = set_a_order v a.
Proof. done. Qed.

Lemma subtaskAt_modifyTask_touch li ti si now state :
  subtaskAt (modifyTask li ti (set_t_lastEditedDate now) state) li ti si
  = subtaskAt state li ti si.
Proof.
  rewrite subtaskAt_modifyTask. unfold subtaskAt.
  by destruct (taskAt state li ti).
Qed.

(** X6.  A reorder whose id list names every child of the container exactly
    once leaves the children in the order of the list, with order values
    0, 1, 2, ... in that order: for the Tasks of a list, and for the Subtasks
    of a Task and the Activities of a Subtask whose order is not locked. *)
Theorem reorder_gives_listed_order :
  (∀ state listId taskIds li lst,
     findIndex (λ l, String.eqb (l_id l) listId) (s_taskLists state) = Some li →
     s_taskLists state !! li = Some lst →
     completeOrder t_id taskIds (l_tasks lst) →
     ∃ lst', s_taskLists (reorderTasks listId taskIds state) !! li = Some lst'
             ∧ map t_id (l_tasks lst') = taskIds
             ∧ map t_order (l_tasks lst') = map Z.of_nat (seq 0 (length taskIds)))
  ∧ (∀ state taskId subtaskIds now li ti t p,
       findItemInDraft state taskId = Some (FoundTask li ti t p) →
       t_sequenceMandatory t = false →
       completeOrder st_id subtaskIds (t_subtasks t) →
       ∃ t', taskAt (reorderSubtasks taskId subtaskIds now state) li ti = Some t'
             ∧ map st_id (t_subtasks t') = subtaskIds
             ∧ map st_order (t_subtasks t') = map Z.of_nat (seq 0 (length subtaskIds)))
  ∧ (∀ state subtaskId activityIds now li ti si st p,
       findItemInDraft state subtaskId = Some (FoundSubtask li ti si st p) →
       st_sequenceMandatory st = false →
       completeOrder a_id activityIds (st_activities st) →
       ∃ st', subtaskAt (reorderActivities subtaskId activityIds now state) li ti si
              = Some st'
              ∧ map a_id (st_activities st') = activityIds
              ∧ map a_order (st_activities st')
                = map Z.of_nat (seq 0 (length activityIds))).
Proof.
  split_and!.
  - intros state listId taskIds li lst Hfind Hlst Hcomplete.
    unfold reorderTasks. rewrite Hfind. unfold modifyList. simpl.
    rewrite list_lookup_alter_eq, Hlst. simpl. eexists. split; [done|]. simpl.
    by apply reorderChildren_listed_order.
  - intros state taskId subtaskIds now li ti t p Hfind Hlock Hcomplete.
    unfold reorderSubtasks. rewrite Hfind, Hlock. simpl.
    rewrite taskAt_modifyTask, (found_task_at _ _ _ _ _ _ Hfind). simpl.
    eexists. split; [done|]. simpl. by apply reorderChildren_listed_order.
  - intros state subtaskId activityIds now li ti si st p Hfind Hlock Hcomplete.
    unfold reorderActivities. rewrite Hfind, Hlock. simpl.
    rewrite subtaskAt_modifyTask_touch, subtaskAt_modifySubtask.
    apply found_subtask_at in Hfind as [_ ->]. simpl.
    eexists. split; [done|]. simpl. by apply reorderChildren_listed_order.
Qed.

(** X7.  [reorderTasks] neither drops, adds nor alters a Task, whatever the
    id list (ids missing, repeated or unknown): the Tasks of the list after
    the call are those before it, up to their position and order value. *)
Theorem reorderTasks_keeps_the_tasks (state : TaskStore) (listId : string)
    (taskIds : list string) (li : nat) (lst : TaskList) :
  findIndex (λ l, String.eqb (l_id l) listId) (s_taskLists state) = Some li →
  s_taskLists state !! li = Some lst →
  ∃ lst', s_taskLists (reorderTasks listId taskIds state) !! li = Some lst'
          ∧ map (set_t_order 0) (l_tasks lst') ≡ₚ map (set_t_order 0) (l_tasks lst)
          ∧ l_id lst' = l_id lst ∧ l_name lst' = l_name lst.
Proof.
  intros Hfind Hlst. unfold reorderTasks. rewrite Hfind. unfold modifyList. simpl.
  rewrite list_lookup_alter_eq, Hlst. simpl. eexists. split; [done|]. simpl.
  split; [|done]. apply reorderChildren_same_children. apply set_t_order_twice.
Qed.

Lemma Sorted_weaken {A} (R R' : A → A → Prop) (l : list A) :
  (∀ a b, R a b → R' a b) → Sorted R l → Sorted R' l.
Proof.
  intros HR. induction 1 as [|x l Hl IH Hhd]; constructor; [done|].
  destruct Hhd; constructor. by apply HR.
Qed.

(** X8.  [getTodayItems] is sorted by urgency score, highest first. *)
Theorem getTodayItems_sorted (tz : TimeZone) (state : TaskStore) (today : Date) :
  Sorted (λ a b, ti_urgencyScore b <= ti_urgencyScore a) (getTodayItems tz state today).
Proof.
  unfold getTodayItems.
  eapply Sorted_weaken;
    [|apply (sort_Sorted (λ a b, ti_urgencyScore b - ti_urgencyScore a)
               (λ e, - ti_urgencyScore e))].
  - intros a b Hab. simpl in Hab. lia.
  - intros a b. lia.
Qed.

(** ** Invariants of add, delete and reorder *)














(** ** No child starts before its parent *)

Lemma starts_ok_modifyList li f state :
  starts_ok state →
  (∀ lst, s_taskLists state !! li = Some lst →
          Forall t_starts_ok (l_tasks lst) → Forall t_starts_ok (l_tasks (f lst))) →
  starts_ok (modifyList li f state).
Proof. intros H Hf. unfold starts_ok, modifyList. simpl. by apply Forall_alter. Qed.

Lemma starts_ok_modifyTask li ti f state :
  starts_ok state →
  (∀ t, taskAt state li ti = Some t → t_starts_ok t → t_starts_ok (f t)) →
  starts_ok (modifyTask li ti f state).
Proof.
  intros H Hf. apply starts_ok_modifyList; [done|]. intros lst Hlst Hok.
  simpl. apply Forall_alter; [done|].
  intros t Ht. apply Hf. unfold taskAt. by rewrite Hlst.
Qed.

Lemma starts_ok_modifySubtask li ti si f state :
  starts_ok state →
  (∀ t st, taskAt state li ti = Some t → t_subtasks t !! si = Some st →
           t_creationDate t <= st_creationDate st → st_starts_ok st →
           t_creationDate t <= st_creationDate (f st) ∧ st_starts_ok (f st)) →
  starts_ok (modifySubtask li ti si f state).
Proof.
  intros H Hf. apply starts_ok_modifyTask; [done|]. intros t Ht Hok.
  unfold t_starts_ok in *. simpl. apply Forall_alter; [done|].
  intros st Hst [Hc Ha]. by apply (Hf t st).
Qed.

Lemma starts_ok_modifyActivity li ti si ai f state :
  starts_ok state →
  (∀ st a, subtaskAt state li ti si = Some st → st_activities st !! ai = Some a →
           st_creationDate st <= a_creationDate a →
           st_creationDate st <= a_creationDate (f a)) →
  starts_ok (modifyActivity li ti si ai f state).
Proof.
  intros H Hf. apply starts_ok_modifySubtask; [done|]. intros t st Ht Hst Hc Ha.
  split; [done|]. unfold st_starts_ok in *. simpl. apply Forall_alter; [done|].
  intros a Hlook Hle. apply (Hf st a); [|done..].
  unfold subtaskAt. by rewrite Ht.
Qed.

Lemma starts_ok_setLastEditedDate r now state :
  starts_ok state → starts_ok (setLastEditedDate r now state).
Proof.
  intros H. destruct r; simpl.
  - by apply starts_ok_modifyList.
  - by apply starts_ok_modifyTask.
  - by apply starts_ok_modifySubtask.
  - by apply starts_ok_modifyActivity.
Qed.

(** *** The update operations *)

Lemma clamped_children_start_ok t :
  Forall (λ st, st_clamped t st ∧ Forall (a_clamped st) (st_activities st)) (t_subtasks t) →
  t_starts_ok t.
Proof.
  intros H. eapply Forall_impl; [exact H|]. intros st [(Hc & _) Ha].
  split; [done|]. eapply Forall_impl; [exact Ha|]. by intros a (Hs & _).
Qed.

Lemma updateTask_key_subtasks acc u :
  t_subtasks (updateTask_key acc u).1 = t_subtasks acc.1.
Proof. destruct acc as [t c]. destruct u; simpl; split_ifs; done. Qed.

Lemma updateTask_fold_subtasks updates acc :
  t_subtasks (fold_left updateTask_key updates acc).1 = t_subtasks acc.1.
Proof.
  revert acc. induction updates as [|u updates IH]; intros acc; cbn [fold_left]; [done|].
  by rewrite IH, updateTask_key_subtasks.
Qed.

Lemma updateTask_body_subtasks_nodate updates now t :
  updates_hasDate updates = false →
  t_subtasks (updateTask_body updates now t) = t_subtasks t.
Proof.
  intros H. unfold updateTask_body. rewrite H.
  set (start := match updates_description updates with
                | Some _ => _ | None => _ end).
  assert (Hstart : t_subtasks start.1 = t_subtasks t).
  { subst start. destruct (updates_description updates); [|done]. by destruct (negb _). }
  destruct start as [t0 c0].
  pose proof (updateTask_fold_subtasks updates (t0, c0)) as Hfold.
  destruct (fold_left updateTask_key updates (t0, c0)) as [t1 c1]. simpl in *.
  destruct c1; simpl; congruence.
Qed.

Lemma updateTask_body_starts_ok updates now t :
  t_starts_ok t → t_starts_ok (updateTask_body updates now t).
Proof.
  intros Hok. destruct (updates_hasDate updates) eqn:Hdate.
  - apply clamped_children_start_ok. by apply updateTask_body_cascade.
  - unfold t_starts_ok.
    rewrite (updateTask_body_subtasks_nodate _ _ _ Hdate).
    destruct (updateTask_body_nodate updates now t Hdate) as [-> _]. exact Hok.
Qed.

Lemma st_expectedNotBeforeCreation_creation st :
  st_creationDate (st_expectedNotBeforeCreation st) = st_creationDate st.
Proof. unfold st_expectedNotBeforeCreation. by destruct (_ <? _). Qed.

Lemma st_expectedNotBeforeCreation_activities st :
  st_activities (st_expectedNotBeforeCreation st) = st_activities st.
Proof. unfold st_expectedNotBeforeCreation. by destruct (_ <? _). Qed.

Lemma updateSubtask_key_creation_ge parent acc u :
  t_creationDate parent <= st_creationDate acc.1 →
  t_creationDate parent <= st_creationDate (updateSubtask_key parent acc u).1.
Proof.
  destruct acc as [st c]. simpl. intros H.
  destruct u; simpl; split_ifs; rewrite ?st_expectedNotBeforeCreation_creation;
    simpl; lia.
Qed.

Lemma updateSubtask_key_activities parent acc u :
  st_activities (updateSubtask_key parent acc u).1 = st_activities acc.1.
Proof.
  destruct acc as [st c]. destruct u; simpl; split_ifs;
    rewrite ?st_expectedNotBeforeCreation_activities; done.
Qed.

Lemma updateSubtask_key_creation_nodate parent acc u :
  match u with UcreationDate _ | UexpectedCompletionDate _ => False | _ => True end →
  st_creationDate (updateSubtask_key parent acc u).1 = st_creationDate acc.1.
Proof.
  destruct acc as [st c]. destruct u; simpl; try done; intros _; split_ifs;
    rewrite ?st_expectedNotBeforeCreation_creation; done.
Qed.

Lemma updateSubtask_fold_facts parent updates acc :
  st_activities (fold_left (updateSubtask_key parent) updates acc).1 = st_activities acc.1
  ∧ (t_creationDate parent <= st_creationDate acc.1 →
     t_creationDate parent
     <= st_creationDate (fold_left (updateSubtask_key parent) updates acc).1)
  ∧ (updates_hasDate updates = false →
     st_creationDate (fold_left (updateSubtask_key parent) updates acc).1
     = st_creationDate acc.1).
Proof.
  revert acc. induction updates as [|u updates IH]; intros acc; cbn [fold_left]; [done|].
  destruct (IH (updateSubtask_key parent acc u)) as (Ha & Hge & Hsame).
  split_and!.
  - by rewrite Ha, updateSubtask_key_activities.
  - intros H. by apply Hge, updateSubtask_key_creation_ge.
  - intros H. unfold updates_hasDate in H. simpl in H.
    apply orb_false_iff in H as [Hu Hrest].
    rewrite Hsame by done. apply updateSubtask_key_creation_nodate. by destruct u.
Qed.

Lemma updateSubtask_body_starts_ok updates now parent st :
  t_creationDate parent <= st_creationDate st →
  st_starts_ok st →
  t_creationDate parent <= st_creationDate (updateSubtask_body updates now parent st).1
  ∧ st_starts_ok (updateSubtask_body updates now parent st).1.
Proof.
  intros Hc Hok.
  assert (Hcascade := updateSubtask_body_cascade updates now parent st).
  unfold updateSubtask_body in *.
  set (start := match updates_description updates with
                | Some _ => _ | None => _ end) in *.
  assert (Hstart : st_creationDate start.1 = st_creationDate st
                   ∧ st_activities start.1 = st_activities st).
  { subst start. destruct (updates_description updates); [|done]. by destruct (negb _). }
  destruct start as [st0 c0]. simpl in Hstart. destruct Hstart as [Hc0 Ha0].
  destruct (updateSubtask_fold_facts parent updates (st0, c0)) as (Ha & Hge & Hsame).
  destruct (fold_left (updateSubtask_key parent) updates (st0, c0)) as [st1 c1].
  simpl in *.
  destruct (updates_hasDate updates) eqn:Hdate; simpl in *.
  - split; [destruct c1; simpl; lia|].
    eapply Forall_impl; [by apply Hcascade|]. by intros a (Hs & _).
  - rewrite Hsame in * by done.
    split; [destruct c1; simpl; lia|].
    unfold st_starts_ok in *. destruct c1; simpl; rewrite Ha, Ha0, Hsame, Hc0; done.
Qed.

Lemma a_expectedNotBeforeCreation_creation a :
  a_creationDate (a_expectedNotBeforeCreation a) = a_creationDate a.
Proof. unfold a_expectedNotBeforeCreation. by destruct (_ <? _). Qed.

Lemma updateActivity_key_creation_ge parent acc u :
  st_creationDate parent <= a_creationDate acc.1 →
  st_creationDate parent <= a_creationDate (updateActivity_key parent acc u).1.
Proof.
  destruct acc as [a c]. simpl. intros H.
  destruct u; simpl; split_ifs; rewrite ?a_expectedNotBeforeCreation_creation;
    simpl; lia.
Qed.

Lemma updateActivity_history_creation updates now a :
  a_creationDate (updateActivity_history updates now a).1.1 = a_creationDate a.
Proof.
  unfold updateActivity_history, a_addHistoryEntry.
  repeat match goal with
         | |- context [match ?o with Some _ => _ | None => _ end] => destruct o; simpl
         | |- context [if ?b then _ else _] => destruct b; simpl
         end; done.
Qed.

Lemma updateActivity_body_creation_ge updates now parent a :
  st_creationDate parent <= a_creationDate a →
  st_creationDate parent <= a_creationDate (updateActivity_body updates now parent a).1.
Proof.
  intros Ha. unfold updateActivity_body.
  pose proof (updateActivity_history_creation updates now a) as Hstart.
  destruct (updateActivity_history updates now a) as [[a0 c0] updates'].
  simpl in Hstart.
  assert (Hfold : st_creationDate parent
                  <= a_creationDate
                       (fold_left (updateActivity_key parent) updates' (a0, c0)).1).
  { apply (fold_left_invariant (λ acc, st_creationDate parent <= a_creationDate acc.1));
      [simpl; lia|]. intros x u. apply updateActivity_key_creation_ge. }
  destruct (fold_left (updateActivity_key parent) updates' (a0, c0)) as [a1 c1].
  simpl in *. destruct c1; done.
Qed.

Lemma updateTask_starts_ok taskId updates now state :
  starts_ok state → starts_ok (updateTask taskId updates now state).1.
Proof.
  intros Hok. unfold updateTask.
  destruct (findItemInDraft state taskId) as [[| li ti t p | |]|] eqn:Hfind; simpl; try done.
  apply starts_ok_modifyTask; [done|]. intros t' Ht' Hd.
  apply found_task_at in Hfind. rewrite Hfind in Ht'. inversion Ht'; subst.
  by apply updateTask_body_starts_ok.
Qed.

Lemma updateSubtask_starts_ok subtaskId updates now state :
  starts_ok state → starts_ok (updateSubtask subtaskId updates now state).1.
Proof.
  intros Hok. unfold updateSubtask.
  destruct (findItemInDraft state subtaskId) as [[| | li ti si st p |]|] eqn:Hfind;
    simpl; try done.
  pose proof (updateSubtask_body_starts_ok updates now p st) as Hbody.
  destruct (updateSubtask_body updates now p st) as [st' changed]. simpl in *.
  apply findItemInDraft_valid in Hfind as (Hp & Hst & _).
  assert (starts_ok (modifySubtask li ti si (λ _, st') state)) as Hmid.
  { apply starts_ok_modifySubtask; [done|]. intros t st0 Ht Hst0 Hc Ha.
    assert (t = p) by congruence. subst t.
    assert (st0 = st) by congruence. subst st0. by apply Hbody. }
  destruct changed; [|done]. by apply starts_ok_modifyTask.
Qed.

Lemma updateActivity_starts_ok activityId updates now state :
  starts_ok state → starts_ok (updateActivity activityId updates now state).1.
Proof.
  intros Hok. unfold updateActivity.
  destruct (findItemInDraft state activityId) as [[| | | li ti si ai a p]|] eqn:Hfind;
    simpl; try done.
  destruct (findItemInDraft state (st_parentId p)) as [parentTaskResult|]; [|done].
  pose proof (updateActivity_body_creation_ge updates now p a) as Hbody.
  destruct (updateActivity_body updates now p a) as [a' changed]. simpl in *.
  apply findItemInDraft_valid in Hfind as (Hp & Ha & _).
  assert (starts_ok (modifyActivity li ti si ai (λ _, a') state)) as Hmid.
  { apply starts_ok_modifyActivity; [done|]. intros st a0 Hst Ha0 Hc.
    assert (st = p) by congruence. subst st.
    assert (a0 = a) by congruence. subst a0. by apply Hbody. }
  destruct changed; [|done].
  apply starts_ok_setLastEditedDate. by apply starts_ok_modifySubtask.
Qed.

(** *** add, delete, reorder *)

Lemma t_starts_ok_set_order v t : t_starts_ok t → t_starts_ok (set_t_order v t).
Proof. done. Qed.

Lemma addTask_starts_ok listId name priority creationDate expectedCompletionDate now newId
    state :
  starts_ok state →
  starts_ok
    (addTask listId name priority creationDate expectedCompletionDate now newId state).1.
Proof.
  intros H. unfold addTask.
  destruct (findIndex _ (s_taskLists state)) as [li|]; [|done].
  destruct (s_taskLists state !! li) as [lst|] eqn:Hlst; [|done]. simpl.
  apply starts_ok_modifyList; [done|]. intros x Hx Hall. simpl.
  apply Forall_app. split; [done|]. apply Forall_singleton. by apply Forall_nil.
Qed.

Lemma addSubtask_starts_ok taskId name priority now newId state :
  starts_ok state → starts_ok (addSubtask taskId name priority now newId state).1.
Proof.
  intros H. unfold addSubtask.
  destruct (findItemInDraft state taskId) as [[|li ti parentTask p| |]|] eqn:Hfind;
    try done. simpl.
  apply found_task_at in Hfind.
  apply starts_ok_modifyTask; [done|]. intros t Ht Hall.
  assert (t = parentTask) by congruence. subst t.
  unfold t_starts_ok in *. simpl. apply Forall_app. split; [done|].
  apply Forall_singleton. simpl. split; [lia|by apply Forall_nil].
Qed.

Lemma addActivity_starts_ok subtaskId name priority now newId state :
  starts_ok state → starts_ok (addActivity subtaskId name priority now newId state).1.
Proof.
  intros H. unfold addActivity.
  destruct (findItemInDraft state subtaskId) as [[| |li ti si parentSubtask p|]|] eqn:Hfind;
    try done. simpl.
  apply findItemInDraft_valid in Hfind as (Hp & Hst & _).
  apply starts_ok_modifyTask; [|done].
  apply starts_ok_modifySubtask; [done|]. intros t st Ht Hst0 Hc Ha.
  assert (t = p) by congruence. subst t.
  assert (st = parentSubtask) by congruence. subst st.
  split; [done|]. unfold st_starts_ok in *. simpl.
  apply Forall_app. split; [done|]. apply Forall_singleton. simpl. lia.
Qed.

Lemma deleteTask_starts_ok taskId state :
  starts_ok state → starts_ok (deleteTask taskId state).
Proof.
  unfold starts_ok, deleteTask. simpl.
  induction (s_taskLists state) as [|lst lists IH]; intros H; simpl; [done|].
  apply Forall_cons in H as [Hall Hrest].
  destruct (_ <? _)%nat.
  - apply Forall_cons. split; [|done]. simpl.
    apply Forall_renumber; [apply t_starts_ok_set_order|]. by apply Forall_List_filter.
  - apply Forall_cons. split; [|by apply IH]. simpl. by apply Forall_List_filter.
Qed.

Lemma deleteSubtask_starts_ok subtaskId now state :
  starts_ok state → starts_ok (deleteSubtask subtaskId now state).
Proof.
  intros H. unfold deleteSubtask.
  destruct (findItemInDraft state subtaskId) as [[| |li ti si st parentTask|]|] eqn:Hfind;
    try done.
  apply found_subtask_at in Hfind as [Hp _].
  destruct (_ <? _)%nat.
  - apply starts_ok_modifyTask; [done|]. intros t Ht Hall.
    assert (t = parentTask) by congruence. subst t.
    unfold t_starts_ok in *. simpl.
    apply Forall_renumber; [done|]. by apply Forall_List_filter.
  - apply starts_ok_modifyTask; [done|]. intros t Ht Hall.
    assert (t = parentTask) by congruence. subst t.
    unfold t_starts_ok in *. simpl. by apply Forall_List_filter.
Qed.

Lemma deleteActivity_starts_ok activityId now state :
  starts_ok state → starts_ok (deleteActivity activityId now state).
Proof.
  intros H. unfold deleteActivity.
  destruct (findItemInDraft state activityId) as [[| | |li ti si ai a parentSubtask]|];
    try done.
  destruct (findItemInDraft state (st_parentId parentSubtask)) as [r|]; [|done].
  destruct (_ <? _)%nat.
  - apply starts_ok_modifySubtask; [by apply starts_ok_setLastEditedDate|].
    intros t st Ht Hst Hc Ha. split; [done|]. unfold st_starts_ok in *. simpl.
    apply Forall_renumber; [done|]. by apply Forall_List_filter.
  - apply starts_ok_modifySubtask; [done|].
    intros t st Ht Hst Hc Ha. split; [done|]. unfold st_starts_ok in *. simpl.
    by apply Forall_List_filter.
Qed.

Lemma reorderTasks_starts_ok listId taskIds state :
  starts_ok state → starts_ok (reorderTasks listId taskIds state).
Proof.
  intros H. unfold reorderTasks.
  destruct (findIndex _ (s_taskLists state)) as [li|]; [|done].
  apply starts_ok_modifyList; [done|]. intros lst Hlst Hall. simpl.
  apply Forall_reorderChildren; [apply t_starts_ok_set_order|done].
Qed.

Lemma reorderSubtasks_starts_ok taskId subtaskIds now state :
  starts_ok state → starts_ok (reorderSubtasks taskId subtaskIds now state).
Proof.
  intros H. unfold reorderSubtasks.
  destruct (findItemInDraft state taskId) as [[|li ti parentTask p| |]|]; try done.
  destruct (negb _); [|done].
  apply starts_ok_modifyTask; [done|]. intros t Ht Hall.
  unfold t_starts_ok in *. simpl. by apply Forall_reorderChildren.
Qed.

Lemma reorderActivities_starts_ok subtaskId activityIds now state :
  starts_ok state → starts_ok (reorderActivities subtaskId activityIds now state).
Proof.
  intros H. unfold reorderActivities.
  destruct (findItemInDraft state subtaskId) as [[| |li ti si parentSubtask p|]|];
    try done.
  destruct (negb _); [|done].
  apply starts_ok_modifyTask; [|done].
  apply starts_ok_modifySubtask; [done|]. intros t st Ht Hst Hc Ha.
  split; [done|]. unfold st_starts_ok in *. simpl. by apply Forall_reorderChildren.
Qed.

(** X10.  No operation of the store makes a child start before its parent:
    in a store where every Subtask's creation date is not before its Task's
    and every Activity's not before its Subtask's, that still holds after
    any update, add, delete or reorder. *)
Theorem children_never_start_before_parent (now : Date) (state : TaskStore) :
  starts_ok state →
  (∀ op : UpdateOp, starts_ok (runUpdate op now state).1)
  ∧ (∀ op : OrderOp, starts_ok (runOrderOp op now state)).
Proof.
  intros H. split; intros op; destruct op; simpl.
  - by apply updateTask_starts_ok.
  - by apply updateSubtask_starts_ok.
  - by apply updateActivity_starts_ok.
  - by apply addTask_starts_ok.
  - by apply addSubtask_starts_ok.
  - by apply addActivity_starts_ok.
  - by apply deleteTask_starts_ok.
  - by apply deleteSubtask_starts_ok.
  - by apply deleteActivity_starts_ok.
  - by apply reorderTasks_starts_ok.
  - by apply reorderSubtasks_starts_ok.
  - by apply reorderActivities_starts_ok.
Qed.

(** ** Parent links *)

Lemma parentLinks_ok_modifyList li f state :
  parentLinks_ok state →
  (∀ lst, s_taskLists state !! li = Some lst →
          Forall t_links_ok (l_tasks lst) → Forall t_links_ok (l_tasks (f lst))) →
  parentLinks_ok (modifyList li f state).
Proof. intros H Hf. unfold parentLinks_ok, modifyList. simpl. by apply Forall_alter. Qed.

Lemma parentLinks_ok_modifyTask li ti f state :
  parentLinks_ok state →
  (∀ t, taskAt state li ti = Some t → t_links_ok t → t_links_ok (f t)) →
  parentLinks_ok (modifyTask li ti f state).
Proof.
  intros H Hf. apply parentLinks_ok_modifyList; [done|]. intros lst Hlst Hok.
  simpl. apply Forall_alter; [done|].
  intros t Ht. apply Hf. unfold taskAt. by rewrite Hlst.
Qed.

Lemma parentLinks_ok_modifySubtask li ti si f state :
  parentLinks_ok state →
  (∀ st, subtaskAt state li ti si = Some st → st_parentId (f st) = st_parentId st) →
  parentLinks_ok (modifySubtask li ti si f state).
Proof.
  intros H Hf. apply parentLinks_ok_modifyTask; [done|]. intros t Ht Hok.
  unfold t_links_ok in *. simpl. apply Forall_alter; [done|].
  intros st Hst Hid. rewrite Hf; [done|]. unfold subtaskAt. by rewrite Ht.
Qed.

Lemma parentLinks_ok_setLastEditedDate r now state :
  parentLinks_ok state → parentLinks_ok (setLastEditedDate r now state).
Proof.
  intros H. destruct r; simpl.
  - by apply parentLinks_ok_modifyList.
  - by apply parentLinks_ok_modifyTask.
  - by apply parentLinks_ok_modifySubtask.
  - by apply parentLinks_ok_modifySubtask.
Qed.

Lemma updateTask_key_id acc u : t_id (updateTask_key acc u).1 = t_id acc.1.
Proof. destruct acc as [t c]. destruct u; simpl; split_ifs; done. Qed.

Lemma cascadeSubtask_parentId t now st :
  st_parentId (cascadeSubtask t now st) = st_parentId st.
Proof. unfold cascadeSubtask. split_ifs; done. Qed.

Lemma updateTask_body_links_ok updates now t :
  t_links_ok t → t_links_ok (updateTask_body updates now t).
Proof.
  intros Hok. unfold updateTask_body.
  set (start := match updates_description updates with
                | Some _ => _ | None => _ end).
  assert (Hstart : t_links_ok start.1).
  { subst start. destruct (updates_description updates); [|done]. by destruct (negb _). }
  destruct start as [t0 c0].
  assert (Hfold : t_links_ok (fold_left updateTask_key updates (t0, c0)).1).
  { apply (fold_left_invariant (λ acc, t_links_ok acc.1)); [done|].
    intros x u Hx. unfold t_links_ok.
    by rewrite updateTask_key_subtasks, updateTask_key_id. }
  destruct (fold_left updateTask_key updates (t0, c0)) as [t1 c1]. simpl in Hfold.
  assert (H2 : t_links_ok (if c1 then set_t_lastEditedDate now t1 else t1))
    by (destruct c1; done).
  destruct (updates_hasDate updates); [|done].
  unfold t_links_ok in *. simpl. apply Forall_map.
  eapply Forall_impl; [exact H2|]. intros st Hst. simpl.
  rewrite cascadeSubtask_parentId, Hst. by destruct c1.
Qed.

Lemma st_expectedNotBeforeCreation_parentId st :
  st_parentId (st_expectedNotBeforeCreation st) = st_parentId st.
Proof. unfold st_expectedNotBeforeCreation. by destruct (_ <? _). Qed.

Lemma updateSubtask_key_parentId parent acc u :
  st_parentId (updateSubtask_key parent acc u).1 = st_parentId acc.1.
Proof.
  destruct acc as [st c]. destruct u; simpl; split_ifs;
    rewrite ?st_expectedNotBeforeCreation_parentId; done.
Qed.

Lemma updateSubtask_body_parentId updates now parent st :
  st_parentId (updateSubtask_body updates now parent st).1 = st_parentId st.
Proof.
  unfold updateSubtask_body.
  set (start := match updates_description updates with
                | Some _ => _ | None => _ end).
  assert (Hstart : st_parentId start.1 = st_parentId st).
  { subst start. destruct (updates_description updates); [|done]. by destruct (negb _). }
  destruct start as [st0 c0].
  assert (Hfold : st_parentId (fold_left (updateSubtask_key parent) updates (st0, c0)).1
                  = st_parentId st).
  { apply (fold_left_invariant (λ acc, st_parentId acc.1 = st_parentId st)); [done|].
    intros x u Hx. by rewrite updateSubtask_key_parentId. }
  destruct (fold_left (updateSubtask_key parent) updates (st0, c0)) as [st1 c1].
  simpl in *. destruct c1, (updates_hasDate updates); done.
Qed.

Lemma updateTask_links_ok taskId updates now state :
  parentLinks_ok state → parentLinks_ok (updateTask taskId updates now state).1.
Proof.
  intros Hok. unfold updateTask.
  destruct (findItemInDraft state taskId) as [[| li ti t p | |]|] eqn:Hfind; simpl; try done.
  apply parentLinks_ok_modifyTask; [done|]. intros t' Ht' Hd.
  apply found_task_at in Hfind. rewrite Hfind in Ht'. inversion Ht'; subst.
  by apply updateTask_body_links_ok.
Qed.

Lemma updateSubtask_links_ok subtaskId updates now state :
  parentLinks_ok state → parentLinks_ok (updateSubtask subtaskId updates now state).1.
Proof.
  intros Hok. unfold updateSubtask.
  destruct (findItemInDraft state subtaskId) as [[| | li ti si st p |]|] eqn:Hfind;
    simpl; try done.
  pose proof (updateSubtask_body_parentId updates now p st) as Hbody.
  destruct (updateSubtask_body updates now p st) as [st' changed]. simpl in *.
  apply found_subtask_at in Hfind as [_ Hst].
  assert (parentLinks_ok (modifySubtask li ti si (λ _, st') state)) as Hmid.
  { apply parentLinks_ok_modifySubtask; [done|]. intros st0 Hst0. congruence. }
  destruct changed; [|done]. by apply parentLinks_ok_modifyTask.
Qed.

Lemma updateActivity_links_ok activityId updates now state :
  parentLinks_ok state → parentLinks_ok (updateActivity activityId updates now state).1.
Proof.
  intros Hok. unfold updateActivity.
  destruct (findItemInDraft state activityId) as [[| | | li ti si ai a p]|]; simpl; try done.
  destruct (findItemInDraft state (st_parentId p)) as [parentTaskResult|]; [|done].
  destruct (updateActivity_body updates now p a) as [a' changed]. simpl.
  assert (parentLinks_ok (modifyActivity li ti si ai (λ _, a') state)) as Hmid
    by (by apply parentLinks_ok_modifySubtask).
  destruct changed; [|done].
  apply parentLinks_ok_setLastEditedDate. by apply parentLinks_ok_modifySubtask.
Qed.

Lemma t_links_ok_set_order v t : t_links_ok t → t_links_ok (set_t_order v t).
Proof. done. Qed.

Lemma addTask_links_ok listId name priority creationDate expectedCompletionDate now newId
    state :
  parentLinks_ok state →
  parentLinks_ok
    (addTask listId name priority creationDate expectedCompletionDate now newId state).1.
Proof.
  intros H. unfold addTask.
  destruct (findIndex _ (s_taskLists state)) as [li|]; [|done].
  destruct (s_taskLists state !! li) as [lst|] eqn:Hlst; [|done]. simpl.
  apply parentLinks_ok_modifyList; [done|]. intros x Hx Hall. simpl.
  apply Forall_app. split; [done|]. apply Forall_singleton. by apply Forall_nil.
Qed.

Lemma addSubtask_links_ok taskId name priority now newId state :
  parentLinks_ok state →
  parentLinks_ok (addSubtask taskId name priority now newId state).1.
Proof.
  intros H. unfold addSubtask.
  destruct (findItemInDraft state taskId) as [[|li ti parentTask p| |]|] eqn:Hfind;
    try done. simpl.
  apply findItemInDraft_valid in Hfind as (Hl & Ht & Hid).
  apply parentLinks_ok_modifyTask; [done|]. intros t Hat Hall.
  assert (t = parentTask) by (unfold taskAt in Hat; rewrite Hl in Hat; simpl in Hat;
                               congruence).
  subst t. unfold t_links_ok in *. simpl. apply Forall_app. split; [done|].
  apply Forall_singleton. simpl. done.
Qed.

Lemma addActivity_links_ok subtaskId name priority now newId state :
  parentLinks_ok state →
  parentLinks_ok (addActivity subtaskId name priority now newId state).1.
Proof.
  intros H. unfold addActivity.
  destruct (findItemInDraft state subtaskId) as [[| |li ti si parentSubtask p|]|];
    try done. simpl.
  apply parentLinks_ok_modifyTask; [|done]. by apply parentLinks_ok_modifySubtask.
Qed.

Lemma deleteTask_links_ok taskId state :
  parentLinks_ok state → parentLinks_ok (deleteTask taskId state).
Proof.
  unfold parentLinks_ok, deleteTask. simpl.
  induction (s_taskLists state) as [|lst lists IH]; intros H; simpl; [done|].
  apply Forall_cons in H as [Hall Hrest].
  destruct (_ <? _)%nat.
  - apply Forall_cons. split; [|done]. simpl.
    apply (Forall_renumber set_t_order t_links_ok); [apply t_links_ok_set_order|].
    by apply Forall_List_filter.
  - apply Forall_cons. split; [|by apply IH]. simpl. by apply Forall_List_filter.
Qed.

Lemma deleteSubtask_links_ok subtaskId now state :
  parentLinks_ok state → parentLinks_ok (deleteSubtask subtaskId now state).
Proof.
  intros H. unfold deleteSubtask.
  destruct (findItemInDraft state subtaskId) as [[| |li ti si st parentTask|]|] eqn:Hfind;
    try done.
  apply found_subtask_at in Hfind as [Hp _].
  destruct (_ <? _)%nat.
  - apply parentLinks_ok_modifyTask; [done|]. intros t Ht Hall.
    assert (t = parentTask) by congruence. subst t.
    unfold t_links_ok in *. simpl.
    apply Forall_renumber; [done|]. by apply Forall_List_filter.
  - apply parentLinks_ok_modifyTask; [done|]. intros t Ht Hall.
    assert (t = parentTask) by congruence. subst t.
    unfold t_links_ok in *. simpl. by apply Forall_List_filter.
Qed.

Lemma deleteActivity_links_ok activityId now state :
  parentLinks_ok state → parentLinks_ok (deleteActivity activityId now state).
Proof.
  intros H. unfold deleteActivity.
  destruct (findItemInDraft state activityId) as [[| | |li ti si ai a parentSubtask]|];
    try done.
  destruct (findItemInDraft state (st_parentId parentSubtask)) as [r|]; [|done].
  destruct (_ <? _)%nat.
  - apply parentLinks_ok_modifySubtask; [by apply parentLinks_ok_setLastEditedDate|done].
  - by apply parentLinks_ok_modifySubtask.
Qed.

Lemma reorderTasks_links_ok listId taskIds state :
  parentLinks_ok state → parentLinks_ok (reorderTasks listId taskIds state).
Proof.
  intros H. unfold reorderTasks.
  destruct (findIndex _ (s_taskLists state)) as [li|]; [|done].
  apply parentLinks_ok_modifyList; [done|]. intros lst Hlst Hall. simpl.
  apply (Forall_reorderChildren t_id t_order set_t_order t_links_ok);
    [apply t_links_ok_set_order|done].
Qed.

Lemma reorderSubtasks_links_ok taskId subtaskIds now state :
  parentLinks_ok state → parentLinks_ok (reorderSubtasks taskId subtaskIds now state).
Proof.
  intros H. unfold reorderSubtasks.
  destruct (findItemInDraft state taskId) as [[|li ti parentTask p| |]|]; try done.
  destruct (negb _); [|done].
  apply parentLinks_ok_modifyTask; [done|]. intros t Ht Hall.
  unfold t_links_ok in *. simpl. by apply Forall_reorderChildren.
Qed.

Lemma reorderActivities_links_ok subtaskId activityIds now state :
  parentLinks_ok state → parentLinks_ok (reorderActivities subtaskId activityIds now state).
Proof.
  intros H. unfold reorderActivities.
  destruct (findItemInDraft state subtaskId) as [[| |li ti si parentSubtask p|]|];
    try done.
  destruct (negb _); [|done].
  apply parentLinks_ok_modifyTask; [|done]. by apply parentLinks_ok_modifySubtask.
Qed.

(** X11.  The parent links are kept by every operation: in a store where the
    [parentId] of every Subtask is the id of the Task that holds it, that
    still holds after any update, add, delete or reorder.  (The initial
    store has no Subtask, so every store the operations build has the
    links.) *)
Theorem parent_links_are_kept (now : Date) (state : TaskStore) :
  parentLinks_ok state →
  (∀ op : UpdateOp, parentLinks_ok (runUpdate op now state).1)
  ∧ (∀ op : OrderOp, parentLinks_ok (runOrderOp op now state)).
Proof.
  intros H. split; intros op; destruct op; simpl.
  - by apply updateTask_links_ok.
  - by apply updateSubtask_links_ok.
  - by apply updateActivity_links_ok.
  - by apply addTask_links_ok.
  - by apply addSubtask_links_ok.
  - by apply addActivity_links_ok.
  - by apply deleteTask_links_ok.
  - by apply deleteSubtask_links_ok.
  - by apply deleteActivity_links_ok.
  - by apply reorderTasks_links_ok.
  - by apply reorderSubtasks_links_ok.
  - by apply reorderActivities_links_ok.
Qed.

(** ** More on delete and add *)

Lemma List_filter_all {A} (p : A → bool) (l : list A) :
  (∀ x, In x l → p x = true) → List.filter p l = l.
Proof.
  induction l as [|x l IH]; simpl; intros H; [done|].
  rewrite (H x) by auto. f_equal. apply IH. auto.
Qed.

Lemma List_filter_shorter {A} (p : A → bool) (l : list A) x :
  In x l → p x = false → (length (List.filter p l) < length l)%nat.
Proof.
  induction l as [|y l IH]; simpl; intros Hin Hp; [done|].
  pose proof (filter_length_le p l).
  destruct Hin as [->|Hin].
  - rewrite Hp. lia.
  - destruct (p y); simpl; [apply IH in Hin; [lia|done]|lia].
Qed.

(** X12.  [deleteTask] with an id that no Task has changes nothing (also when
    the id is that of a list, a Subtask or an Activity). *)
Theorem deleteTask_unknown_id_no_change (taskId : string) (state : TaskStore) :
  (∀ lst t, lst ∈ s_taskLists state → t ∈ l_tasks lst → t_id t ≠ taskId) →
  deleteTask taskId state = state.
Proof.
  intros H. unfold deleteTask.
  assert (Hlists : deleteTask_lists taskId (s_taskLists state) = s_taskLists state).
  { induction (s_taskLists state) as [|lst lists IH]; simpl; [done|].
    assert (Hsame : List.filter (λ t, negb (String.eqb (t_id t) taskId)) (l_tasks lst)
                    = l_tasks lst).
    { apply List_filter_all. intros t Ht. apply negb_true_iff, String.eqb_neq.
      apply (H lst t); [apply list_elem_of_here|by apply list_elem_of_In]. }
    rewrite Hsame, Nat.ltb_irrefl, set_l_tasks_same. f_equal.
    apply IH. intros lst' t Hl Ht. apply (H lst' t); [by apply list_elem_of_further|done]. }
  rewrite Hlists. apply set_s_taskLists_same.
Qed.

Lemma renumber_same_children {A} (set_order : Z → A → A) (l : list A) :
  (∀ v w c, set_order v (set_order w c) = set_order v c) →
  map (set_order 0) (renumber set_order l) = map (set_order 0) l.
Proof.
  intros Hset. unfold renumber.
  assert (H : ∀ g : nat → nat,
             map (set_order 0) (imap (λ index c, set_order (Z.of_nat (g index)) c) l)
             = map (set_order 0) l).
  { induction l as [|x l IH]; intros g; simpl; [done|].
    rewrite Hset. f_equal. apply (IH (λ i, g (S i))). }
  apply (H (λ i, i)).
Qed.

(** X13.  [deleteSubtask] of a Subtask the locator finds: the Subtasks that
    stay are those whose id differs, in their former relative order,
    unchanged but for their order values, which are 0, 1, 2, ... in array
    order; at least one Subtask goes, and the Task is stamped with [now]. *)
Theorem deleteSubtask_removes_and_renumbers (state : TaskStore) (subtaskId : string)
    (now : Date) (li ti si : nat) (st : Subtask) (p : Task) :
  findItemInDraft state subtaskId = Some (FoundSubtask li ti si st p) →
  ∃ t', taskAt (deleteSubtask subtaskId now state) li ti = Some t'
        ∧ map (set_st_order 0) (t_subtasks t')
          = map (set_st_order 0)
              (List.filter (λ s, negb (String.eqb (st_id s) subtaskId)) (t_subtasks p))
        ∧ map st_order (t_subtasks t')
          = map Z.of_nat (seq 0 (length (t_subtasks t')))
        ∧ (length (t_subtasks t') < length (t_subtasks p))%nat
        ∧ t_lastEditedDate t' = now.
Proof.
  intros Hfind. unfold deleteSubtask. rewrite Hfind.
  apply findItemInDraft_valid in Hfind as (Hp & Hst & Hid).
  assert (Hshort : (length (List.filter (λ s, negb (String.eqb (st_id s) subtaskId))
                              (t_subtasks p)) < length (t_subtasks p))%nat).
  { apply (List_filter_shorter _ _ st).
    - by eapply list_elem_of_In, list_elem_of_lookup_2.
    - rewrite Hid. by rewrite String.eqb_refl. }
  assert ((length (List.filter (λ s, negb (String.eqb (st_id s) subtaskId))
                     (t_subtasks p)) <? length (t_subtasks p))%nat = true) as ->
    by (by apply Nat.ltb_lt).
  rewrite taskAt_modifyTask, Hp. simpl. eexists. split; [done|]. simpl.
  split_and!.
  - by apply renumber_same_children.
  - rewrite (renumber_orders st_order set_st_order) by done.
    by rewrite renumber_length.
  - by rewrite renumber_length.
  - done.
Qed.

(** *** Lookup after add *)

Lemma findInSubtasks_new id li ti t' k sts new :
  ¬ In id (flat_map st_allIds sts) →
  st_id new = id →
  findInSubtasks id li ti t' k (sts ++ [new])
  = Some (FoundSubtask li ti (k + length sts) new t').
Proof.
  intros Hfresh Hid.
  revert k. induction sts as [|s sts IH]; intros k; simpl.
  - rewrite Hid, String.eqb_refl. by rewrite Nat.add_0_r.
  - assert (Hs : st_id s ≠ id ∧ ¬ In id (map a_id (st_activities s))
                 ∧ ¬ In id (flat_map st_allIds sts)).
    { split_and!; intros Hin; apply Hfresh;
        change (In id (st_allIds s ++ flat_map st_allIds sts)); apply in_app_iff.
      - left. by left.
      - left. by right.
      - by right. }
    destruct Hs as (Hne & Hacts & Hrest).
    destruct (String.eqb_spec (st_id s) id) as [Heq|_]; [done|].
    assert (findInActivities id li ti k s 0 (st_activities s) = None) as ->
      by (by apply findInActivities_None).
    rewrite IH by done. f_equal. f_equal. lia.
Qed.

Lemma findInTasks_new id li lst k ts j t f new :
  ¬ In id (flat_map t_allIds ts) →
  ts !! j = Some t →
  t_id (f t) = t_id t →
  t_subtasks (f t) = (t_subtasks t ++ [new])%list →
  st_id new = id →
  findInTasks id li lst k (alter f j ts)
  = Some (FoundSubtask li (k + j) (length (t_subtasks t)) new (f t)).
Proof.
  intros Hfresh Hj Hfid Hfsub Hid.
  revert k j Hj. induction ts as [|x ts IH]; intros k j Hj; [done|].
  assert (Hx : t_id x ≠ id ∧ ¬ In id (flat_map st_allIds (t_subtasks x))
               ∧ ¬ In id (flat_map t_allIds ts)).
  { split_and!; intros Hin; apply Hfresh;
      change (In id (t_allIds x ++ flat_map t_allIds ts)); apply in_app_iff.
    - left. by left.
    - left. by right.
    - by right. }
  destruct Hx as (Hne & Hsubs & Hrest).
  destruct j as [|j]; simpl in Hj.
  - inversion Hj; subst x.
    change (alter f 0%nat (t :: ts)) with (f t :: ts). cbn [findInTasks]. rewrite Hfid.
    destruct (String.eqb_spec (t_id t) id) as [Heq|_]; [done|].
    rewrite Hfsub. rewrite (findInSubtasks_new id li k (f t) 0 _ new); [|done..].
    by rewrite Nat.add_0_r.
  - change (alter f (S j) (x :: ts)) with (x :: alter f j ts). cbn [findInTasks].
    destruct (String.eqb_spec (t_id x) id) as [Heq|_]; [done|].
    assert (findInSubtasks id li k x 0 (t_subtasks x) = None) as ->
      by (by apply findInSubtasks_None).
    rewrite (IH Hrest (S k) j Hj). f_equal. f_equal. lia.
Qed.

Lemma findInLists_new id k lists i lst ti t f new :
  ¬ In id (flat_map l_allIds lists) →
  lists !! i = Some lst →
  l_tasks lst !! ti = Some t →
  t_id (f t) = t_id t →
  t_subtasks (f t) = (t_subtasks t ++ [new])%list →
  st_id new = id →
  findInLists id k (alter (λ l, set_l_tasks (alter f ti (l_tasks l)) l) i lists)
  = Some (FoundSubtask (k + i) ti (length (t_subtasks t)) new (f t)).
Proof.
  intros Hfresh Hi Hti Hfid Hfsub Hid.
  revert k i Hi. induction lists as [|x lists IH]; intros k i Hi; [done|].
  assert (Hx : l_id x ≠ id ∧ ¬ In id (flat_map t_allIds (l_tasks x))
               ∧ ¬ In id (flat_map l_allIds lists)).
  { split_and!; intros Hin; apply Hfresh;
      change (In id (l_allIds x ++ flat_map l_allIds lists)); apply in_app_iff.
    - left. by left.
    - left. by right.
    - by right. }
  destruct Hx as (Hne & Htasks & Hrest).
  set (g := λ l, set_l_tasks (alter f ti (l_tasks l)) l) in *.
  destruct i as [|i]; simpl in Hi.
  - inversion Hi; subst x.
    change (alter g 0%nat (lst :: lists)) with (g lst :: lists). cbn [findInLists].
    subst g. cbn [l_id l_tasks set_l_tasks].
    destruct (String.eqb_spec (l_id lst) id) as [Heq|_]; [done|].
    rewrite (findInTasks_new id k _ 0 (l_tasks lst) ti t f new); [|done..].
    by rewrite Nat.add_0_r.
  - change (alter g (S i) (x :: lists)) with (x :: alter g i lists). cbn [findInLists].
    destruct (String.eqb_spec (l_id x) id) as [Heq|_]; [done|].
    assert (findInTasks id k x 0 (l_tasks x) = None) as ->
      by (by apply findInTasks_None).
    rewrite (IH Hrest (S k) i Hi). f_equal. f_equal. lia.
Qed.

(** X14.  Lookup after add: when [addSubtask] is given the id of a Task and
    a new id that nothing in the store has, it returns the new Subtask, and
    the locator then finds that Subtask under the new id, as the last child
    of the Task. *)
Theorem addSubtask_then_find (state : TaskStore) (taskId name newId : string)
    (priority : option Priority) (now : Date) (li ti : nat) (t : Task) (p : TaskList) :
  findItemInDraft state taskId = Some (FoundTask li ti t p) →
  findItemInDraft state newId = None →
  ∃ st t',
    (addSubtask taskId name priority now newId state).2 = Some st
    ∧ findItemInDraft (addSubtask taskId name priority now newId state).1 newId
      = Some (FoundSubtask li ti (length (t_subtasks t)) st t')
    ∧ t_subtasks t' = (t_subtasks t ++ [st])%list
    ∧ st_order st = Z.of_nat (length (t_subtasks t))
    ∧ st_creationDate st = t_creationDate t
    ∧ st_expectedCompletionDate st
      = Z.max (t_expectedCompletionDate t) (t_creationDate t).
Proof.
  intros Hfind Hfresh. unfold addSubtask. rewrite Hfind. simpl.
  apply findItemInDraft_valid in Hfind as (Hl & Ht & Hid).
  unfold findItemInDraft in Hfresh. apply findInLists_None in Hfresh.
  eexists. eexists. split; [done|].
  unfold findItemInDraft, modifyTask, modifyList. simpl.
  split.
  - erewrite (findInLists_new newId 0 (s_taskLists state) li p ti t); [done|done..].
  - simpl. split_and!; try done.
    destruct (_ <? _) eqn:E; lia.
Qed.

(** ** More on the update operations *)

Lemma updateTask_key_unchanged_flag acc u :
  (updateTask_key acc u).2 = false → updateTask_key acc u = acc.
Proof. destruct acc as [t c]. destruct u; simpl; split_ifs; done. Qed.

Lemma updateTask_fold_unchanged_flag updates acc :
  (fold_left updateTask_key updates acc).2 = false →
  fold_left updateTask_key updates acc = acc.
Proof.
  revert acc. induction updates as [|u updates IH]; intros acc H; cbn [fold_left] in *;
    [done|].
  pose proof (IH _ H) as E. rewrite E in H |- *. by apply updateTask_key_unchanged_flag.
Qed.

Lemma updateSubtask_key_unchanged_flag parent acc u :
  (updateSubtask_key parent acc u).2 = false → updateSubtask_key parent acc u = acc.
Proof. destruct acc as [st c]. destruct u; simpl; split_ifs; done. Qed.

Lemma updateSubtask_fold_unchanged_flag parent updates acc :
  (fold_left (updateSubtask_key parent) updates acc).2 = false →
  fold_left (updateSubtask_key parent) updates acc = acc.
Proof.
  revert acc. induction updates as [|u updates IH]; intros acc H; cbn [fold_left] in *;
    [done|].
  pose proof (IH _ H) as E. rewrite E in H |- *.
  by apply updateSubtask_key_unchanged_flag.
Qed.

Lemma updateTask_body_stamped_or_same updates now t :
  t_lastEditedDate (updateTask_body updates now t) = now
  ∨ set_t_subtasks (t_subtasks t) (updateTask_body updates now t) = t.
Proof.
  unfold updateTask_body.
  set (start := match updates_description updates with
                | Some _ => _ | None => _ end).
  assert (Hstart : start.2 = false → start = (t, false)).
  { subst start. destruct (updates_description updates); [|done]. by destruct (negb _). }
  destruct start as [t0 c0]. simpl in Hstart.
  pose proof (updateTask_fold_unchanged_flag updates (t0, c0)) as Hfold.
  destruct (fold_left updateTask_key updates (t0, c0)) as [t1 c1].
  destruct c1.
  - left. by destruct (updates_hasDate updates).
  - right. simpl in Hfold. specialize (Hfold eq_refl). inversion Hfold; subst.
    specialize (Hstart eq_refl). inversion Hstart; subst.
    destruct (updates_hasDate updates); simpl; by destruct t.
Qed.

Lemma updateSubtask_body_stamped_or_same updates now parent st :
  ((updateSubtask_body updates now parent st).2 = true
   ∧ st_lastEditedDate (updateSubtask_body updates now parent st).1 = now)
  ∨ ((updateSubtask_body updates now parent st).2 = false
     ∧ set_st_activities (st_activities st) (updateSubtask_body updates now parent st).1
       = st).
Proof.
  unfold updateSubtask_body.
  set (start := match updates_description updates with
                | Some _ => _ | None => _ end).
  assert (Hstart : start.2 = false → start = (st, false)).
  { subst start. destruct (updates_description updates); [|done]. by destruct (negb _). }
  destruct start as [st0 c0]. simpl in Hstart.
  pose proof (updateSubtask_fold_unchanged_flag parent updates (st0, c0)) as Hfold.
  destruct (fold_left (updateSubtask_key parent) updates (st0, c0)) as [st1 c1].
  destruct c1.
  - left. simpl. by destruct (updates_hasDate updates).
  - right. simpl in Hfold. specialize (Hfold eq_refl). inversion Hfold; subst.
    specialize (Hstart eq_refl). inversion Hstart; subst.
    destruct (updates_hasDate updates); simpl; by destruct st.
Qed.

(** X15.  [lastEditedDate] is refreshed whenever an update changes a field
    of the item itself, and the refresh of a Subtask reaches its Task: after
    [updateTask] either the Task is stamped with [now] or it is the Task it
    was, up to its Subtasks (which the cascade may have clamped); after
    [updateSubtask] either the Subtask and its Task are both stamped with
    [now], or the Subtask is the one it was up to its Activities and the
    stamp of the Task is the one it had. *)
Theorem update_stamps_when_changed :
  (∀ state taskId updates now li ti t p,
     findItemInDraft state taskId = Some (FoundTask li ti t p) →
     ∃ t', taskAt (updateTask taskId updates now state).1 li ti = Some t'
           ∧ (t_lastEditedDate t' = now ∨ set_t_subtasks (t_subtasks t) t' = t))
  ∧ (∀ state subtaskId updates now li ti si st p,
       findItemInDraft state subtaskId = Some (FoundSubtask li ti si st p) →
       ∃ st' t',
         subtaskAt (updateSubtask subtaskId updates now state).1 li ti si = Some st'
         ∧ taskAt (updateSubtask subtaskId updates now state).1 li ti = Some t'
         ∧ ((st_lastEditedDate st' = now ∧ t_lastEditedDate t' = now)
            ∨ (set_st_activities (st_activities st) st' = st
               ∧ t_lastEditedDate t' = t_lastEditedDate p))).
Proof.
  split.
  - intros state taskId updates now li ti t p Hfind.
    eexists. split; [by apply (taskAt_updateTask _ _ _ _ _ _ _ _ Hfind)|].
    apply updateTask_body_stamped_or_same.
  - intros state subtaskId updates now li ti si st p Hfind.
    pose proof (subtaskAt_updateSubtask _ _ updates now _ _ _ _ _ Hfind) as Hat.
    pose proof (updateSubtask_body_stamped_or_same updates now p st) as Hbody.
    unfold updateSubtask in *. rewrite Hfind in *.
    destruct (updateSubtask_body updates now p st) as [st' changed]. simpl in *.
    apply found_subtask_at in Hfind as [Hp Hst].
    assert (Hmid : taskAt (modifySubtask li ti si (λ _, st') state) li ti
                   = Some (set_t_subtasks (alter (λ _, st') si (t_subtasks p)) p))
      by (unfold modifySubtask; by rewrite taskAt_modifyTask, Hp).
    destruct Hbody as [[-> Hstamp]|[-> Hsame]].
    + eexists. eexists. split; [exact Hat|]. rewrite taskAt_modifyTask, Hmid. simpl.
      split; [done|]. by left.
    + eexists. eexists. split; [exact Hat|]. split; [exact Hmid|]. by right.
Qed.

(** X16.  The order of the keys matters to [updateTask].  With the creation
    date first and the expected completion date second, both set to a date
    [d] after the current expected date, the creation date becomes the old
    expected date and only the expected date becomes [d]; with the expected
    date first, both become [d]. *)
Theorem updateTask_key_order_matters (state : TaskStore) (taskId : string)
    (d now : Date) (li ti : nat) (t : Task) (p : TaskList) :
  findItemInDraft state taskId = Some (FoundTask li ti t p) →
  t_creationDate t <= t_expectedCompletionDate t →
  t_expectedCompletionDate t < d →
  (∃ t', taskAt (updateTask taskId [UcreationDate d; UexpectedCompletionDate d] now
                   state).1 li ti = Some t'
         ∧ t_creationDate t' = t_expectedCompletionDate t
         ∧ t_expectedCompletionDate t' = d)
  ∧ (∃ t', taskAt (updateTask taskId [UexpectedCompletionDate d; UcreationDate d] now
                     state).1 li ti = Some t'
           ∧ t_creationDate t' = d
           ∧ t_expectedCompletionDate t' = d).
Proof.
  intros Hfind Hok Hlate. split.
  - eexists. split; [by apply (taskAt_updateTask _ _ _ _ _ _ _ _ Hfind)|].
    unfold updateTask_body. simpl.
    destruct (d =? t_creationDate t) eqn:E1; [lia|]. simpl.
    destruct (d >? t_expectedCompletionDate t) eqn:E2; [|lia]. simpl.
    destruct (d =? t_expectedCompletionDate t) eqn:E3; [lia|]. simpl.
    destruct (d <? t_expectedCompletionDate t) eqn:E4; [lia|]. simpl. done.
  - eexists. split; [by apply (taskAt_updateTask _ _ _ _ _ _ _ _ Hfind)|].
    unfold updateTask_body. simpl.
    destruct (d =? t_expectedCompletionDate t) eqn:E1; [lia|]. simpl.
    destruct (d <? t_creationDate t) eqn:E2; [lia|]. simpl.
    destruct (d =? t_creationDate t) eqn:E3; [lia|]. simpl.
    destruct (d >? d) eqn:E4; [lia|]. simpl. done.
Qed.

(** X17.  [updateSubtask] with one date key.  A new creation date is raised
    to the Task's creation date when it is earlier, and the Subtask's
    expected date is then raised to the new creation date when it is
    earlier; there is no upper bound on the creation date.  A new expected
    date is lowered to the Task's expected date when it is later, and then
    raised to the Subtask's creation date when it is earlier. *)
Theorem updateSubtask_single_date (state : TaskStore) (subtaskId : string)
    (d now : Date) (li ti si : nat) (st : Subtask) (p : Task) :
  findItemInDraft state subtaskId = Some (FoundSubtask li ti si st p) →
  (d ≠ st_creationDate st →
   ∃ st', subtaskAt (updateSubtask subtaskId [UcreationDate d] now state).1 li ti si
          = Some st'
          ∧ st_creationDate st' = Z.max d (t_creationDate p)
          ∧ st_expectedCompletionDate st'
            = Z.max (st_expectedCompletionDate st) (Z.max d (t_creationDate p)))
  ∧ (d ≠ st_expectedCompletionDate st →
     ∃ st', subtaskAt (updateSubtask subtaskId [UexpectedCompletionDate d] now state).1
              li ti si = Some st'
            ∧ st_creationDate st' = st_creationDate st
            ∧ st_expectedCompletionDate st'
              = Z.max (Z.min d (t_expectedCompletionDate p)) (st_creationDate st)).
Proof.
  intros Hfind. split; intros Hne.
  - eexists. split; [by apply (subtaskAt_updateSubtask _ _ _ _ _ _ _ _ _ Hfind)|].
    unfold updateSubtask_body, st_expectedNotBeforeCreation. simpl.
    destruct (d =? st_creationDate st) eqn:E1; [lia|]. simpl.
    destruct (d <? t_creationDate p) eqn:E2; simpl; unfold st_expectedNotBeforeCreation; simpl; split_ifs; simpl in *; lia.
  - eexists. split; [by apply (subtaskAt_updateSubtask _ _ _ _ _ _ _ _ _ Hfind)|].
    unfold updateSubtask_body, st_expectedNotBeforeCreation. simpl.
    destruct (d =? st_expectedCompletionDate st) eqn:E1; [lia|]. simpl.
    destruct (d >? t_expectedCompletionDate p) eqn:E2; simpl; unfold st_expectedNotBeforeCreation; simpl; split_ifs; simpl in *; lia.
Qed.

(** ** The locator depends on the ids only *)

Lemma findInActivities_shape id li ti si st1 st2 k acts1 acts2 :
  map a_id acts1 = map a_id acts2 →
  found_position <$> findInActivities id li ti si st1 k acts1
  = found_position <$> findInActivities id li ti si st2 k acts2.
Proof.
  revert k acts2. induction acts1 as [|a1 acts1 IH]; intros k [|a2 acts2] H;
    simpl in *; try done.
  inversion H as [[Hid Hrest]]. rewrite Hid.
  destruct (String.eqb (a_id a2) id); [done|]. by apply IH.
Qed.

Lemma findInSubtasks_shape id li ti t1 t2 k sts1 sts2 :
  map st_shape sts1 = map st_shape sts2 →
  found_position <$> findInSubtasks id li ti t1 k sts1
  = found_position <$> findInSubtasks id li ti t2 k sts2.
Proof.
  revert k sts2. induction sts1 as [|s1 sts1 IH]; intros k [|s2 sts2] H;
    simpl in *; try done.
  inversion H as [[Hid Hacts Hrest]]. rewrite Hid.
  destruct (String.eqb (st_id s2) id); [done|].
  pose proof (findInActivities_shape id li ti k s1 s2 0 _ _ Hacts) as Ha.
  destruct (findInActivities id li ti k s1 0 (st_activities s1)),
    (findInActivities id li ti k s2 0 (st_activities s2)); simpl in Ha; try done.
  by apply IH.
Qed.

Lemma findInTasks_shape id li l1 l2 k ts1 ts2 :
  map t_shape ts1 = map t_shape ts2 →
  found_position <$> findInTasks id li l1 k ts1
  = found_position <$> findInTasks id li l2 k ts2.
Proof.
  revert k ts2. induction ts1 as [|x1 ts1 IH]; intros k [|x2 ts2] H;
    simpl in *; try done.
  inversion H as [[Hid Hsubs Hrest]]. rewrite Hid.
  destruct (String.eqb (t_id x2) id); [done|].
  pose proof (findInSubtasks_shape id li k x1 x2 0 _ _ Hsubs) as Hs.
  destruct (findInSubtasks id li k x1 0 (t_subtasks x1)),
    (findInSubtasks id li k x2 0 (t_subtasks x2)); simpl in Hs; try done.
  by apply IH.
Qed.

Lemma findInLists_shape id k lists1 lists2 :
  map l_shape lists1 = map l_shape lists2 →
  found_position <$> findInLists id k lists1 = found_position <$> findInLists id k lists2.
Proof.
  revert k lists2. induction lists1 as [|x1 lists1 IH]; intros k [|x2 lists2] H;
    simpl in *; try done.
  inversion H as [[Hid Htasks Hrest]]. rewrite Hid.
  destruct (String.eqb (l_id x2) id); [done|].
  pose proof (findInTasks_shape id k x1 x2 0 _ _ Htasks) as Ht.
  destruct (findInTasks id k x1 0 (l_tasks x1)),
    (findInTasks id k x2 0 (l_tasks x2)); simpl in Ht; try done.
  by apply IH.
Qed.

Lemma findItemInDraft_shape state1 state2 id :
  idShape state1 = idShape state2 →
  found_position <$> findItemInDraft state1 id
  = found_position <$> findItemInDraft state2 id.
Proof. apply findInLists_shape. Qed.

Lemma map_alter_same {A B} (g : A → B) (f : A → A) i (l : list A) :
  (∀ x, l !! i = Some x → g (f x) = g x) → map g (alter f i l) = map g l.
Proof.
  revert i. induction l as [|x l IH]; intros [|i] Hf; simpl; try done.
  - by rewrite (Hf x).
  - f_equal. apply IH. intros y Hy. by apply Hf.
Qed.

Lemma idShape_modifyList li f state :
  (∀ lst, s_taskLists state !! li = Some lst → l_shape (f lst) = l_shape lst) →
  idShape (modifyList li f state) = idShape state.
Proof. intros Hf. unfold idShape, modifyList. simpl. by apply map_alter_same. Qed.

Lemma idShape_modifyTask li ti f state :
  (∀ t, taskAt state li ti = Some t → t_shape (f t) = t_shape t) →
  idShape (modifyTask li ti f state) = idShape state.
Proof.
  intros Hf. apply idShape_modifyList. intros lst Hlst.
  unfold l_shape. simpl. f_equal. apply map_alter_same.
  intros t Ht. apply Hf. unfold taskAt. by rewrite Hlst.
Qed.

Lemma idShape_modifySubtask li ti si f state :
  (∀ st, subtaskAt state li ti si = Some st → st_shape (f st) = st_shape st) →
  idShape (modifySubtask li ti si f state) = idShape state.
Proof.
  intros Hf. apply idShape_modifyTask. intros t Ht.
  unfold t_shape. simpl. f_equal. apply map_alter_same.
  intros st Hst. apply Hf. unfold subtaskAt. by rewrite Ht.
Qed.

Lemma idShape_modifyActivity li ti si ai f state :
  (∀ a, activityAt state li ti si ai = Some a → a_id (f a) = a_id a) →
  idShape (modifyActivity li ti si ai f state) = idShape state.
Proof.
  intros Hf. apply idShape_modifySubtask. intros st Hst.
  unfold st_shape. simpl. f_equal. apply map_alter_same.
  intros a Ha. apply Hf. unfold activityAt. by rewrite Hst.
Qed.

Lemma idShape_setLastEditedDate r now state :
  idShape (setLastEditedDate r now state) = idShape state.
Proof.
  destruct r; simpl.
  - by apply idShape_modifyList.
  - by apply idShape_modifyTask.
  - by apply idShape_modifySubtask.
  - by apply idShape_modifyActivity.
Qed.

Lemma cascadeActivity_id st now a : a_id (cascadeActivity st now a) = a_id a.
Proof. unfold cascadeActivity. split_ifs; done. Qed.

Lemma cascadeSubtask_shape t now st : st_shape (cascadeSubtask t now st) = st_shape st.
Proof.
  unfold cascadeSubtask, st_shape. split_ifs; simpl; f_equal; rewrite map_map;
    apply map_ext; intros a; apply cascadeActivity_id.
Qed.

Lemma updateTask_body_shape updates now t :
  t_shape (updateTask_body updates now t) = t_shape t.
Proof.
  unfold updateTask_body.
  set (start := match updates_description updates with
                | Some _ => _ | None => _ end).
  assert (Hstart : t_shape start.1 = t_shape t).
  { subst start. destruct (updates_description updates); [|done]. by destruct (negb _). }
  destruct start as [t0 c0].
  assert (Hfold : t_shape (fold_left updateTask_key updates (t0, c0)).1 = t_shape t).
  { apply (fold_left_invariant (λ acc, t_shape acc.1 = t_shape t)); [done|].
    intros x u Hx. unfold t_shape in *.
    by rewrite updateTask_key_subtasks, updateTask_key_id. }
  destruct (fold_left updateTask_key updates (t0, c0)) as [t1 c1]. simpl in Hfold.
  assert (H2 : t_shape (if c1 then set_t_lastEditedDate now t1 else t1) = t_shape t)
    by (by destruct c1).
  destruct (updates_hasDate updates); [|done].
  rewrite <- H2. unfold t_shape. simpl. f_equal.
  rewrite map_map. apply map_ext. intros st. apply cascadeSubtask_shape.
Qed.

Lemma st_expectedNotBeforeCreation_shape st :
  st_shape (st_expectedNotBeforeCreation st) = st_shape st.
Proof. unfold st_expectedNotBeforeCreation. by destruct (_ <? _). Qed.

Lemma updateSubtask_key_shape parent acc u :
  st_shape (updateSubtask_key parent acc u).1 = st_shape acc.1.
Proof.
  destruct acc as [st c]. destruct u; simpl; split_ifs;
    rewrite ?st_expectedNotBeforeCreation_shape; done.
Qed.

Lemma updateSubtask_body_shape updates now parent st :
  st_shape (updateSubtask_body updates now parent st).1 = st_shape st.
Proof.
  unfold updateSubtask_body.
  set (start := match updates_description updates with
                | Some _ => _ | None => _ end).
  assert (Hstart : st_shape start.1 = st_shape st).
  { subst start. destruct (updates_description updates); [|done]. by destruct (negb _). }
  destruct start as [st0 c0].
  assert (Hfold : st_shape (fold_left (updateSubtask_key parent) updates (st0, c0)).1
                  = st_shape st).
  { apply (fold_left_invariant (λ acc, st_shape acc.1 = st_shape st)); [done|].
    intros x u Hx. by rewrite updateSubtask_key_shape. }
  destruct (fold_left (updateSubtask_key parent) updates (st0, c0)) as [st1 c1].
  simpl in *.
  assert (H2 : st_shape (if c1 then set_st_lastEditedDate now st1 else st1) = st_shape st)
    by (by destruct c1).
  destruct (updates_hasDate updates); [|done].
  rewrite <- H2. unfold st_shape. simpl. f_equal.
  rewrite map_map. apply map_ext. intros a. apply cascadeActivity_id.
Qed.

Lemma a_expectedNotBeforeCreation_id a :
  a_id (a_expectedNotBeforeCreation a) = a_id a.
Proof. unfold a_expectedNotBeforeCreation. by destruct (_ <? _). Qed.

Lemma updateActivity_key_id parent acc u :
  a_id (updateActivity_key parent acc u).1 = a_id acc.1.
Proof.
  destruct acc as [a c]. destruct u; simpl; split_ifs;
    rewrite ?a_expectedNotBeforeCreation_id; done.
Qed.

Lemma updateActivity_history_id updates now a :
  a_id (updateActivity_history updates now a).1.1 = a_id a.
Proof.
  unfold updateActivity_history, a_addHistoryEntry.
  repeat match goal with
         | |- context [match ?o with Some _ => _ | None => _ end] => destruct o; simpl
         | |- context [if ?b then _ else _] => destruct b; simpl
         end; done.
Qed.

Lemma updateActivity_body_id updates now parent a :
  a_id (updateActivity_body updates now parent a).1 = a_id a.
Proof.
  unfold updateActivity_body.
  pose proof (updateActivity_history_id updates now a) as Hstart.
  destruct (updateActivity_history updates now a) as [[a0 c0] updates'].
  simpl in Hstart.
  assert (Hfold : a_id (fold_left (updateActivity_key parent) updates' (a0, c0)).1
                  = a_id a).
  { apply (fold_left_invariant (λ acc, a_id acc.1 = a_id a)); [done|].
    intros x u Hx. by rewrite updateActivity_key_id. }
  destruct (fold_left (updateActivity_key parent) updates' (a0, c0)) as [a1 c1].
  simpl in *. by destruct c1.
Qed.

Lemma runUpdate_idShape op now state : idShape (runUpdate op now state).1 = idShape state.
Proof.
  destruct op; simpl.
  - unfold updateTask.
    destruct (findItemInDraft state taskId) as [[|li ti t p| |]|] eqn:Hfind; try done.
    simpl. apply idShape_modifyTask. intros t' Ht'.
    rewrite (found_task_at _ _ _ _ _ _ Hfind) in Ht'. inversion Ht'; subst.
    apply updateTask_body_shape.
  - unfold updateSubtask.
    destruct (findItemInDraft state subtaskId) as [[| |li ti si st p|]|] eqn:Hfind;
      try done.
    pose proof (updateSubtask_body_shape updates now p st) as Hbody.
    destruct (updateSubtask_body updates now p st) as [st' changed]. simpl in *.
    apply found_subtask_at in Hfind as [_ Hst].
    assert (Hmid : idShape (modifySubtask li ti si (λ _, st') state) = idShape state).
    { apply idShape_modifySubtask. intros st0 Hst0. congruence. }
    destruct changed; [|done]. rewrite idShape_modifyTask; [done|done].
  - unfold updateActivity.
    destruct (findItemInDraft state activityId) as [[| | |li ti si ai a p]|] eqn:Hfind;
      try done.
    destruct (findItemInDraft state (st_parentId p)) as [r|]; [|done].
    pose proof (updateActivity_body_id updates now p a) as Hbody.
    destruct (updateActivity_body updates now p a) as [a' changed]. simpl in *.
    apply found_activity_at in Hfind as [_ Ha].
    assert (Hmid : idShape (modifyActivity li ti si ai (λ _, a') state) = idShape state).
    { apply idShape_modifyActivity. intros a0 Ha0. congruence. }
    destruct changed; [|done].
    rewrite idShape_setLastEditedDate, idShape_modifySubtask; done.
Qed.

(** X18.  An update never renames, moves, adds or removes anything: after
    [updateTask], [updateSubtask] or [updateActivity] every id resolves to
    the same kind of item at the same position as before, or to nothing as
    before. *)
Theorem update_keeps_the_places (op : UpdateOp) (now : Date) (state : TaskStore)
    (id : string) :
  found_position <$> findItemInDraft (runUpdate op now state).1 id
  = found_position <$> findItemInDraft state id.
Proof. apply findItemInDraft_shape, runUpdate_idShape. Qed.

(** ** The further properties on the example stores *)

Lemma findItemInDraft_result_in_tree_witness :
  ∃ r, findItemInDraft store_gate "activity-2" = Some r
       ∧ found_valid store_gate "activity-2" r.
Proof.
  destruct (findItemInDraft store_gate "activity-2") as [r|] eqn:Hfind;
    [|found_value Hfind].
  exists r. split; [reflexivity|]. exact (findItemInDraft_result_in_tree _ _ _ Hfind).
Defined.

Lemma found_item_in_getAllItems_witness :
  ∃ r item, findItem store_gate "activity-2" = Some r
            ∧ found_item r = Some item
            ∧ item ∈ getAllItems store_gate.
Proof.
  destruct (findItem store_gate "activity-2") as [[| | |li ti si ai a p]|] eqn:Hfind;
    found_value Hfind.
  eexists. eexists. split; [reflexivity|]. split; [reflexivity|].
  exact (found_item_in_getAllItems _ _ _ _ Hfind eq_refl).
Defined.

Lemma reorder_gives_listed_order_witness :
  ∃ lst lst',
    s_taskLists store_two_tasks !! 0%nat = Some lst
    ∧ completeOrder t_id ["task-2"; "task-1"] (l_tasks lst)
    ∧ s_taskLists (reorderTasks "default-list" ["task-2"; "task-1"] store_two_tasks)
        !! 0%nat = Some lst'
    ∧ map t_id (l_tasks lst') = ["task-2"; "task-1"]
    ∧ map t_order (l_tasks lst') = [0; 1].
Proof.
  destruct (s_taskLists store_two_tasks !! 0%nat) as [lst|] eqn:Hlst;
    [|found_value Hlst].
  assert (Hcomplete : completeOrder t_id ["task-2"; "task-1"] (l_tasks lst)).
  { found_value Hlst. split.
    - repeat constructor; not_in_list.
    - simpl. apply perm_swap. }
  destruct (proj1 reorder_gives_listed_order store_two_tasks "default-list"
              ["task-2"; "task-1"] 0%nat lst) as (lst' & Hlst' & Hids & Horders);
    [vm_compute; reflexivity|exact Hlst|exact Hcomplete|].
  exists lst, lst'. split; [reflexivity|]. split; [exact Hcomplete|].
  split; [exact Hlst'|]. split; [exact Hids|exact Horders].
Defined.

Lemma reorderTasks_keeps_the_tasks_witness :
  ∃ lst lst',
    s_taskLists store_two_tasks !! 0%nat = Some lst
    ∧ s_taskLists (reorderTasks "default-list" ["task-2"] store_two_tasks) !! 0%nat
      = Some lst'
    ∧ map (set_t_order 0) (l_tasks lst') ≡ₚ map (set_t_order 0) (l_tasks lst).
Proof.
  destruct (s_taskLists store_two_tasks !! 0%nat) as [lst|] eqn:Hlst;
    [|found_value Hlst].
  destruct (reorderTasks_keeps_the_tasks store_two_tasks "default-list" ["task-2"]
              0%nat lst) as (lst' & Hlst' & Hperm & _);
    [vm_compute; reflexivity|exact Hlst|].
  exists lst, lst'. split; [reflexivity|]. split; [exact Hlst'|exact Hperm].
Defined.


Lemma children_never_start_before_parent_witness :
  starts_ok store_gate
  ∧ starts_ok
      (runUpdate (OpUpdateSubtask "subtask-1" [UcreationDate (2 * msPerDay)]) 1
         store_gate).1
  ∧ starts_ok (runOrderOp (OpDeleteActivity "activity-1") 1 store_gate).
Proof.
  assert (H : starts_ok store_gate)
    by (vm_compute; repeat constructor; discriminate).
  split; [exact H|].
  destruct (children_never_start_before_parent 1 store_gate H) as [Hupdate Horder].
  split; [apply Hupdate|apply Horder].
Defined.

Lemma parent_links_are_kept_witness :
  parentLinks_ok store_gate
  ∧ parentLinks_ok
      (runUpdate (OpUpdateTask "task-1" [UexpectedCompletionDate (3 * msPerDay)]) 1
         store_gate).1
  ∧ parentLinks_ok (runOrderOp (OpAddSubtask "task-1" "Review" None "subtask-2") 1
                      store_gate).
Proof.
  assert (H : parentLinks_ok store_gate) by (vm_compute; repeat constructor).
  split; [exact H|].
  destruct (parent_links_are_kept 1 store_gate H) as [Hupdate Horder].
  split; [apply Hupdate|apply Horder].
Defined.

Lemma deleteTask_unknown_id_no_change_witness :
  deleteTask "subtask-1" store_subtask = store_subtask.
Proof.
  apply deleteTask_unknown_id_no_change. intros lst t Hlst Ht.
  apply list_elem_of_In in Hlst. vm_compute in Hlst. destruct Hlst as [<-|[]].
  apply list_elem_of_In in Ht. vm_compute in Ht. destruct Ht as [<-|[]].
  vm_compute. discriminate.
Defined.

Lemma deleteSubtask_removes_and_renumbers_witness :
  ∃ li ti si st p t',
    findItemInDraft store_two_subtasks "subtask-1" = Some (FoundSubtask li ti si st p)
    ∧ map st_id (t_subtasks p) = ["subtask-1"; "subtask-2"]
    ∧ map st_order (t_subtasks p) = [0; 1]
    ∧ taskAt (deleteSubtask "subtask-1" 1 store_two_subtasks) li ti = Some t'
    ∧ map st_id (t_subtasks t') = ["subtask-2"]
    ∧ map st_order (t_subtasks t') = [0]
    ∧ t_lastEditedDate t' = 1.
Proof.
  destruct (findItemInDraft store_two_subtasks "subtask-1") as [[| |li ti si st p|]|]
    eqn:Hfind; found_value Hfind.
  match type of Hfind with
  | _ = Some (FoundSubtask ?li ?ti ?si ?st ?p) =>
      destruct (deleteSubtask_removes_and_renumbers store_two_subtasks "subtask-1" 1
                  li ti si st p Hfind) as (t' & Ht' & Hkept & Horders & _ & Hstamp);
      exists li, ti, si, st, p, t'
  end.
  assert (Hids : map st_id (t_subtasks t') = ["subtask-2"]).
  { apply (f_equal (map st_id)) in Hkept. rewrite !map_map in Hkept.
    etransitivity; [exact Hkept|]. vm_compute. reflexivity. }
  split; [reflexivity|]. split; [vm_compute; reflexivity|].
  split; [vm_compute; reflexivity|]. split; [exact Ht'|]. split; [exact Hids|].
  split; [|exact Hstamp].
  rewrite Horders. apply (f_equal length) in Hids. rewrite length_map in Hids.
  rewrite Hids. reflexivity.
Defined.

Lemma addSubtask_then_find_witness :
  ∃ li ti t p st t',
    findItemInDraft store_task "task-1" = Some (FoundTask li ti t p)
    ∧ findItemInDraft store_task "subtask-1" = None
    ∧ (addSubtask "task-1" "Outline" None 1 "subtask-1" store_task).2 = Some st
    ∧ findItemInDraft (addSubtask "task-1" "Outline" None 1 "subtask-1" store_task).1
        "subtask-1"
      = Some (FoundSubtask li ti (length (t_subtasks t)) st t').
Proof.
  assert (Hnew : findItemInDraft store_task "subtask-1" = None)
    by (vm_compute; reflexivity).
  destruct (findItemInDraft store_task "task-1") as [[|li ti t p| |]|] eqn:Hfind;
    try (found_value Hfind; fail).
  destruct (addSubtask_then_find store_task "task-1" "Outline" "subtask-1" None 1
              _ _ _ _ Hfind Hnew) as (st & t' & Hret & Hfound & _).
  exists li, ti, t, p, st, t'. split; [reflexivity|]. split; [exact Hnew|].
  split; [exact Hret|exact Hfound].
Defined.

Lemma update_stamps_when_changed_witness :
  ∃ li ti t p t',
    findItemInDraft store_subtask "task-1" = Some (FoundTask li ti t p)
    ∧ taskAt (updateTask "task-1" [Uname "Write the report"] 5 store_subtask).1 li ti
      = Some t'
    ∧ (t_lastEditedDate t' = 5 ∨ set_t_subtasks (t_subtasks t) t' = t).
Proof.
  destruct (findItemInDraft store_subtask "task-1") as [[|li ti t p| |]|] eqn:Hfind;
    try (found_value Hfind; fail).
  destruct (proj1 update_stamps_when_changed store_subtask "task-1"
              [Uname "Write the report"] 5 _ _ _ _ Hfind) as (t' & Ht' & Hstamp).
  exists li, ti, t, p, t'. split; [reflexivity|]. split; [exact Ht'|exact Hstamp].
Defined.

Lemma updateTask_key_order_matters_witness :
  ∃ li ti t p t1 t2,
    findItemInDraft store_task "task-1" = Some (FoundTask li ti t p)
    ∧ t_creationDate t <= t_expectedCompletionDate t
    ∧ t_expectedCompletionDate t < 9 * msPerDay
    ∧ taskAt (updateTask "task-1"
                [UcreationDate (9 * msPerDay); UexpectedCompletionDate (9 * msPerDay)]
                1 store_task).1 li ti = Some t1
    ∧ t_creationDate t1 = t_expectedCompletionDate t
    ∧ taskAt (updateTask "task-1"
                [UexpectedCompletionDate (9 * msPerDay); UcreationDate (9 * msPerDay)]
                1 store_task).1 li ti = Some t2
    ∧ t_creationDate t2 = 9 * msPerDay.
Proof.
  destruct (findItemInDraft store_task "task-1") as [[|li ti t p| |]|] eqn:Hfind;
    found_value Hfind.
  match type of Hfind with
  | _ = Some (FoundTask ?li ?ti ?t ?p) =>
      assert (Hle : t_creationDate t <= t_expectedCompletionDate t)
        by (vm_compute; discriminate);
      assert (Hlt : t_expectedCompletionDate t < 9 * msPerDay)
        by (vm_compute; reflexivity);
      destruct (updateTask_key_order_matters store_task "task-1" (9 * msPerDay) 1
                  li ti t p Hfind Hle Hlt)
        as [(t1 & Ht1 & Hc1 & _) (t2 & Ht2 & Hc2 & _)];
      exists li, ti, t, p, t1, t2
  end.
  split; [reflexivity|]. split; [exact Hle|]. split; [exact Hlt|].
  split; [exact Ht1|]. split; [exact Hc1|]. split; [exact Ht2|exact Hc2].
Defined.

Lemma updateSubtask_single_date_witness :
  ∃ li ti si st p st1 st2,
    findItemInDraft store_subtask "subtask-1" = Some (FoundSubtask li ti si st p)
    ∧ 9 * msPerDay ≠ st_creationDate st
    ∧ 9 * msPerDay ≠ st_expectedCompletionDate st
    ∧ subtaskAt (updateSubtask "subtask-1" [UcreationDate (9 * msPerDay)] 1
                   store_subtask).1 li ti si = Some st1
    ∧ st_creationDate st1 = Z.max (9 * msPerDay) (t_creationDate p)
    ∧ subtaskAt (updateSubtask "subtask-1" [UexpectedCompletionDate (9 * msPerDay)] 1
                   store_subtask).1 li ti si = Some st2
    ∧ st_expectedCompletionDate st2
      = Z.max (Z.min (9 * msPerDay) (t_expectedCompletionDate p)) (st_creationDate st).
Proof.
  destruct (findItemInDraft store_subtask "subtask-1") as [[| |li ti si st p|]|]
    eqn:Hfind; found_value Hfind.
  match type of Hfind with
  | _ = Some (FoundSubtask ?li ?ti ?si ?st ?p) =>
      assert (Hc : 9 * msPerDay ≠ st_creationDate st) by (vm_compute; discriminate);
      assert (He : 9 * msPerDay ≠ st_expectedCompletionDate st)
        by (vm_compute; discriminate);
      destruct (updateSubtask_single_date store_subtask "subtask-1" (9 * msPerDay) 1
                  li ti si st p Hfind) as [Hcreation Hexpected];
      destruct (Hcreation Hc) as (st1 & Hst1 & Hc1 & _);
      destruct (Hexpected He) as (st2 & Hst2 & _ & He2);
      exists li, ti, si, st, p, st1, st2
  end.
  split; [reflexivity|]. split; [exact Hc|]. split; [exact He|].
  split; [exact Hst1|]. split; [exact Hc1|]. split; [exact Hst2|exact He2].
Defined.

(** ** Attachments *)

Lemma taskAt_modifyList_keep li' g state li ti :
  (∀ lst, l_tasks (g lst) = l_tasks lst) →
  taskAt (modifyList li' g state) li ti = taskAt state li ti.
Proof.
  intros Hg. unfold taskAt, modifyList. simpl.
  destruct (decide (li' = li)) as [->|Hne].
  - rewrite list_lookup_alter_eq. destruct (s_taskLists state !! li); simpl; [|done].
    by rewrite Hg.
  - by rewrite list_lookup_alter_ne.
Qed.

Lemma subtaskAt_modifyTask_keep gli gti g state li ti si :
  (∀ t, t_subtasks (g t) = t_subtasks t) →
  subtaskAt (modifyTask gli gti g state) li ti si = subtaskAt state li ti si.
Proof.
  intros Hg. unfold subtaskAt, taskAt, modifyTask, modifyList. simpl.
  destruct (decide (gli = li)) as [->|Hne]; [|by rewrite list_lookup_alter_ne].
  rewrite list_lookup_alter_eq. destruct (s_taskLists state !! li) as [lst|]; simpl; [|done].
  destruct (decide (gti = ti)) as [->|Hne]; [|by rewrite list_lookup_alter_ne].
  rewrite list_lookup_alter_eq. destruct (l_tasks lst !! ti); simpl; [|done].
  by rewrite Hg.
Qed.

Lemma activityAt_modifyTask_keep gli gti g state li ti si ai :
  (∀ t, t_subtasks (g t) = t_subtasks t) →
  activityAt (modifyTask gli gti g state) li ti si ai = activityAt state li ti si ai.
Proof. intros Hg. unfold activityAt. by rewrite subtaskAt_modifyTask_keep. Qed.

Lemma activityAt_modifySubtask_keep li ti si g state ai :
  (∀ st, st_activities (g st) = st_activities st) →
  activityAt (modifySubtask li ti si g state) li ti si ai = activityAt state li ti si ai.
Proof.
  intros Hg. unfold activityAt. rewrite subtaskAt_modifySubtask.
  destruct (subtaskAt state li ti si); simpl; [|done]. by rewrite Hg.
Qed.

Lemma activityAt_modifyActivity li ti si ai f state :
  activityAt (modifyActivity li ti si ai f state) li ti si ai
  = f <$> activityAt state li ti si ai.
Proof.
  unfold modifyActivity, activityAt. rewrite subtaskAt_modifySubtask.
  destruct (subtaskAt state li ti si); simpl; [|done].
  by rewrite list_lookup_alter_eq.
Qed.

Lemma idShape_setItemAttachments r atts state :
  idShape (setItemAttachments r atts state) = idShape state.
Proof.
  destruct r; simpl.
  - done.
  - by apply idShape_modifyTask.
  - by apply idShape_modifySubtask.
  - by apply idShape_modifyActivity.
Qed.

Lemma idShape_stampParents r now state :
  idShape (stampParents r now state) = idShape state.
Proof.
  destruct r as [| | |li ti si ai a p]; simpl.
  - done.
  - by apply idShape_modifyList.
  - by apply idShape_modifyTask.
  - assert (Hmid : idShape (modifySubtask li ti si (set_st_lastEditedDate now) state)
                   = idShape state) by (by apply idShape_modifySubtask).
    destruct (findItemInDraft _ (st_parentId p)) as [[| gli gti gt gp | |]|]; try done.
    rewrite idShape_modifyTask; done.
Qed.

(** The locator finds, in a store with the same ids, an item at the same
    position. *)
Lemma attachmentsOf_at state state' id r :
  findItemInDraft state id = Some r →
  idShape state' = idShape state →
  attachmentsOf state' id = attachmentsAt state' r.
Proof.
  intros Hfind Hshape.
  pose proof (findItemInDraft_shape state' state id Hshape) as Hpos.
  rewrite Hfind in Hpos. unfold attachmentsOf.
  destruct (findItemInDraft state' id) as [r'|] eqn:Hfind'; [|done].
  simpl in Hpos. inversion Hpos as [Heq]. clear Hpos.
  destruct r' as [li' l'|li' ti' t' p'|li' ti' si' st' p'|li' ti' si' ai' a' p'],
    r as [li l|li ti t p|li ti si st p|li ti si ai a p]; simpl in Heq;
    inversion Heq; subst; simpl.
  - done.
  - by rewrite (found_task_at _ _ _ _ _ _ Hfind').
  - apply found_subtask_at in Hfind' as [_ ->]. done.
  - apply found_activity_at in Hfind' as [_ ->]. done.
Qed.

(** What the two attachment operations do to the store: the attachments of
    the item are set, and stamps follow. *)
Lemma attachmentsAt_edit r atts now state id :
  findItemInDraft state id = Some r →
  attachmentsOf state id ≠ None →
  attachmentsAt (stampParents r now (setLastEditedDate r now
                   (setItemAttachments r atts state))) r = Some atts
  ∧ attachmentsAt (setItemAttachments r atts state) r = Some atts.
Proof.
  intros Hfind Hitem. unfold attachmentsOf in Hitem. rewrite Hfind in Hitem.
  destruct r as [li l|li ti t p|li ti si st p|li ti si ai a p]; simpl; [done| | |].
  - rewrite taskAt_modifyList_keep by done. rewrite !taskAt_modifyTask.
    by rewrite (found_task_at _ _ _ _ _ _ Hfind).
  - rewrite subtaskAt_modifyTask_keep by done. rewrite !subtaskAt_modifySubtask.
    apply found_subtask_at in Hfind as [_ ->]. done.
  - apply found_activity_at in Hfind as [_ Ha].
    assert (Hmid : ∀ s, activityAt s li ti si ai = Some a →
                        a_attachments <$>
                          activityAt (modifySubtask li ti si (set_st_lastEditedDate now)
                            (modifyActivity li ti si ai (set_a_lastEditedDate now)
                               (modifyActivity li ti si ai (set_a_attachments atts) s)))
                            li ti si ai = Some atts).
    { intros s Hs. rewrite activityAt_modifySubtask_keep by done.
      rewrite !activityAt_modifyActivity, Hs. done. }
    split; [|by rewrite activityAt_modifyActivity, Ha].
    destruct (findItemInDraft _ (st_parentId p)) as [[| gli gti gt gp | |]|];
      rewrite ?activityAt_modifyTask_keep by done; by apply Hmid.
Qed.

Lemma attachmentsOf_edit r atts now state id :
  findItemInDraft state id = Some r →
  attachmentsOf state id ≠ None →
  attachmentsOf (stampParents r now (setLastEditedDate r now
                   (setItemAttachments r atts state))) id = Some atts
  ∧ attachmentsOf (setItemAttachments r atts state) id = Some atts.
Proof.
  intros Hfind Hitem.
  destruct (attachmentsAt_edit r atts now state id Hfind Hitem) as [H1 H2].
  split.
  - rewrite (attachmentsOf_at state _ id r Hfind); [done|].
    by rewrite idShape_stampParents, idShape_setLastEditedDate,
      idShape_setItemAttachments.
  - rewrite (attachmentsOf_at state _ id r Hfind); [done|].
    by rewrite idShape_setItemAttachments.
Qed.

Lemma attachmentsOf_Some state id atts :
  attachmentsOf state id = Some atts →
  ∃ r, findItemInDraft state id = Some r ∧ found_attachments r = atts
       ∧ (∀ li lst, r ≠ FoundTaskList li lst).
Proof.
  unfold attachmentsOf. intros H.
  destruct (findItemInDraft state id) as [[| | |]|]; try done;
    inversion H; subst; eexists; (split; [done|]); split; done.
Qed.

Lemma addAttachment_attachments state itemId data now newId atts :
  attachmentsOf state itemId = Some atts →
  (addAttachment itemId data now newId state).2 = Some newId
  ∧ attachmentsOf (addAttachment itemId data now newId state).1 itemId
    = Some (atts ++ [newAttachment data newId now])%list.
Proof.
  intros Hatts.
  destruct (attachmentsOf_Some _ _ _ Hatts) as (r & Hfind & <- & Hkind).
  assert (Hsome : attachmentsOf state itemId ≠ None) by (by rewrite Hatts).
  destruct (attachmentsOf_edit r (found_attachments r ++ [newAttachment data newId now])
              now state itemId Hfind Hsome) as [Hedit _].
  unfold addAttachment. rewrite Hfind.
  destruct r; [by destruct (Hkind li lst)| | |]; simpl; (split; [done|]); exact Hedit.
Qed.

Lemma deleteAttachment_attachments state itemId attachmentId now atts :
  attachmentsOf state itemId = Some atts →
  let kept := List.filter (λ att, negb (String.eqb (att_id att) attachmentId)) atts in
  (deleteAttachment itemId attachmentId now state).2
  = (length kept <? length atts)%nat
  ∧ attachmentsOf (deleteAttachment itemId attachmentId now state).1 itemId = Some kept.
Proof.
  intros Hatts kept.
  destruct (attachmentsOf_Some _ _ _ Hatts) as (r & Hfind & <- & Hkind).
  assert (Hsome : attachmentsOf state itemId ≠ None) by (by rewrite Hatts).
  destruct (attachmentsOf_edit r kept now state itemId Hfind Hsome) as [Hstamped Hplain].
  unfold deleteAttachment. rewrite Hfind. fold kept.
  destruct r; [by destruct (Hkind li lst)| | |];
    destruct (length kept <? length _)%nat; simpl; (split; [done|]);
    first [exact Hstamped | exact Hplain].
Qed.

Lemma filter_fresh_id attachmentId (atts : list Attachment) :
  attachmentId ∉ map att_id atts →
  List.filter (λ att, negb (String.eqb (att_id att) attachmentId)) atts = atts.
Proof.
  induction atts as [|att atts IH]; intros Hnot; simpl; [done|].
  apply not_elem_of_cons in Hnot as [Hne Hrest].
  destruct (String.eqb_spec (att_id att) attachmentId) as [Heq|_]; [congruence|].
  simpl. by rewrite IH.
Qed.

(** X19.  Add, then delete.  For an id that resolves to a Task, Subtask or
    Activity, [addAttachment] returns the new attachment's id and the item
    then has its former attachments followed by the new one; when no
    attachment of the item had that id, [deleteAttachment] with the id
    returned reports success and the item has its former attachments
    again. *)
Theorem addAttachment_then_deleteAttachment (state : TaskStore) (itemId newId : string)
    (data : AttachmentData) (now now' : Date) (atts : list Attachment) :
  attachmentsOf state itemId = Some atts →
  newId ∉ map att_id atts →
  let added := addAttachment itemId data now newId state in
  let deleted := deleteAttachment itemId newId now' added.1 in
  added.2 = Some newId
  ∧ attachmentsOf added.1 itemId = Some (atts ++ [newAttachment data newId now])%list
  ∧ deleted.2 = true
  ∧ attachmentsOf deleted.1 itemId = Some atts.
Proof.
  intros Hatts Hfresh added deleted.
  destruct (addAttachment_attachments state itemId data now newId atts Hatts)
    as [Hret Hadded].
  split; [exact Hret|]. split; [exact Hadded|].
  destruct (deleteAttachment_attachments added.1 itemId newId now' _ Hadded)
    as [Hflag Hdeleted].
  assert (Hkept : List.filter (λ att, negb (String.eqb (att_id att) newId))
                    (atts ++ [newAttachment data newId now]) = atts).
  { rewrite List.filter_app, (filter_fresh_id _ _ Hfresh). simpl.
    rewrite String.eqb_refl. simpl. by rewrite app_nil_r. }
  simpl in Hflag, Hdeleted. rewrite Hkept in Hflag, Hdeleted.
  split; [|exact Hdeleted].
  fold deleted in Hflag. rewrite Hflag, length_app. simpl.
  apply Nat.ltb_lt. lia.
Qed.

Lemma set_t_attachments_same t : set_t_attachments (t_attachments t) t = t.
Proof. by destruct t. Qed.

Lemma set_st_attachments_same st : set_st_attachments (st_attachments st) st = st.
Proof. by destruct st. Qed.

Lemma set_a_attachments_same a : set_a_attachments (a_attachments a) a = a.
Proof. by destruct a. Qed.

Lemma setItemAttachments_same state id r :
  findItemInDraft state id = Some r →
  setItemAttachments r (found_attachments r) state = state.
Proof.
  intros Hfind. destruct r as [li l|li ti t p|li ti si st p|li ti si ai a p]; simpl.
  - done.
  - apply modifyTask_same. intros t' Ht'.
    rewrite (found_task_at _ _ _ _ _ _ Hfind) in Ht'. inversion Ht'; subst.
    apply set_t_attachments_same.
  - apply modifySubtask_same. intros st' Hst'.
    apply found_subtask_at in Hfind as [_ Hst]. rewrite Hst in Hst'.
    inversion Hst'; subst. apply set_st_attachments_same.
  - apply found_activity_at in Hfind as [Hp Ha].
    apply modifySubtask_same. intros st' Hst'. rewrite Hp in Hst'.
    inversion Hst'; subst. rewrite alter_same; [apply set_st_activities_same|].
    intros a' Ha'. unfold activityAt in Ha. rewrite Hp in Ha. simpl in Ha.
    rewrite Ha in Ha'. inversion Ha'; subst. apply set_a_attachments_same.
Qed.

(** X20.  [deleteAttachment] with an attachment id the item does not have
    reports failure and leaves the whole store as it was, stamps included;
    so does [deleteAttachment] on the id of a list or on an unknown id. *)
Theorem deleteAttachment_unknown_no_change (state : TaskStore)
    (itemId attachmentId : string) (now : Date) :
  (∀ atts, attachmentsOf state itemId = Some atts → attachmentId ∉ map att_id atts) →
  deleteAttachment itemId attachmentId now state = (state, false).
Proof.
  intros Hfresh. unfold deleteAttachment.
  destruct (findItemInDraft state itemId) as [r|] eqn:Hfind; [|done].
  assert (Hkept : (∀ li lst, r ≠ FoundTaskList li lst) →
            List.filter (λ att, negb (String.eqb (att_id att) attachmentId))
              (found_attachments r) = found_attachments r).
  { intros Hkind. apply filter_fresh_id, Hfresh. unfold attachmentsOf. rewrite Hfind.
    destruct r; [by destruct (Hkind li lst)| | |]; done. }
  destruct r as [li l|li ti t p|li ti si st p|li ti si ai a p]; [done| | |];
    (rewrite Hkept by done); rewrite Nat.ltb_irrefl;
    by rewrite (setItemAttachments_same _ _ _ Hfind).
Qed.

(** ** The task lists *)

Lemma getAllItemsRecursive_alter g li lists :
  (∀ lst, l_tasks (g lst) = l_tasks lst) →
  getAllItemsRecursive (alter g li lists) = getAllItemsRecursive lists.
Proof.
  intros Hg. revert li. induction lists as [|lst lists IH]; intros [|li]; simpl; try done.
  - by rewrite Hg.
  - f_equal. apply IH.
Qed.

(** X21.  The operations on task lists never touch an item: after
    [addTaskList] and after [updateTaskListName] the items of the store are
    those before, in the same order; [deleteTaskList] adds no item, every
    item that is left was there before. *)
Theorem taskList_operations_keep_items (state : TaskStore) (listId name newId : string) :
  getAllItems (addTaskList name newId state) = getAllItems state
  ∧ getAllItems (updateTaskListName listId name state) = getAllItems state
  ∧ (∀ item, item ∈ getAllItems (deleteTaskList listId state) →
             item ∈ getAllItems state).
Proof.
  unfold getAllItems. split; [|split].
  - unfold addTaskList, getAllItemsRecursive. simpl.
    rewrite flat_map_app. simpl. by rewrite app_nil_r.
  - unfold updateTaskListName.
    destruct (findIndex _ (s_taskLists state)); [|done].
    unfold modifyList. simpl. by apply getAllItemsRecursive_alter.
  - intros item. unfold deleteTaskList, getAllItemsRecursive. simpl.
    rewrite !list_elem_of_In, !in_flat_map.
    intros (lst & Hlst & Hitem). exists lst. split; [|done].
    apply List.filter_In in Hlst. tauto.
Qed.

Lemma addAttachment_then_deleteAttachment_witness :
  let added := addAttachment "activity-2" example_link 2 "attachment-2" store_attached in
  let deleted := deleteAttachment "activity-2" "attachment-2" 3 added.1 in
  added.2 = Some "attachment-2"
  ∧ attachmentsOf added.1 "activity-2"
    = Some ([newAttachment example_link "attachment-1" 1]
            ++ [newAttachment example_link "attachment-2" 2])%list
  ∧ deleted.2 = true
  ∧ attachmentsOf deleted.1 "activity-2" = Some [newAttachment example_link "attachment-1" 1].
Proof.
  apply (addAttachment_then_deleteAttachment store_attached "activity-2" "attachment-2"
           example_link 2 3 [newAttachment example_link "attachment-1" 1]).
  - vm_compute. reflexivity.
  - simpl. not_in_list.
Defined.

Lemma deleteAttachment_unknown_no_change_witness :
  deleteAttachment "activity-2" "attachment-2" 3 store_attached = (store_attached, false).
Proof.
  apply deleteAttachment_unknown_no_change. intros atts Hatts.
  vm_compute in Hatts. inversion Hatts; subst. simpl.
  intros Hin. apply elem_of_cons in Hin as [Hin|Hin]; [vm_compute in Hin; discriminate Hin|].
  by apply elem_of_nil in Hin.
Defined.

